(** * goxray/tun: the tunnel lifecycle orchestrator ([pkg/client])

    A shallow embedding of [pkg/client]: the [Config] overlay, the
    log-level mapping, the metrics wrapper around the TUN stream, and the
    [Connect] / [Disconnect] orchestration of the client.

    The collaborators of the client (the xray engine, the TUN device, the
    routing table, the packet pipe, the clock) live outside the package.
    They are represented by an environment [Env] that answers every call
    as a function of the calls made so far; the client code is a program
    in a small state monad that records each call it issues together
    with the answer it got. A run returns or panics (nil dereference,
    failed type assertion, an address [route.MustParseAddr] refuses).

    Time is logical: the environment gives the clock reading and the
    moment the pipe task is ready to send its result; a [select] takes
    the case that is ready first. The debug monitors are started and
    stopped as a whole; what they log is left out, as is the command
    line in [main.go]. *)

From Stdlib Require Import String Ascii List ZArith Bool Lia.
Import ListNotations.
Open Scope string_scope.
Open Scope Z_scope.
Set Warnings "-register-all".

(* ===================================================================== *)
(** ** Strings: the fragments of package [strings] the client relies on *)
(* ===================================================================== *)

Module strings.

(** [strings.HasPrefix]. *)
Fixpoint HasPrefix (s pre : string) : bool :=
  match pre, s with
  | EmptyString, _ => true
  | String _ _, EmptyString => false
  | String a pre', String b s' => Ascii.eqb a b && HasPrefix s' pre'
  end.

(** [strings.Contains]: [sub] occurs somewhere inside [s]. *)
Fixpoint Contains (s sub : string) : bool :=
  HasPrefix s sub ||
  match s with
  | EmptyString => false
  | String _ s' => Contains s' sub
  end.

(** The white space of [unicode.IsSpace], as its UTF-8 bytes. One byte:
    tab, line feed, vertical tab, form feed, carriage return, space. *)
Definition isSpace (c : ascii) : bool :=
  let n := nat_of_ascii c in
  (Nat.eqb n 9 || Nat.eqb n 10 || Nat.eqb n 11 || Nat.eqb n 12
   || Nat.eqb n 13 || Nat.eqb n 32)%bool.

(** Two bytes: U+0085 (C2 85) and U+00A0 (C2 A0). *)
Definition isSpace2 (c0 c1 : ascii) : bool :=
  let b0 := nat_of_ascii c0 in
  let b1 := nat_of_ascii c1 in
  (Nat.eqb b0 194 && (Nat.eqb b1 133 || Nat.eqb b1 160))%bool.

(** Three bytes: U+1680 (E1 9A 80), U+2000 to U+200A (E2 80 80 to
    E2 80 8A), U+2028 and U+2029 (E2 80 A8, E2 80 A9), U+202F (E2 80 AF),
    U+205F (E2 81 9F) and U+3000 (E3 80 80). *)
Definition isSpace3 (c0 c1 c2 : ascii) : bool :=
  let b0 := nat_of_ascii c0 in
  let b1 := nat_of_ascii c1 in
  let b2 := nat_of_ascii c2 in
  (Nat.eqb b0 225 && Nat.eqb b1 154 && Nat.eqb b2 128
   || Nat.eqb b0 226 && Nat.eqb b1 128
      && (Nat.leb 128 b2 && Nat.leb b2 138
          || Nat.eqb b2 168 || Nat.eqb b2 169 || Nat.eqb b2 175)
   || Nat.eqb b0 226 && Nat.eqb b1 129 && Nat.eqb b2 159
   || Nat.eqb b0 227 && Nat.eqb b1 128 && Nat.eqb b2 128)%bool.

(** [strings.TrimLeftFunc(s, unicode.IsSpace)]: the leading white space
    is dropped, one code point at a time. A byte that starts no
    well-formed code point is no white space. *)
Fixpoint TrimLeft (s : string) : string :=
  match s with
  | EmptyString => s
  | String c0 s1 =>
      if isSpace c0 then TrimLeft s1
      else
        match s1 with
        | EmptyString => s
        | String c1 s2 =>
            if isSpace2 c0 c1 then TrimLeft s2
            else
              match s2 with
              | EmptyString => s
              | String c2 s3 => if isSpace3 c0 c1 c2 then TrimLeft s3 else s
              end
        end
  end.

Definition reverse (s : string) : string :=
  string_of_list_ascii (rev (list_ascii_of_string s)).

(** The same from the end, on the bytes in reverse order: the code point
    a text ends with is white space when its last bytes are the bytes of
    one. *)
Fixpoint trimReversed (r : string) : string :=
  match r with
  | EmptyString => r
  | String c0 r1 =>
      if isSpace c0 then trimReversed r1
      else
        match r1 with
        | EmptyString => r
        | String c1 r2 =>
            if isSpace2 c1 c0 then trimReversed r2
            else
              match r2 with
              | EmptyString => r
              | String c2 r3 => if isSpace3 c2 c1 c0 then trimReversed r3 else r
              end
        end
  end.

(** [strings.TrimRightFunc(s, unicode.IsSpace)]. *)
Definition TrimRight (s : string) : string := reverse (trimReversed (reverse s)).

(** [strings.TrimSpace]: leading and trailing white space, as defined by
    Unicode, is removed. *)
Definition TrimSpace (s : string) : string := TrimRight (TrimLeft s).

(** [strings.Join]. *)
Fixpoint Join (l : list string) (sep : string) : string :=
  match l with
  | [] => ""
  | x :: rest =>
      match rest with
      | [] => x
      | _ => x ++ sep ++ Join rest sep
      end
  end.

End strings.

(* ===================================================================== *)
(** ** Errors: [errors.New], [fmt.Errorf] with [%w], [errors.Join] *)
(* ===================================================================== *)

Inductive error : Type :=
| errorString (s : string)                (* errors.New(s) *)
| wrapError (msg : string) (err : error)  (* fmt.Errorf("...%w", err) *)
| joinError (errs : list error)           (* errors.Join(...) *)
| DeadlineExceeded                        (* context.DeadlineExceeded *)
| Canceled.                               (* context.Canceled *)

(** The [Error()] method. *)
Fixpoint Error (e : error) : string :=
  match e with
  | errorString s => s
  | wrapError msg _ => msg
  | joinError errs =>
      (fix go (l : list error) : string :=
         match l with
         | [] => ""
         | x :: rest =>
             match rest with
             | [] => Error x
             | _ => Error x ++ String (ascii_of_nat 10) "" ++ go rest
             end
         end) errs
  | DeadlineExceeded => "context deadline exceeded"
  | Canceled => "context canceled"
  end.

(** [fmt.Errorf(prefix + "%w", err)]: the message is formatted when the
    error is built. *)
Definition Errorf_w (prefix : string) (err : error) : error :=
  wrapError (prefix ++ Error err) err.

Module errors.

(** [errors.Join]: nil arguments are dropped; nil when nothing is left. *)
Fixpoint nonNil (errs : list (option error)) : list error :=
  match errs with
  | [] => []
  | None :: rest => nonNil rest
  | Some e :: rest => e :: nonNil rest
  end.

Definition Join (errs : list (option error)) : option error :=
  match nonNil errs with
  | [] => None
  | l => Some (joinError l)
  end.

(** [errors.Is err target]: [target] is met on the [Unwrap] tree of
    [err]. *)
Inductive Is : error -> error -> Prop :=
| Is_here : forall e, Is e e
| Is_wrap : forall msg e t, Is e t -> Is (wrapError msg e) t
| Is_join : forall errs e t, In e errs -> Is e t -> Is (joinError errs) t.

End errors.

(* ===================================================================== *)
(** ** [log/slog] levels and handlers, xray log severities *)
(* ===================================================================== *)

Module slog.

Definition Level := Z.
Definition LevelDebug : Level := -4.
Definition LevelInfo : Level := 0.
Definition LevelWarn : Level := 4.
Definition LevelError : Level := 8.

(** The one method of [slog.Handler] the client calls. *)
Record Handler : Type := { Enabled : Level -> bool }.

(** The handlers built by [slog.NewTextHandler] and [slog.NewJSONHandler]:
    a record is enabled when its level reaches the configured minimum. *)
Definition levelHandler (minLevel : Level) : Handler :=
  {| Enabled := fun l => minLevel <=? l |}.

Record Logger : Type := { handler : Handler }.

End slog.

(** [xcommlog.Severity]. *)
Inductive Severity : Type :=
| Severity_Unknown
| Severity_Error
| Severity_Warning
| Severity_Info
| Severity_Debug.

(** [xRayLogLevel]: the [switch] tries its cases from top to bottom. *)
Definition xRayLogLevel (h : slog.Handler) : Severity :=
  if slog.Enabled h slog.LevelDebug then Severity_Debug
  else if slog.Enabled h slog.LevelInfo then Severity_Info
  else if slog.Enabled h slog.LevelError then Severity_Error
  else if slog.Enabled h slog.LevelWarn then Severity_Warning
  else Severity_Unknown.

(* ===================================================================== *)
(** ** Network values: [net.IP], [net.IPNet], [route.Addr], [route.Opts] *)
(* ===================================================================== *)

(** [net.IP] is a byte slice. *)
Definition IP := list Z.

Record IPNet : Type := { IPNet_IP : IP; IPNet_Mask : list Z }.

(** [route.Addr]: a parsed CIDR prefix. *)
Record Addr : Type := { Addr_IP : IP; Addr_Ones : Z }.

(** [route.Opts]. A nil [Gateway] and an empty [IfName] are the zero
    values. *)
Record Opts : Type := {
  Gateway : option IP;
  IfName : string;
  Routes : list Addr }.

(** [net.IPAddr]: an address with its IPv6 zone. *)
Record IPAddr : Type := { IPAddr_IP : IP; Zone : string }.

(** The prefix of length 32 at [ip]. *)
Definition hostAddr (ip : IP) : Addr := {| Addr_IP := ip; Addr_Ones := 32 |}.

Definition IP_eqb (a b : IP) : bool :=
  if list_eq_dec Z.eq_dec a b then true else false.

Definition Addr_eqb (a b : Addr) : bool :=
  IP_eqb (Addr_IP a) (Addr_IP b) && (Addr_Ones a =? Addr_Ones b).

Fixpoint Addrs_eqb (l1 l2 : list Addr) : bool :=
  match l1, l2 with
  | [], [] => true
  | a :: l1', b :: l2' => Addr_eqb a b && Addrs_eqb l1' l2'
  | _, _ => false
  end.

Definition Opts_eqb (a b : Opts) : bool :=
  match Gateway a, Gateway b with
  | None, None => true
  | Some x, Some y => IP_eqb x y
  | _, _ => false
  end
  && String.eqb (IfName a) (IfName b)
  && Addrs_eqb (Routes a) (Routes b).

(** [net.IPv4(a, b, c, d)]: the 16-byte form of an IPv4 address. *)
Definition IPv4 (a b c d : Z) : IP :=
  [0; 0; 0; 0; 0; 0; 0; 0; 0; 0; 255; 255; a; b; c; d].

(** [Proxy]: where XRay listens for the traffic of the TUN device. *)
Record Proxy : Type := { Proxy_IP : IP; Proxy_Port : Z }.

(* ===================================================================== *)
(** ** [DebugOptions] and [Config] *)
(* ===================================================================== *)

Definition Second : Z := 1000000000.
Definition Millisecond : Z := 1000000.

Definition disconnectTimeout : Z := 30 * Second.

Record DebugOptions : Type := {
  OutputDir : string;
  ResourceInterval : Z;
  GatewayInterval : Z;
  EnableNetlink : bool;
  VerbosePipe : bool;
  ProfileInterval : Z;
  CPUProfileDuration : Z;
  CollectCPUProfile : bool }.

(** [DebugOptions{}]. *)
Definition zeroDebugOptions : DebugOptions :=
  {| OutputDir := ""; ResourceInterval := 0; GatewayInterval := 0;
     EnableNetlink := false; VerbosePipe := false; ProfileInterval := 0;
     CPUProfileDuration := 0; CollectCPUProfile := false |}.

(** Struct comparison [o == (DebugOptions{})]. *)
Definition isZeroDebugOptions (o : DebugOptions) : bool :=
  String.eqb (OutputDir o) "" && (ResourceInterval o =? 0)
  && (GatewayInterval o =? 0) && negb (EnableNetlink o)
  && negb (VerbosePipe o) && (ProfileInterval o =? 0)
  && (CPUProfileDuration o =? 0) && negb (CollectCPUProfile o).

Definition defaultDebugOptions : DebugOptions :=
  {| OutputDir := "debug-output";
     ResourceInterval := 5 * Second;
     GatewayInterval := 3 * Second;
     EnableNetlink := true;
     VerbosePipe := true;
     ProfileInterval := 30 * Second;
     CPUProfileDuration := 30 * Second;
     CollectCPUProfile := true |}.

Definition normalized (o : DebugOptions) : DebugOptions :=
  {| OutputDir := if String.eqb (OutputDir o) "" then "debug-output" else OutputDir o;
     ResourceInterval := if ResourceInterval o <=? 0 then 5 * Second else ResourceInterval o;
     GatewayInterval := if GatewayInterval o <=? 0 then 3 * Second else GatewayInterval o;
     EnableNetlink := EnableNetlink o;
     VerbosePipe := VerbosePipe o;
     ProfileInterval := if ProfileInterval o <=? 0 then 30 * Second else ProfileInterval o;
     CPUProfileDuration := if CPUProfileDuration o <=? 0 then 30 * Second else CPUProfileDuration o;
     CollectCPUProfile := CollectCPUProfile o |}.

(** [xapplog.LogType]. *)
Inductive LogType : Type :=
| LogType_None
| LogType_Console
| LogType_File
| LogType_Event.

Definition isLogType_None (t : LogType) : bool :=
  match t with LogType_None => true | _ => false end.

(** [Config]. Pointer fields and the slice are [None] when nil. *)
Record Config : Type := {
  GatewayIP : option IP;
  InboundProxy : option Proxy;
  TUNAddress : option IPNet;
  RoutesToTUN : option (list Addr);
  TLSAllowInsecure : bool;
  Logger : option slog.Logger;
  XRayLogType : LogType;
  Debug : bool;
  Debug_Options : DebugOptions }.

(** [Config{}]. *)
Definition zeroConfig : Config :=
  {| GatewayIP := None; InboundProxy := None; TUNAddress := None;
     RoutesToTUN := None; TLSAllowInsecure := false; Logger := None;
     XRayLogType := LogType_None; Debug := false;
     Debug_Options := zeroDebugOptions |}.

(** Assignments to one field of a [Config]. *)
Definition set_GatewayIP (v : option IP) (c : Config) : Config :=
  {| GatewayIP := v; InboundProxy := InboundProxy c;
     TUNAddress := TUNAddress c; RoutesToTUN := RoutesToTUN c;
     TLSAllowInsecure := TLSAllowInsecure c; Logger := Logger c;
     XRayLogType := XRayLogType c; Debug := Debug c;
     Debug_Options := Debug_Options c |}.

Definition set_InboundProxy (v : option Proxy) (c : Config) : Config :=
  {| GatewayIP := GatewayIP c; InboundProxy := v;
     TUNAddress := TUNAddress c; RoutesToTUN := RoutesToTUN c;
     TLSAllowInsecure := TLSAllowInsecure c; Logger := Logger c;
     XRayLogType := XRayLogType c; Debug := Debug c;
     Debug_Options := Debug_Options c |}.

Definition set_TUNAddress (v : option IPNet) (c : Config) : Config :=
  {| GatewayIP := GatewayIP c; InboundProxy := InboundProxy c;
     TUNAddress := v; RoutesToTUN := RoutesToTUN c;
     TLSAllowInsecure := TLSAllowInsecure c; Logger := Logger c;
     XRayLogType := XRayLogType c; Debug := Debug c;
     Debug_Options := Debug_Options c |}.

Definition set_RoutesToTUN (v : option (list Addr)) (c : Config) : Config :=
  {| GatewayIP := GatewayIP c; InboundProxy := InboundProxy c;
     TUNAddress := TUNAddress c; RoutesToTUN := v;
     TLSAllowInsecure := TLSAllowInsecure c; Logger := Logger c;
     XRayLogType := XRayLogType c; Debug := Debug c;
     Debug_Options := Debug_Options c |}.

Definition set_Logger (v : option slog.Logger) (c : Config) : Config :=
  {| GatewayIP := GatewayIP c; InboundProxy := InboundProxy c;
     TUNAddress := TUNAddress c; RoutesToTUN := RoutesToTUN c;
     TLSAllowInsecure := TLSAllowInsecure c; Logger := v;
     XRayLogType := XRayLogType c; Debug := Debug c;
     Debug_Options := Debug_Options c |}.

Definition set_XRayLogType (v : LogType) (c : Config) : Config :=
  {| GatewayIP := GatewayIP c; InboundProxy := InboundProxy c;
     TUNAddress := TUNAddress c; RoutesToTUN := RoutesToTUN c;
     TLSAllowInsecure := TLSAllowInsecure c; Logger := Logger c;
     XRayLogType := v; Debug := Debug c;
     Debug_Options := Debug_Options c |}.

Definition set_Debug (v : bool) (c : Config) : Config :=
  {| GatewayIP := GatewayIP c; InboundProxy := InboundProxy c;
     TUNAddress := TUNAddress c; RoutesToTUN := RoutesToTUN c;
     TLSAllowInsecure := TLSAllowInsecure c; Logger := Logger c;
     XRayLogType := XRayLogType c; Debug := v;
     Debug_Options := Debug_Options c |}.

Definition set_Debug_Options (o : DebugOptions) (c : Config) : Config :=
  {| GatewayIP := GatewayIP c; InboundProxy := InboundProxy c;
     TUNAddress := TUNAddress c; RoutesToTUN := RoutesToTUN c;
     TLSAllowInsecure := TLSAllowInsecure c; Logger := Logger c;
     XRayLogType := XRayLogType c; Debug := Debug c;
     Debug_Options := o |}.

(** [(c *Config) apply(new *Config)], one [if] after the other. *)
Definition apply (c new : Config) : Config :=
  let c := match GatewayIP new with
           | Some _ => set_GatewayIP (GatewayIP new) c
           | None => c
           end in
  let c := match InboundProxy new with
           | Some _ => set_InboundProxy (InboundProxy new) c
           | None => c
           end in
  let c := match TUNAddress new with
           | Some _ => set_TUNAddress (TUNAddress new) c
           | None => c
           end in
  let c := match Logger new with
           | Some _ => set_Logger (Logger new) c
           | None => c
           end in
  let c := match RoutesToTUN new with
           | Some _ => set_RoutesToTUN (RoutesToTUN new) c
           | None => c
           end in
  let c := if isLogType_None (XRayLogType new) then c
           else set_XRayLogType (XRayLogType new) c in
  let c := if Debug new then set_Debug true c else c in
  if isZeroDebugOptions (Debug_Options new) then c
  else set_Debug_Options (Debug_Options new) c.

(* ===================================================================== *)
(** ** Metrics wrapper ([metrics.go]) *)
(* ===================================================================== *)

(** Two's-complement wrap-around of [atomic.Int64]. *)
Definition wrap64 (z : Z) : Z := (z + 2 ^ 63) mod 2 ^ 64 - 2 ^ 63.

Definition maxInt64 : Z := 2 ^ 63 - 1.
Definition minInt64 : Z := - 2 ^ 63.

(** [time.Time], as the instant it denotes: the nanoseconds from the
    Unix epoch to it, negative before the epoch. A [time.Time] counts
    seconds from the year 1 in 64 bits, so its instants reach far beyond
    what a 64-bit count of nanoseconds holds. Location and monotonic
    clock reading play no part in what follows. *)
Definition Time : Type := Z.

(** [time.Time{}]: January 1 of the year 1, 00:00:00 UTC, 62135596800
    seconds before the Unix epoch. *)
Definition ZeroTime : Time := -62135596800 * 1000000000.

(** [time.Unix(0, unixNano)]. *)
Definition Instant (unixNano : Z) : Time := unixNano.

(** [t.IsZero()]. *)
Definition IsZero (t : Time) : bool := t =? ZeroTime.

(** [t.UnixNano()]: the count is computed in [int64] and wraps around for
    an instant it cannot hold (before the year 1678 or after 2262). *)
Definition UnixNano (t : Time) : Z := wrap64 t.

(** [atomicTime.Store] and [atomicTime.Load] on the [value] field. *)
Definition atomicTime_Store (t : Time) : Z :=
  if IsZero t then 0 else UnixNano t.

Definition atomicTime_Load (v : Z) : Time :=
  if v =? 0 then ZeroTime else Instant v.

(** The stream a [readerMetrics] wraps: in [Connect] it is the
    [*tun.Interface] returned by [setupTunnel] ([None] is the nil
    pointer); any other implementation is identified by a name. *)
Inductive innerRWC : Type :=
| tunInterface (ifc : option string)
| otherRWC (name : string).

Record readerMetrics : Type := {
  ReadWriteCloser : innerRWC;
  nRead : Z;
  nWritten : Z;
  lastRead : Z;
  lastWrite : Z }.

Definition newReaderMetrics (rw : innerRWC) : readerMetrics :=
  {| ReadWriteCloser := rw; nRead := 0; nWritten := 0;
     lastRead := 0; lastWrite := 0 |}.

Definition readerMetrics_BytesRead (s : readerMetrics) : Z := nRead s.
Definition readerMetrics_BytesWritten (s : readerMetrics) : Z := nWritten s.

(** [readerMetrics.Read]: [res] is what the wrapped [Read] returned and
    [now] what [time.Now()] returns. *)
Definition readerMetrics_Read (s : readerMetrics) (res : Z * option error)
  (now : Time) : (Z * option error) * readerMetrics :=
  match snd res with
  | None =>
      (res, {| ReadWriteCloser := ReadWriteCloser s;
               nRead := wrap64 (nRead s + fst res);
               nWritten := nWritten s;
               lastRead := atomicTime_Store now;
               lastWrite := lastWrite s |})
  | Some _ => (res, s)
  end.

(** [readerMetrics.Write]. *)
Definition readerMetrics_Write (s : readerMetrics) (res : Z * option error)
  (now : Time) : (Z * option error) * readerMetrics :=
  match snd res with
  | None =>
      (res, {| ReadWriteCloser := ReadWriteCloser s;
               nRead := nRead s;
               nWritten := wrap64 (nWritten s + fst res);
               lastRead := lastRead s;
               lastWrite := atomicTime_Store now |})
  | Some _ => (res, s)
  end.

(** [ReaderStats] and [readerMetrics.Stats]. *)
Record ReaderStats : Type := {
  Stats_BytesRead : Z;
  Stats_BytesWritten : Z;
  LastReadAt : Time;
  LastWriteAt : Time }.

Definition readerMetrics_Stats (s : readerMetrics) : ReaderStats :=
  {| Stats_BytesRead := nRead s;
     Stats_BytesWritten := nWritten s;
     LastReadAt := atomicTime_Load (lastRead s);
     LastWriteAt := atomicTime_Load (lastWrite s) |}.

(** One I/O call of the packet pipe on the wrapped stream during a
    session, with the answer of the wrapped stream and the clock. *)
Inductive ioCall : Type :=
| callRead (res : Z * option error) (now : Time)
| callWrite (res : Z * option error) (now : Time).

Definition ioStep (s : readerMetrics) (c : ioCall) : readerMetrics :=
  match c with
  | callRead res now => snd (readerMetrics_Read s res now)
  | callWrite res now => snd (readerMetrics_Write s res now)
  end.

(** The metrics after a sequence of calls. *)
Definition session (calls : list ioCall) (s : readerMetrics) : readerMetrics :=
  fold_left ioStep calls s.

(** What the contract of [io.Reader] and [io.Writer] grants about the
    count a call reports: it is not negative. *)
Definition ioCall_count (c : ioCall) : Z :=
  match c with
  | callRead res _ => fst res
  | callWrite res _ => fst res
  end.

(** Bytes a sequence of calls adds to the read and to the write counter. *)
Definition readDelta (c : ioCall) : Z :=
  match c with
  | callRead (n, None) _ => n
  | _ => 0
  end.

Definition writeDelta (c : ioCall) : Z :=
  match c with
  | callWrite (n, None) _ => n
  | _ => 0
  end.

Fixpoint totalRead (calls : list ioCall) : Z :=
  match calls with
  | [] => 0
  | c :: rest => readDelta c + totalRead rest
  end.

Fixpoint totalWritten (calls : list ioCall) : Z :=
  match calls with
  | [] => 0
  | c :: rest => writeDelta c + totalWritten rest
  end.

(* ===================================================================== *)
(** ** The client and its collaborators *)
(* ===================================================================== *)

(** Handles of the xray library: a parsed protocol and a core instance. *)
Record Protocol : Type := { OrigLink : string }.
Record Instance : Type := { Instance_ID : string }.

(** [xrayproto.GeneralConfig], the field the client reads. *)
Record GeneralConfig : Type := { Address : string }.

(** [xray.Socks], the inbound handed to the service. *)
Record Socks : Type := {
  Socks_Remark : string;
  Socks_Address : IP;
  Socks_Port : Z }.

(** What [xray.NewXrayService] is given. *)
Record XrayService : Type := {
  svc_verbose : bool;
  svc_allowInsecure : bool;
  svc_logType : LogType;
  svc_logLevel : Severity;
  svc_inbound : Socks }.

(** [pipe]: the packet pipe, possibly wrapped for debugging. *)
Inductive pipe : Type :=
| socksPipe
| instrumentedPipe (inner : option pipe) (logger : slog.Logger).

(** The fields of [debugState] that steer the control flow. *)
Record debugState : Type := {
  debug_enabled : bool;
  debug_cancel : bool }.

(** The value held by the interface field [tunnel]. *)
Inductive tunnelValue : Type :=
| rawTunnel (rw : innerRWC)
| metricsTunnel (m : readerMetrics).

(** [Client]. Interface, pointer, channel and function fields are [None]
    (or [false]) when nil. *)
Record Client : Type := {
  cfg : Config;
  xInst : option Instance;
  xCfg : option GeneralConfig;
  xSrvIP : option IPAddr;
  tunnel : option tunnelValue;
  client_pipe : option pipe;
  routes : bool;
  tunnelStopped : bool;
  stopTunnel : bool;
  debug : debugState }.

(** Every call the client issues on a collaborator, with its answer. *)
Inductive event : Type :=
| EvLog (level : slog.Level) (msg : string)
| EvStart (i : Instance) (r : option error)
| EvSleep (d : Z)
| EvTunNew (name : string) (mtu : Z) (r : error + string)
| EvTunUp (ifc : string) (local : IPNet) (peer : IP) (r : option error)
| EvRouteAdd (o : Opts) (r : option error)
| EvRouteDelete (o : Opts) (r : option error)
| EvPipeCopy (p : pipe) (socks5 : Proxy)
| EvDebugStart
| EvDebugStop
| EvStopTunnel
| EvInstClose (i : Instance) (r : option error)
| EvTunClose (rw : innerRWC) (r : option error)
| EvNow (t : Z)
| EvStopped (at_time : Z) (tunErr : option error)
| EvCtxDone (at_time : Z) (err : error).

(** The collaborators. The answers to the calls that touch the host are
    functions of the calls made so far. [pipe_Copy] tells when the oldest
    running pipe task reaches its send on [tunnelStopped] and with which
    error; [select_first] settles a [select] whose two cases are ready
    together. [IP_String] is [net.IP.String]; [MustParseAddr] is
    [route.MustParseAddr] of the routing library, [None] when it
    panics. *)
Record Env : Type := {
  CreateProtocol : XrayService -> string -> error + Protocol;
  Parse : Protocol -> option error;
  ConvertToGeneralConfig : Protocol -> GeneralConfig;
  MakeInstance : XrayService -> Protocol -> error + Instance;
  ResolveIPAddr : string -> error + IPAddr;
  IP_String : IP -> string;
  MustParseAddr : string -> option Addr;
  Instance_Start : list event -> Instance -> option error;
  Instance_Close : list event -> Instance -> option error;
  tun_New : list event -> error + string;
  tun_Up : list event -> string -> IPNet -> IP -> option error;
  rwc_Close : list event -> innerRWC -> option error;
  routes_Add : list event -> Opts -> option error;
  routes_Delete : list event -> Opts -> option error;
  time_Now : list event -> Z;
  pipe_Copy : list event -> option (Z * option error);
  select_first : list event -> bool }.

(** The state a call of the client runs in: the client itself, the calls
    issued so far, and the pipe tasks that have not yet delivered their
    result on [tunnelStopped]. *)
Record World : Type := {
  client : Client;
  events : list event;
  pending : nat }.

(** A call returns, or panics (nil dereference, failed type assertion,
    a panic of [route.MustParseAddr]). *)
Inductive outcome (A : Type) : Type :=
| Returns (a : A)
| Panics (why : string).
Arguments Returns {A} a.
Arguments Panics {A} why.

Definition M (A : Type) : Type := World -> outcome A * World.

Definition ret {A} (a : A) : M A := fun w => (Returns a, w).

Definition bind {A B} (m : M A) (k : A -> M B) : M B :=
  fun w =>
    match m w with
    | (Returns a, w') => k a w'
    | (Panics why, w') => (Panics why, w')
    end.

Notation "x <- m ;; k" := (bind m (fun x => k))
  (at level 61, m at next level, right associativity).
Notation "m ;;; k" := (bind m (fun _ => k))
  (at level 61, right associativity).

Definition panic {A} (why : string) : M A := fun w => (Panics why, w).

Definition getClient : M Client := fun w => (Returns (client w), w).

Definition modifyClient (f : Client -> Client) : M unit :=
  fun w => (Returns tt,
            {| client := f (client w); events := events w; pending := pending w |}).

Definition history : M (list event) := fun w => (Returns (events w), w).

Definition emit (e : event) : M unit :=
  fun w => (Returns tt,
            {| client := client w; events := events w ++ [e]; pending := pending w |}).

Definition getPending : M nat := fun w => (Returns (pending w), w).

Definition setPending (n : nat) : M unit :=
  fun w => (Returns tt, {| client := client w; events := events w; pending := n |}).

(** Field updates of [Client]. *)
Definition set_cfg (v : Config) (c : Client) : Client :=
  {| cfg := v; xInst := xInst c; xCfg := xCfg c; xSrvIP := xSrvIP c;
     tunnel := tunnel c; client_pipe := client_pipe c; routes := routes c;
     tunnelStopped := tunnelStopped c; stopTunnel := stopTunnel c;
     debug := debug c |}.

Definition set_xInst_xCfg (i : option Instance) (g : option GeneralConfig)
  (c : Client) : Client :=
  {| cfg := cfg c; xInst := i; xCfg := g; xSrvIP := xSrvIP c;
     tunnel := tunnel c; client_pipe := client_pipe c; routes := routes c;
     tunnelStopped := tunnelStopped c; stopTunnel := stopTunnel c;
     debug := debug c |}.

Definition set_xSrvIP (ip : option IPAddr) (c : Client) : Client :=
  {| cfg := cfg c; xInst := xInst c; xCfg := xCfg c; xSrvIP := ip;
     tunnel := tunnel c; client_pipe := client_pipe c; routes := routes c;
     tunnelStopped := tunnelStopped c; stopTunnel := stopTunnel c;
     debug := debug c |}.

Definition set_tunnel (t : option tunnelValue) (c : Client) : Client :=
  {| cfg := cfg c; xInst := xInst c; xCfg := xCfg c; xSrvIP := xSrvIP c;
     tunnel := t; client_pipe := client_pipe c; routes := routes c;
     tunnelStopped := tunnelStopped c; stopTunnel := stopTunnel c;
     debug := debug c |}.

Definition set_pipe (p : option pipe) (c : Client) : Client :=
  {| cfg := cfg c; xInst := xInst c; xCfg := xCfg c; xSrvIP := xSrvIP c;
     tunnel := tunnel c; client_pipe := p; routes := routes c;
     tunnelStopped := tunnelStopped c; stopTunnel := stopTunnel c;
     debug := debug c |}.

Definition set_stopTunnel (b : bool) (c : Client) : Client :=
  {| cfg := cfg c; xInst := xInst c; xCfg := xCfg c; xSrvIP := xSrvIP c;
     tunnel := tunnel c; client_pipe := client_pipe c; routes := routes c;
     tunnelStopped := tunnelStopped c; stopTunnel := b;
     debug := debug c |}.

Definition set_debug (d : debugState) (c : Client) : Client :=
  {| cfg := cfg c; xInst := xInst c; xCfg := xCfg c; xSrvIP := xSrvIP c;
     tunnel := tunnel c; client_pipe := client_pipe c; routes := routes c;
     tunnelStopped := tunnelStopped c; stopTunnel := stopTunnel c;
     debug := d |}.

(* ===================================================================== *)
(** ** Construction ([NewClient], [NewClientWithOpts]) *)
(* ===================================================================== *)

(** What the host answers while a client is built: the discovered
    gateway, the pipe and route table constructors, and the port found by
    [getFreePort] when the package is initialised. *)
Record Host : Type := {
  DiscoverGateway : error + IP;
  NewPipe : option error;
  route_New : option error;
  getFreePort : Z }.

Definition defaultTUNAddress : IPNet :=
  {| IPNet_IP := IPv4 192 18 0 1; IPNet_Mask := [255; 255; 255; 255] |}.

Definition defaultInboundProxy (h : Host) : Proxy :=
  {| Proxy_IP := IPv4 127 0 0 1; Proxy_Port := getFreePort h |}.

(** [0.0.0.0/1] and [128.0.0.0/1]. *)
Definition DefaultRoutesToTUN : list Addr :=
  [ {| Addr_IP := [0; 0; 0; 0]; Addr_Ones := 1 |};
    {| Addr_IP := [128; 0; 0; 0]; Addr_Ones := 1 |} ].

(** [slog.New(slog.NewTextHandler(os.Stdout, nil))]: minimum level Info. *)
Definition defaultLogger : slog.Logger :=
  {| slog.handler := slog.levelHandler slog.LevelInfo |}.

Definition syncDebugState (c : Client) : Client :=
  let c := set_cfg (set_Debug_Options (normalized (Debug_Options (cfg c))) (cfg c)) c in
  set_debug {| debug_enabled := Debug (cfg c);
               debug_cancel := debug_cancel (debug c) |} c.

Definition wrapPipeWithDebug (p : option pipe) (logger : option slog.Logger)
  (enabled : bool) : option pipe :=
  if negb enabled then p
  else
    match p with
    | Some (instrumentedPipe _ _) => p
    | _ =>
        Some (instrumentedPipe p
                match logger with Some l => l | None => defaultLogger end)
    end.

Definition rewrapPipe (c : Client) : Client :=
  set_pipe (wrapPipeWithDebug (client_pipe c) (Logger (cfg c))
              (Debug (cfg c) && VerbosePipe (Debug_Options (cfg c)))) c.

Definition NewClient (h : Host) : error + Client :=
  match DiscoverGateway h with
  | inl err => inl (Errorf_w "discover gateway: " err)
  | inr gatewayIP =>
      match NewPipe h with
      | Some err => inl (Errorf_w "tun2socks new pipe: " err)
      | None =>
          match route_New h with
          | Some err => inl (Errorf_w "route new: " err)
          | None =>
              let client :=
                {| cfg := {| GatewayIP := Some gatewayIP;
                             InboundProxy := Some (defaultInboundProxy h);
                             TUNAddress := Some defaultTUNAddress;
                             RoutesToTUN := Some DefaultRoutesToTUN;
                             TLSAllowInsecure := false;
                             Logger := Some defaultLogger;
                             XRayLogType := LogType_None;
                             Debug := false;
                             Debug_Options := defaultDebugOptions |};
                   xInst := None; xCfg := None; xSrvIP := None;
                   tunnel := None;
                   client_pipe := Some socksPipe;
                   routes := true;
                   tunnelStopped := true;
                   stopTunnel := false;
                   debug := {| debug_enabled := false; debug_cancel := false |} |} in
              inr (rewrapPipe (syncDebugState client))
          end
      end
  end.

Definition NewClientWithOpts (h : Host) (c : Config) : error + Client :=
  match NewClient h with
  | inl err => inl err
  | inr client =>
      let client := set_cfg (apply (cfg client) c) client in
      inr (rewrapPipe (syncDebugState client))
  end.

(** [Client.BytesRead] and [Client.BytesWritten]: the type assertion
    of [c.tunnel] to a [readerMetrics] pointer panics on any other
    dynamic type. *)
Definition BytesRead (c : Client) : outcome Z :=
  match tunnel c with
  | None => Returns 0
  | Some (metricsTunnel m) => Returns (readerMetrics_BytesRead m)
  | Some (rawTunnel _) => Panics "interface conversion: not *readerMetrics"
  end.

Definition BytesWritten (c : Client) : outcome Z :=
  match tunnel c with
  | None => Returns 0
  | Some (metricsTunnel m) => Returns (readerMetrics_BytesWritten m)
  | Some (rawTunnel _) => Panics "interface conversion: not *readerMetrics"
  end.

(* ===================================================================== *)
(** ** Contexts and deadlines (package [context]) *)
(* ===================================================================== *)

(** A context is [context.Background()], or derived from a parent with a
    deadline, or with a cancel function that its owner calls at
    [cancelAt] (never, when [None]). *)
Inductive Context : Type :=
| Background
| WithDeadline (parent : Context) (d : Z)
| WithCancel (parent : Context) (cancelAt : option Z).

(** The earlier of a parent's end and an own end. *)
Definition earliest (parent : option (Z * error)) (t : Z) (e : error) : Z * error :=
  match parent with
  | Some (tp, ep) => if tp <=? t then (tp, ep) else (t, e)
  | None => (t, e)
  end.

(** When [ctx.Done()] is closed, and what [ctx.Err()] is from then on. *)
Fixpoint Done (ctx : Context) : option (Z * error) :=
  match ctx with
  | Background => None
  | WithDeadline p d => Some (earliest (Done p) d DeadlineExceeded)
  | WithCancel p (Some t) => Some (earliest (Done p) t Canceled)
  | WithCancel p None => Done p
  end.

(** [ctx.Deadline()]. *)
Fixpoint Deadline (ctx : Context) : option Z :=
  match ctx with
  | Background => None
  | WithDeadline p d =>
      match Deadline p with
      | Some dp => Some (Z.min dp d)
      | None => Some d
      end
  | WithCancel p _ => Deadline p
  end.

(** [context.WithTimeout(parent, timeout)] called at time [now]. *)
Definition WithTimeout (parent : Context) (timeout now : Z) : Context :=
  WithDeadline parent (now + timeout).

(* ===================================================================== *)
(** ** [Connect] and [Disconnect] *)
(* ===================================================================== *)

Section Orchestrator.

Variable env : Env.

(** A call on [c.cfg.Logger]; a nil logger is dereferenced. *)
Definition log (level : slog.Level) (msg : string) : M unit :=
  c <- getClient ;;
  match Logger (cfg c) with
  | None => panic "nil pointer dereference: Logger"
  | Some _ => emit (EvLog level msg)
  end.

(** [c.xInst.Start()] and [c.xInst.Close()]. *)
Definition xInst_Start : M (option error) :=
  c <- getClient ;;
  match xInst c with
  | None => panic "nil pointer dereference: xInst"
  | Some i =>
      h <- history ;;
      let r := Instance_Start env h i in
      emit (EvStart i r) ;;; ret r
  end.

Definition xInst_Close : M (option error) :=
  c <- getClient ;;
  match xInst c with
  | None => panic "nil pointer dereference: xInst"
  | Some i =>
      h <- history ;;
      let r := Instance_Close env h i in
      emit (EvInstClose i r) ;;; ret r
  end.

(** [c.tunnel.Close()]; [readerMetrics.Close] forwards to the stream it
    wraps. *)
Definition tunnel_Close : M (option error) :=
  c <- getClient ;;
  match tunnel c with
  | None => panic "nil pointer dereference: tunnel"
  | Some t =>
      let rw := match t with
                | rawTunnel rw => rw
                | metricsTunnel m => ReadWriteCloser m
                end in
      h <- history ;;
      let r := rwc_Close env h rw in
      emit (EvTunClose rw r) ;;; ret r
  end.

(** [c.routes.Add(o)] and [c.routes.Delete(o)]. *)
Definition routesAdd (o : Opts) : M (option error) :=
  c <- getClient ;;
  if routes c then
    h <- history ;;
    let r := routes_Add env h o in
    emit (EvRouteAdd o r) ;;; ret r
  else panic "nil pointer dereference: routes".

Definition routesDelete (o : Opts) : M (option error) :=
  c <- getClient ;;
  if routes c then
    h <- history ;;
    let r := routes_Delete env h o in
    emit (EvRouteDelete o r) ;;; ret r
  else panic "nil pointer dereference: routes".

(** [currentGatewayIP]: a copy of the configured gateway, nil when there
    is none. *)
Definition currentGatewayIP (c : Client) : option IP := GatewayIP (cfg c).

(** The [String] method of a [net.IPAddr] pointer: ["<nil>"] on the nil
    pointer; otherwise the
    address as [net.IP.String] prints it, nothing for an empty one,
    followed by [%] and the zone when there is a zone. *)
Definition IPAddr_String (a : option IPAddr) : string :=
  match a with
  | None => "<nil>"
  | Some a =>
      let ip := match IPAddr_IP a with
                | [] => ""
                | _ => IP_String env (IPAddr_IP a)
                end in
      if String.eqb (Zone a) "" then ip else ip ++ "%" ++ Zone a
  end.

(** [route.MustParseAddr(c.xSrvIP.String() + "/32")]; [None] when it
    panics. *)
Definition xSrvAddr (c : Client) : option Addr :=
  MustParseAddr env (IPAddr_String (xSrvIP c) ++ "/32").

(** [xrayToGatewayRoute] on the fields of the client: the route to the
    parsed server address through the current gateway. *)
Definition exceptionRoute (c : Client) : option Opts :=
  match xSrvAddr c with
  | None => None
  | Some a =>
      Some {| Gateway := currentGatewayIP c; IfName := ""; Routes := [a] |}
  end.

Definition xrayToGatewayRoute : M Opts :=
  c <- getClient ;;
  match exceptionRoute c with
  | None => panic "MustParseAddr: invalid address"
  | Some o => ret o
  end.

(** The service [createXrayProxy] builds with [xray.NewXrayService]. *)
Definition newService (c : Config) (p : Proxy) (lg : slog.Logger) : XrayService :=
  {| svc_verbose := true;
     svc_allowInsecure := TLSAllowInsecure c;
     svc_logType := XRayLogType c;
     svc_logLevel := xRayLogLevel (slog.handler lg);
     svc_inbound := {| Socks_Remark := "GoXRay-TUN-Listener";
                       Socks_Address := Proxy_IP p;
                       Socks_Port := Proxy_Port p |} |}.

(** [createXrayProxy]. *)
Definition createXrayProxy (link : string)
  : M (option Instance * option GeneralConfig * option error) :=
  c <- getClient ;;
  match InboundProxy (cfg c) with
  | None => panic "nil pointer dereference: InboundProxy"
  | Some p =>
      match Logger (cfg c) with
      | None => panic "nil pointer dereference: Logger"
      | Some lg =>
          let svc := newService (cfg c) p lg in
          let link := strings.TrimSpace link in
          match CreateProtocol env svc link with
          | inl err =>
              ret (None, None, Some (Errorf_w "invalid config: protocol create: " err))
          | inr protocol =>
              match Parse env protocol with
              | Some err =>
                  ret (None, None, Some (Errorf_w "invalid config: parse: " err))
              | None =>
                  let gcfg := ConvertToGeneralConfig env protocol in
                  match MakeInstance env svc protocol with
                  | inl err =>
                      ret (None, None, Some (Errorf_w "make instance: " err))
                  | inr inst =>
                      match ResolveIPAddr env (Address gcfg) with
                      | inl err =>
                          ret (None, None,
                               Some (Errorf_w "xray address not resolvable: " err))
                      | inr ip =>
                          modifyClient (set_xSrvIP (Some ip)) ;;;
                          ret (Some inst, Some gcfg, None)
                      end
                  end
              end
          end
      end
  end.

(** [route.Opts{IfName: ifc.Name(), Routes: c.cfg.RoutesToTUN}]: the
    tunnel routes, bound to the device. *)
Definition tunnelRoute (c : Config) (ifc : string) : Opts :=
  {| Gateway := None; IfName := ifc;
     Routes := match RoutesToTUN c with
               | Some l => l
               | None => []
               end |}.

(** [setupTunnel]: the device pointer ([None] when nil) and the error. *)
Definition setupTunnel : M (option string * option error) :=
  h <- history ;;
  let r := tun_New env h in
  emit (EvTunNew "" 1500 r) ;;;
  match r with
  | inl err => ret (None, Some (Errorf_w "create tun: " err))
  | inr ifc =>
      c <- getClient ;;
      match TUNAddress (cfg c) with
      | None => panic "nil pointer dereference: TUNAddress"
      | Some addr =>
          h <- history ;;
          let r := tun_Up env h ifc addr (IPNet_IP addr) in
          emit (EvTunUp ifc addr (IPNet_IP addr) r) ;;;
          match r with
          | Some err => ret (None, Some (Errorf_w "setup interface: " err))
          | None =>
              err <- routesAdd (tunnelRoute (cfg c) ifc) ;;
              match err with
              | Some err => ret (None, Some (Errorf_w "add route: " err))
              | None => ret (Some ifc, None)
              end
          end
      end
  end.

(** [startDebugging] and [stopDebugging]: the monitors are started and
    stopped as a whole. *)
Definition startDebugging : M unit :=
  c <- getClient ;;
  if negb (debug_enabled (debug c)) || debug_cancel (debug c) then ret tt
  else
    modifyClient (set_debug {| debug_enabled := debug_enabled (debug c);
                               debug_cancel := true |}) ;;;
    emit EvDebugStart.

Definition stopDebugging : M unit :=
  c <- getClient ;;
  if negb (debug_cancel (debug c)) then ret tt
  else
    emit EvDebugStop ;;;
    modifyClient (set_debug {| debug_enabled := debug_enabled (debug c);
                               debug_cancel := false |}).

(** The [go func() { ... }()] of [Connect]: the pipe task is started on
    the wrapped tunnel and owes one send on [tunnelStopped]. *)
Definition spawnPipe : M unit :=
  c <- getClient ;;
  match client_pipe c, InboundProxy (cfg c) with
  | Some p, Some px =>
      emit (EvPipeCopy p px) ;;;
      n <- getPending ;;
      setPending (S n)
  | _, _ => panic "nil pointer dereference: pipe"
  end.

(** [Client.Connect]. *)
Definition Connect (link : string) : M (option error) :=
  log slog.LevelDebug "Connecting to tunnel" ;;;
  r <- createXrayProxy link ;;
  let '(inst, gcfg, err) := r in
  modifyClient (set_xInst_xCfg inst gcfg) ;;;
  match err with
  | Some err =>
      log slog.LevelError "xray core creation failed" ;;;
      ret (Some (Errorf_w "create xray core instance: " err))
  | None =>
      log slog.LevelDebug "xray core instance created" ;;;
      log slog.LevelDebug "starting xray core instance" ;;;
      err <- xInst_Start ;;
      match err with
      | Some err =>
          log slog.LevelError "xray core instance startup failed" ;;;
          ret (Some (Errorf_w "start xray core instance: " err))
      | None =>
          emit (EvSleep (100 * Millisecond)) ;;;
          log slog.LevelDebug "xray core instance started" ;;;
          log slog.LevelDebug "Setting up TUN device" ;;;
          r <- setupTunnel ;;
          let '(ifc, err) := r in
          modifyClient (set_tunnel (Some (rawTunnel (tunInterface ifc)))) ;;;
          match err with
          | Some err =>
              log slog.LevelError "TUN creation failed" ;;;
              ret (Some (Errorf_w "setup TUN device: " err))
          | None =>
              modifyClient
                (set_tunnel (Some (metricsTunnel (newReaderMetrics (tunInterface ifc))))) ;;;
              log slog.LevelDebug "TUN device created" ;;;
              log slog.LevelDebug "adding routes for TUN device" ;;;
              o <- xrayToGatewayRoute ;;
              _ <- routesDelete o ;;
              log slog.LevelDebug "deleted dangling routes" ;;;
              o <- xrayToGatewayRoute ;;
              err <- routesAdd o ;;
              match err with
              | Some err =>
                  _ <- xrayToGatewayRoute ;;
                  log slog.LevelError "routing xray server IP to default route failed" ;;;
                  ret (Some (Errorf_w "add xray server route exception: " err))
              | None =>
                  log slog.LevelDebug "routing xray server IP to default route" ;;;
                  modifyClient (set_stopTunnel true) ;;;
                  spawnPipe ;;;
                  log slog.LevelDebug "client connected" ;;;
                  startDebugging ;;;
                  ret None
              end
          end
      end
  end.

(** The end of [context.WithTimeout(ctx, timeout)] made at [now]. *)
Definition timeoutEnd (ctx : Context) (timeout now : Z) : Z * error :=
  earliest (Done ctx) (now + timeout) DeadlineExceeded.

(** The send a receive from [c.tunnelStopped] can meet: a pipe task
    that still owes its result, on a channel that was made. *)
Definition readySender (c : Client) (n : nat) (h : list event)
  : option (Z * option error) :=
  if tunnelStopped c
  then match n with O => None | S _ => pipe_Copy env h end
  else None.

(** The [select] of [Disconnect], entered at [now], on a context that
    ends at [fst ctxEnd] with error [snd ctxEnd]. A case that became
    ready in the past is ready at [now]; the earlier case is taken. *)
Definition selectStopped (ctxEnd : Z * error) (now : Z) : M (option error + error) :=
  c <- getClient ;;
  n <- getPending ;;
  h <- history ;;
  let td := Z.max now (fst ctxEnd) in
  match readySender c n h with
  | Some (tp, tunErr) =>
      let tp := Z.max now tp in
      if (tp <? td) || ((tp =? td) && select_first env h)
      then setPending (Nat.pred n) ;;; emit (EvStopped tp tunErr) ;;; ret (inl tunErr)
      else emit (EvCtxDone td (snd ctxEnd)) ;;; ret (inr (snd ctxEnd))
  | None => emit (EvCtxDone td (snd ctxEnd)) ;;; ret (inr (snd ctxEnd))
  end.

(** [Client.Disconnect]. *)
Definition Disconnect (ctx : Context) : M (option error) :=
  c <- getClient ;;
  if negb (stopTunnel c) then ret None
  else
    stopDebugging ;;;
    emit EvStopTunnel ;;;
    e1 <- xInst_Close ;;
    e2 <- tunnel_Close ;;
    o <- xrayToGatewayRoute ;;
    e3 <- routesDelete o ;;
    let err := errors.Join [e1; e2; e3] in
    h <- history ;;
    let now := time_Now env h in
    emit (EvNow now) ;;;
    sel <- selectStopped (timeoutEnd ctx disconnectTimeout now) now ;;
    let err := match sel with
               | inl tunErr => errors.Join [tunErr; err]
               | inr ctxErr => errors.Join [Some ctxErr; err]
               end in
    match err with
    | Some err =>
        log slog.LevelError "client disconnect encountered failures" ;;;
        ret (Some err)
    | None =>
        log slog.LevelDebug "client disconnected" ;;;
        ret None
    end.

End Orchestrator.

Arguments IPAddr_String : simpl never.

(* ===================================================================== *)
(** ** Test doubles: a scripted environment, as the mocks of the tests *)
(* ===================================================================== *)

Module Mock.

(** The part of a link after ["://"], when there is one. *)
Fixpoint afterScheme (s : string) : option string :=
  match s with
  | EmptyString => None
  | String c s' =>
      if strings.HasPrefix s "://" then Some (substring 3 (String.length s) s)
      else afterScheme s'
  end.

(** The authority: up to the first of [/], [?], [#]. *)
Fixpoint authority (s : string) : string :=
  match s with
  | EmptyString => EmptyString
  | String c s' =>
      if (Ascii.eqb c "/" || Ascii.eqb c "?" || Ascii.eqb c "#")%char
      then EmptyString
      else String c (authority s')
  end.

Definition knownScheme (link : string) : bool :=
  strings.HasPrefix link "vless://" || strings.HasPrefix link "vmess://"
  || strings.HasPrefix link "trojan://" || strings.HasPrefix link "ss://".

(** A link service that accepts the known schemes and asks for a port. *)
Definition createProtocol (_ : XrayService) (link : string) : error + Protocol :=
  if knownScheme link then inr {| OrigLink := link |}
  else inl (errorString "invalid protocol type").

Definition parse (p : Protocol) : option error :=
  match afterScheme (OrigLink p) with
  | None => Some (errorString "missing scheme")
  | Some rest =>
      if strings.Contains (authority rest) ":" then None
      else Some (errorString "missing port in address")
  end.

(** The script of one run: the answer of each host call. *)
Record Script : Type := {
  s_start : option error;
  s_tunNew : error + string;
  s_tunUp : option error;
  s_addTunnel : option error;
  s_addException : option error;
  s_delete : option error;
  s_instClose : option error;
  s_tunClose : option error;
  s_now : Z;
  s_pipe : option (Z * option error);
  s_first : bool }.

Definition serverIP : IP := [203; 0; 113; 7].

Definition serverIPAddr : IPAddr := {| IPAddr_IP := serverIP; Zone := "" |}.

Definition scripted (s : Script) : Env :=
  {| CreateProtocol := createProtocol;
     Parse := parse;
     ConvertToGeneralConfig := fun p => {| Address := "203.0.113.7" |};
     MakeInstance := fun _ p => inr {| Instance_ID := OrigLink p |};
     ResolveIPAddr := fun a =>
       if String.eqb a "203.0.113.7" then inr serverIPAddr
       else inl (errorString "no such host");
     IP_String := fun ip =>
       if IP_eqb ip serverIP then "203.0.113.7" else "?";
     MustParseAddr := fun s =>
       if String.eqb s "203.0.113.7/32" then Some (hostAddr serverIP) else None;
     Instance_Start := fun _ _ => s_start s;
     Instance_Close := fun _ _ => s_instClose s;
     tun_New := fun _ => s_tunNew s;
     tun_Up := fun _ _ _ _ => s_tunUp s;
     rwc_Close := fun _ _ => s_tunClose s;
     routes_Add := fun _ o =>
       if String.eqb (IfName o) "" then s_addException s else s_addTunnel s;
     routes_Delete := fun _ _ => s_delete s;
     time_Now := fun _ => s_now s;
     pipe_Copy := fun _ => s_pipe s;
     select_first := fun _ => s_first s |}.

(** Every call succeeds; the pipe returns one second after the clock
    reading of [Disconnect]. *)
Definition allGood : Script :=
  {| s_start := None; s_tunNew := inr "utun7"; s_tunUp := None;
     s_addTunnel := None; s_addException := None; s_delete := None;
     s_instClose := None; s_tunClose := None;
     s_now := 1000 * Second; s_pipe := Some (1001 * Second, None);
     s_first := true |}.

Definition host : Host :=
  {| DiscoverGateway := inr [192; 168; 1; 1];
     NewPipe := None; route_New := None; getFreePort := 10808 |}.

(** A freshly built client on [host], in a world without history. *)
Definition freshClient : Client :=
  match NewClient host with
  | inr c => c
  | inl _ =>
      {| cfg := zeroConfig; xInst := None; xCfg := None; xSrvIP := None;
         tunnel := None; client_pipe := None; routes := false;
         tunnelStopped := false; stopTunnel := false;
         debug := {| debug_enabled := false; debug_cancel := false |} |}
  end.

Definition freshWorld : World :=
  {| client := freshClient; events := []; pending := 0 |}.

Definition goodLink : string := "vless://id@server.example:443?security=tls".

(** The environment [e] with another resolver. *)
Definition withResolver (r : string -> error + IPAddr) (e : Env) : Env :=
  {| CreateProtocol := CreateProtocol e;
     Parse := Parse e;
     ConvertToGeneralConfig := ConvertToGeneralConfig e;
     MakeInstance := MakeInstance e;
     ResolveIPAddr := r;
     IP_String := IP_String e;
     MustParseAddr := MustParseAddr e;
     Instance_Start := Instance_Start e;
     Instance_Close := Instance_Close e;
     tun_New := tun_New e;
     tun_Up := tun_Up e;
     rwc_Close := rwc_Close e;
     routes_Add := routes_Add e;
     routes_Delete := routes_Delete e;
     time_Now := time_Now e;
     pipe_Copy := pipe_Copy e;
     select_first := select_first e |}.

End Mock.

(* ===================================================================== *)
(** ** Reading a history *)
(* ===================================================================== *)

(** The calls that reach the engine, the TUN device, the routing table
    or the pipe; the rest are log lines, the settle delay, clock
    readings, the debug monitors and the outcome of the [select]. *)
Definition isHostCall (e : event) : bool :=
  match e with
  | EvStart _ _ | EvTunNew _ _ _ | EvTunUp _ _ _ _
  | EvRouteAdd _ _ | EvRouteDelete _ _ | EvPipeCopy _ _
  | EvInstClose _ _ | EvTunClose _ _ | EvStopTunnel => true
  | _ => false
  end.

Definition hostCalls (l : list event) : list event := filter isHostCall l.

(** Points of a run, read off the calls issued up to there. The tunnel
    routes are bound to the device ([IfName] is its name); the exception
    route names no device and goes through the gateway. *)
Definition isTunnelRoutesAdd (e : event) : bool :=
  match e with
  | EvRouteAdd o None => negb (String.eqb (IfName o) "")
  | _ => false
  end.

Definition isExceptionRouteAdd (e : event) : bool :=
  match e with
  | EvRouteAdd o None => String.eqb (IfName o) ""
  | _ => false
  end.

Definition isPipeStart (e : event) : bool :=
  match e with
  | EvPipeCopy _ _ => true
  | _ => false
  end.

Definition tunnelRoutesAdded (l : list event) : bool := existsb isTunnelRoutesAdd l.
Definition exceptionRouteAdded (l : list event) : bool := existsb isExceptionRouteAdd l.
Definition pipeStarted (l : list event) : bool := existsb isPipeStart l.

(** A scan of a history that checks, at every point, that the exception
    route has been added only once the tunnel routes were, and that the
    pipe has been started only once the exception route was added. *)
Fixpoint routeOrder (tun exc : bool) (l : list event) : bool :=
  match l with
  | [] => true
  | e :: rest =>
      let tun' := tun || isTunnelRoutesAdd e in
      let exc' := exc || isExceptionRouteAdd e in
      implb exc' tun' && implb (isPipeStart e) exc' && routeOrder tun' exc' rest
  end.

(** The calls that close or roll back what a run acquired. *)
Definition isRelease (e : event) : bool :=
  match e with
  | EvInstClose _ _ | EvTunClose _ _ | EvRouteDelete _ _ | EvStopTunnel => true
  | _ => false
  end.

(** The runs of [Connect] that return, by the calls that reach the
    collaborators and the result: one run per place where [Connect] can
    stop. [c] is the client as the run leaves it. *)
Inductive ConnectRun (env : Env) (c : Client) : list event -> option error -> Prop :=
| RunCreateFailed (e : error) :
    ConnectRun env c []
      (Some (Errorf_w "create xray core instance: " e))
| RunStartFailed (i : Instance) (e : error) :
    ConnectRun env c [EvStart i (Some e)]
      (Some (Errorf_w "start xray core instance: " e))
| RunTunNewFailed (i : Instance) (e : error) :
    ConnectRun env c [EvStart i None; EvTunNew "" 1500 (inl e)]
      (Some (Errorf_w "setup TUN device: " (Errorf_w "create tun: " e)))
| RunTunUpFailed (i : Instance) (ifc : string) (addr : IPNet) (e : error) :
    TUNAddress (cfg c) = Some addr ->
    ConnectRun env c
      [EvStart i None; EvTunNew "" 1500 (inr ifc);
       EvTunUp ifc addr (IPNet_IP addr) (Some e)]
      (Some (Errorf_w "setup TUN device: " (Errorf_w "setup interface: " e)))
| RunAddTunnelFailed (i : Instance) (ifc : string) (addr : IPNet) (e : error) :
    TUNAddress (cfg c) = Some addr ->
    ConnectRun env c
      [EvStart i None; EvTunNew "" 1500 (inr ifc);
       EvTunUp ifc addr (IPNet_IP addr) None;
       EvRouteAdd (tunnelRoute (cfg c) ifc) (Some e)]
      (Some (Errorf_w "setup TUN device: " (Errorf_w "add route: " e)))
| RunAddExceptionFailed (i : Instance) (ifc : string) (addr : IPNet)
    (o : Opts) (r : option error) (e : error) :
    TUNAddress (cfg c) = Some addr ->
    exceptionRoute env c = Some o ->
    ConnectRun env c
      [EvStart i None; EvTunNew "" 1500 (inr ifc);
       EvTunUp ifc addr (IPNet_IP addr) None;
       EvRouteAdd (tunnelRoute (cfg c) ifc) None;
       EvRouteDelete o r;
       EvRouteAdd o (Some e)]
      (Some (Errorf_w "add xray server route exception: " e))
| RunConnected (i : Instance) (ifc : string) (addr : IPNet)
    (o : Opts) (r : option error) (p : pipe) (px : Proxy) :
    TUNAddress (cfg c) = Some addr ->
    exceptionRoute env c = Some o ->
    client_pipe c = Some p ->
    InboundProxy (cfg c) = Some px ->
    ConnectRun env c
      [EvStart i None; EvTunNew "" 1500 (inr ifc);
       EvTunUp ifc addr (IPNet_IP addr) None;
       EvRouteAdd (tunnelRoute (cfg c) ifc) None;
       EvRouteDelete o r;
       EvRouteAdd o None;
       EvPipeCopy p px]
      None.

(** What the calls of a history leave on the host: the started engines,
    the open TUN devices and the installed routes. A call changes the
    host when it succeeds; closing a device drops the routes bound to
    it. *)
Record HostState : Type := {
  engines : list Instance;
  devices : list string;
  routeTable : list Opts }.

Definition emptyHost : HostState :=
  {| engines := []; devices := []; routeTable := [] |}.

Definition hostStep (s : HostState) (e : event) : HostState :=
  match e with
  | EvStart i None =>
      {| engines := i :: engines s; devices := devices s; routeTable := routeTable s |}
  | EvInstClose i None =>
      {| engines := filter (fun j => negb (String.eqb (Instance_ID i) (Instance_ID j)))
                           (engines s);
         devices := devices s; routeTable := routeTable s |}
  | EvTunNew _ _ (inr ifc) =>
      {| engines := engines s; devices := ifc :: devices s; routeTable := routeTable s |}
  | EvTunClose (tunInterface (Some ifc)) None =>
      {| engines := engines s;
         devices := filter (fun d => negb (String.eqb ifc d)) (devices s);
         routeTable := filter (fun o => negb (String.eqb ifc (IfName o))) (routeTable s) |}
  | EvRouteAdd o None =>
      {| engines := engines s; devices := devices s; routeTable := o :: routeTable s |}
  | EvRouteDelete o None =>
      {| engines := engines s; devices := devices s;
         routeTable := filter (fun o' => negb (Opts_eqb o o')) (routeTable s) |}
  | _ => s
  end.

Definition hostAfter (l : list event) (s : HostState) : HostState :=
  fold_left hostStep l s.

(** A client as a successful [Connect] leaves it: the cancel function
    of the pipe is set, the engine, the tunnel, the route table and the
    logger are there, and the server address is one that
    [route.MustParseAddr] accepts. *)
Definition connected (env : Env) (c : Client) : Prop :=
  stopTunnel c = true /\ xInst c <> None /\ tunnel c <> None /\
  xSrvAddr env c <> None /\ routes c = true /\ Logger (cfg c) <> None.

(** How a call of [Disconnect] ends: it returns [res], its last two
    calls after the history [h] are the outcome [sel] of the [select] and
    a log line, [n] pipe tasks still owe their result, and the client is
    left as connected as it was. *)
Definition disconnectEnds (env : Env) (ctx : Context) (w : World)
  (h : list event) (res : option error) (sel : event) (n : nat) : Prop :=
  exists level msg w',
    Disconnect env ctx w = (Returns res, w') /\
    events w' = (h ++ [sel; EvLog level msg])%list /\
    pending w' = n /\
    connected env (client w').

(** A context that nobody cancels: it can only end by a deadline. *)
Fixpoint neverCanceled (ctx : Context) : bool :=
  match ctx with
  | Background => true
  | WithDeadline p _ => neverCanceled p
  | WithCancel p None => neverCanceled p
  | WithCancel _ (Some _) => false
  end.

(* ===================================================================== *)
(** ** Scenarios: runs of the scripted environment *)
(* ===================================================================== *)

(** The run of the happy path: every collaborator succeeds. *)
Definition happyRun : outcome (option error) * World :=
  Eval vm_compute in
    Connect (Mock.scripted Mock.allGood) Mock.goodLink Mock.freshWorld.

(** A run in which the Add of the exception route is refused. *)
Definition exceptionRefused : Mock.Script :=
  {| Mock.s_start := None; Mock.s_tunNew := inr "utun7"; Mock.s_tunUp := None;
     Mock.s_addTunnel := None;
     Mock.s_addException := Some (errorString "operation not permitted");
     Mock.s_delete := None;
     Mock.s_instClose := None; Mock.s_tunClose := None;
     Mock.s_now := 1000 * Second; Mock.s_pipe := None;
     Mock.s_first := true |}.

Definition refusedRun : outcome (option error) * World :=
  Eval vm_compute in
    Connect (Mock.scripted exceptionRefused) Mock.goodLink Mock.freshWorld.

(** The pipe never returns by itself and does not honour the
    cancellation in time (scenario S5 of the tests). *)
Definition pipeStuck : Mock.Script :=
  {| Mock.s_start := None; Mock.s_tunNew := inr "utun7"; Mock.s_tunUp := None;
     Mock.s_addTunnel := None; Mock.s_addException := None;
     Mock.s_delete := None;
     Mock.s_instClose := None; Mock.s_tunClose := None;
     Mock.s_now := 1000 * Second; Mock.s_pipe := None;
     Mock.s_first := true |}.

(** Engine and TUN fail to close and the pipe ends with an error
    (scenario S6 of the tests). *)
Definition allFail : Mock.Script :=
  {| Mock.s_start := None; Mock.s_tunNew := inr "utun7"; Mock.s_tunUp := None;
     Mock.s_addTunnel := None; Mock.s_addException := None;
     Mock.s_delete := None;
     Mock.s_instClose := Some (errorString "instance close err");
     Mock.s_tunClose := Some (errorString "tun close err");
     Mock.s_now := 1000 * Second;
     Mock.s_pipe := Some (1000 * Second, Some (errorString "stop err"));
     Mock.s_first := true |}.

(** [Disconnect] on the connected client of the happy path, and a second
    [Disconnect] after it. *)
Definition firstDisconnect : outcome (option error) * World :=
  Eval vm_compute in
    Disconnect (Mock.scripted Mock.allGood) Background (snd happyRun).

Definition secondDisconnect : outcome (option error) * World :=
  Eval vm_compute in
    Disconnect (Mock.scripted Mock.allGood) Background (snd firstDisconnect).

(** The host has no TUN device to give. *)
Definition noDevice : Mock.Script :=
  {| Mock.s_start := None;
     Mock.s_tunNew := inl (errorString "no such device");
     Mock.s_tunUp := None; Mock.s_addTunnel := None;
     Mock.s_addException := None; Mock.s_delete := None;
     Mock.s_instClose := None; Mock.s_tunClose := None;
     Mock.s_now := 1000 * Second; Mock.s_pipe := None; Mock.s_first := true |}.

Definition noDeviceRun : outcome (option error) * World :=
  Eval vm_compute in
    Connect (Mock.scripted noDevice) Mock.goodLink Mock.freshWorld.

(** [Connect] with a link that is no link, on a fresh client and on the
    connected client of the happy path. *)
Definition invalidRun : outcome (option error) * World :=
  Eval vm_compute in
    Connect (Mock.scripted Mock.allGood) "invalid_link" Mock.freshWorld.

Definition reconnectRun : outcome (option error) * World :=
  Eval vm_compute in
    Connect (Mock.scripted Mock.allGood) "invalid_link" (snd happyRun).

(** Every collaborator succeeds, and the resolver answers with an empty
    address, whose text is no address to parse. *)
Definition emptyAddress : Env :=
  Mock.withResolver (fun _ => inr {| IPAddr_IP := []; Zone := "" |})
    (Mock.scripted Mock.allGood).

Definition emptyAddressRun : outcome (option error) * World :=
  Eval vm_compute in Connect emptyAddress Mock.goodLink Mock.freshWorld.

(** The connected client of the happy path with the debug monitors
    running. *)
Definition monitoredWorld : World :=
  {| client := set_debug {| debug_enabled := true; debug_cancel := true |}
                 (client (snd happyRun));
     events := events (snd happyRun);
     pending := pending (snd happyRun) |}.

(** The route table never answers "does not exist". *)
Definition neverNotExist (e : error) : bool := false.

(* ===================================================================== *)
(** ** Proof steps for the runs of the client *)
(* ===================================================================== *)

(** Unfolding of the client code down to the answers of the environment,
    and case analysis on the next answer a run depends on. *)
Ltac run :=
  unfold Disconnect, Connect, stopDebugging, startDebugging, xInst_Close,
    xInst_Start, tunnel_Close, xrayToGatewayRoute, exceptionRoute, xSrvAddr,
    currentGatewayIP,
    routesDelete, routesAdd, selectStopped, log, setupTunnel, createXrayProxy,
    spawnPipe, bind, ret, panic, getClient, modifyClient, history, emit,
    getPending, setPending.

Ltac case_step :=
  match goal with
  | |- context [match ?x with _ => _ end] =>
      lazymatch x with
      | context [match _ with _ => _ end] => fail
      | _ => destruct x eqn:?
      end
  end.

(** An answer met twice in a run is one answer. *)
Ltac same_answers :=
  repeat match goal with
    | H : Some ?x = Some ?y |- _ =>
        first [ is_var x; injection H as -> | is_var y; injection H as <- ]
    end.

(** A premise of a run: a field of the client, or the route to the
    server that parsed. *)
Ltac solve_run_premise :=
  first
    [ reflexivity
    | eassumption
    | unfold exceptionRoute, xSrvAddr, currentGatewayIP; cbn;
      match goal with
      | H : MustParseAddr _ _ = Some _ |- _ => rewrite H; reflexivity
      end ].

(** Simplification that keeps the timeout, the clock arithmetic and the
    joins folded. *)
Ltac calm := cbn -[disconnectTimeout Z.max timeoutEnd errors.Join].

(** Names for the answers of the environment in a run of [Disconnect]. *)
Ltac name_answers :=
  repeat match goal with
    | |- context [Instance_Close ?e ?h ?i] =>
        let x := fresh "e1" in remember (Instance_Close e h i) as x
    | |- context [rwc_Close ?e ?h ?i] =>
        let x := fresh "e2" in remember (rwc_Close e h i) as x
    | |- context [routes_Delete ?e ?h ?i] =>
        let x := fresh "e3" in remember (routes_Delete e h i) as x
    | |- context [time_Now ?e ?h] =>
        let x := fresh "now" in remember (time_Now e h) as x
    end.

(* ===================================================================== *)
(** ** Accessors of the client, and the statistics the monitors log *)
(* ===================================================================== *)

(** [Client.GatewayIP]: the copy made by [currentGatewayIP], or nil. *)
Definition Client_GatewayIP (c : Client) : option IP := currentGatewayIP c.

(** [Client.TUNAddress] and [Client.InboundProxy] dereference the
    configured pointers. *)
Definition Client_TUNAddress (c : Client) : outcome IP :=
  match TUNAddress (cfg c) with
  | Some a => Returns (IPNet_IP a)
  | None => Panics "nil pointer dereference: TUNAddress"
  end.

Definition Client_InboundProxy (c : Client) : outcome Proxy :=
  match InboundProxy (cfg c) with
  | Some p => Returns p
  | None => Panics "nil pointer dereference: InboundProxy"
  end.

(** [ReaderStats{}]. *)
Definition zeroStats : ReaderStats :=
  {| Stats_BytesRead := 0; Stats_BytesWritten := 0;
     LastReadAt := ZeroTime; LastWriteAt := ZeroTime |}.

(** The statistics [logResourceSnapshot] reports: the two-value type
    assertion leaves the zero value when the tunnel is no metrics
    wrapper. *)
Definition snapshotStats (c : Client) : ReaderStats :=
  match tunnel c with
  | Some (metricsTunnel m) => readerMetrics_Stats m
  | _ => zeroStats
  end.

(** The time of the last call of a session that counted as a read (as a
    write), when there is one. *)
Fixpoint lastReadTime (calls : list ioCall) : option Time :=
  match calls with
  | [] => None
  | c :: rest =>
      match lastReadTime rest with
      | Some t => Some t
      | None =>
          match c with
          | callRead (_, None) now => Some now
          | _ => None
          end
      end
  end.

Fixpoint lastWriteTime (calls : list ioCall) : option Time :=
  match calls with
  | [] => None
  | c :: rest =>
      match lastWriteTime rest with
      | Some t => Some t
      | None =>
          match c with
          | callWrite (_, None) now => Some now
          | _ => None
          end
      end
  end.

(* ===================================================================== *)
(** ** Gateway changes ([debug.go]) *)
(* ===================================================================== *)

(** [net.IP.Equal]: equal bytes, or an IPv4 address and its 16-byte
    form. *)
Definition v4InV6Prefix : list Z := [0; 0; 0; 0; 0; 0; 0; 0; 0; 0; 255; 255].

Definition IP_Equal (ip x : IP) : bool :=
  if Nat.eqb (length ip) (length x) then IP_eqb ip x
  else if Nat.eqb (length ip) 4 && Nat.eqb (length x) 16
  then IP_eqb (firstn 12 x) v4InV6Prefix && IP_eqb ip (skipn 12 x)
  else if Nat.eqb (length ip) 16 && Nat.eqb (length x) 4
  then IP_eqb (firstn 12 ip) v4InV6Prefix && IP_eqb (skipn 12 ip) x
  else false.

Definition set_gateway (ip : IP) (c : Client) : Client :=
  set_cfg (set_GatewayIP (Some ip) (cfg c)) c.

Section GatewayWatcher.

Variable env : Env.

(** [errors.Is(err, os.ErrNotExist)], as the route table's errors answer
    it. *)
Variable isNotExist : error -> bool.

(** [updateGatewayIP]. *)
Definition updateGatewayIP (newIP : IP) : M unit :=
  oldRoute <- xrayToGatewayRoute env ;;
  modifyClient (set_gateway newIP) ;;;
  err <- routesDelete env oldRoute ;;
  match err with
  | Some e =>
      if negb (isNotExist e)
      then log slog.LevelWarn "debug.gateway.cleanup_failed"
      else ret tt
  | None => ret tt
  end ;;;
  o <- xrayToGatewayRoute env ;;
  err <- routesAdd env o ;;
  match err with
  | Some _ => log slog.LevelError "debug.gateway.route_update_failed"
  | None => ret tt
  end.

(** [validateGateway]; [discovered] is what [gateway.DiscoverGateway]
    answers. *)
Definition validateGateway (discovered : error + IP) : M unit :=
  match discovered with
  | inl _ => log slog.LevelWarn "debug.gateway.discover_failed"
  | inr newGateway =>
      c <- getClient ;;
      if match currentGatewayIP c with
         | Some cur => IP_Equal newGateway cur
         | None => false
         end
      then ret tt
      else
        log slog.LevelInfo "debug.gateway.changed" ;;;
        updateGatewayIP newGateway
  end.

(** The loop of [gatewayMonitor]: one [validateGateway] per tick, for the
    ticks that come before the cancellation. *)
Fixpoint gatewayMonitor (ticks : list (error + IP)) : M unit :=
  match ticks with
  | [] => ret tt
  | d :: rest => validateGateway d ;;; gatewayMonitor rest
  end.

End GatewayWatcher.

(** The last gateway a sequence of discoveries found. *)
Fixpoint lastDiscovered (ticks : list (error + IP)) : option IP :=
  match ticks with
  | [] => None
  | d :: rest =>
      match lastDiscovered rest with
      | Some ip => Some ip
      | None => match d with inr ip => Some ip | inl _ => None end
      end
  end.

(** A client whose configuration and collaborators are all there, as the
    constructors build it. *)
Definition wellFormed (c : Client) : Prop :=
  Logger (cfg c) <> None /\ InboundProxy (cfg c) <> None /\
  TUNAddress (cfg c) <> None /\ GatewayIP (cfg c) <> None /\
  routes c = true /\ client_pipe c <> None /\ tunnelStopped c = true.

(** Options as [normalized] leaves them. *)
Definition validOptions (o : DebugOptions) : Prop :=
  OutputDir o <> "" /\ 0 < ResourceInterval o /\ 0 < GatewayInterval o /\
  0 < ProfileInterval o /\ 0 < CPUProfileDuration o.

Ltac run_gw := unfold gatewayMonitor, validateGateway, updateGatewayIP; run.

(* ===================================================================== *)
(** * Properties *)
(* ===================================================================== *)

(** ** The log-level mapping *)

(** On the handlers [slog] builds from a minimum level, the severity is
    decided by three thresholds; the warning case is never reached. *)
Lemma xRayLogLevel_levelHandler (minLevel : slog.Level) :
  xRayLogLevel (slog.levelHandler minLevel) =
  if minLevel <=? slog.LevelDebug then Severity_Debug
  else if minLevel <=? slog.LevelInfo then Severity_Info
  else if minLevel <=? slog.LevelError then Severity_Error
  else Severity_Unknown.
Proof.
  unfold xRayLogLevel, slog.levelHandler, slog.Enabled.
  unfold slog.LevelDebug, slog.LevelInfo, slog.LevelError, slog.LevelWarn.
  destruct (minLevel <=? -4) eqn:Hd; [reflexivity|].
  destruct (minLevel <=? 0) eqn:Hi; [reflexivity|].
  destruct (minLevel <=? 8) eqn:He; [reflexivity|].
  destruct (minLevel <=? 4) eqn:Hw; [|reflexivity].
  apply Z.leb_le in Hw. apply Z.leb_gt in He. lia.
Qed.

(** A handler that answers each level on its own reaches every case. *)
Lemma xRayLogLevel_only_warn :
  xRayLogLevel {| slog.Enabled := fun l => l =? slog.LevelWarn |} = Severity_Warning.
Proof. reflexivity. Qed.

(** C7. A handler whose minimum enabled level is warn is also enabled at
    the error level, and the [switch] of [xRayLogLevel] asks for the error
    level before the warn level: the severity it yields is Error, where
    the mapping warn -> Warning is claimed. *)
Theorem xRayLogLevel_warn_yields_error :
  slog.Enabled (slog.levelHandler slog.LevelWarn) slog.LevelDebug = false /\
  slog.Enabled (slog.levelHandler slog.LevelWarn) slog.LevelInfo = false /\
  slog.Enabled (slog.levelHandler slog.LevelWarn) slog.LevelWarn = true /\
  xRayLogLevel (slog.levelHandler slog.LevelWarn) = Severity_Error /\
  xRayLogLevel (slog.levelHandler slog.LevelWarn) <> Severity_Warning.
Proof.
  repeat split; try reflexivity.
  cbv. discriminate.
Qed.

(** ** The configuration overlay *)

(** [apply] has no case for [TLSAllowInsecure]. *)
Lemma apply_TLSAllowInsecure (c new : Config) :
  TLSAllowInsecure (apply c new) = TLSAllowInsecure c.
Proof.
  unfold apply.
  destruct (GatewayIP new), (InboundProxy new), (TUNAddress new), (Logger new),
    (RoutesToTUN new), (isLogType_None (XRayLogType new)), (Debug new),
    (isZeroDebugOptions (Debug_Options new)); reflexivity.
Qed.

(** The fields [apply] does overlay: a non-nil pointer or slice, a log
    type other than [LogType_None], a set [Debug] flag and non-zero
    [DebugOptions] replace the default. *)
Lemma apply_overlay (c new : Config) :
  GatewayIP (apply c new)
    = match GatewayIP new with Some _ => GatewayIP new | None => GatewayIP c end /\
  InboundProxy (apply c new)
    = match InboundProxy new with Some _ => InboundProxy new | None => InboundProxy c end /\
  TUNAddress (apply c new)
    = match TUNAddress new with Some _ => TUNAddress new | None => TUNAddress c end /\
  Logger (apply c new)
    = match Logger new with Some _ => Logger new | None => Logger c end /\
  RoutesToTUN (apply c new)
    = match RoutesToTUN new with Some _ => RoutesToTUN new | None => RoutesToTUN c end /\
  XRayLogType (apply c new)
    = (if isLogType_None (XRayLogType new) then XRayLogType c else XRayLogType new) /\
  Debug (apply c new) = (Debug new || Debug c) /\
  Debug_Options (apply c new)
    = (if isZeroDebugOptions (Debug_Options new) then Debug_Options c
       else Debug_Options new).
Proof.
  unfold apply.
  destruct (GatewayIP new), (InboundProxy new), (TUNAddress new), (Logger new),
    (RoutesToTUN new), (isLogType_None (XRayLogType new)), (Debug new),
    (isZeroDebugOptions (Debug_Options new)); cbn; repeat split; reflexivity.
Qed.

Lemma NewClient_TLSAllowInsecure (h : Host) (cl : Client) :
  NewClient h = inr cl -> TLSAllowInsecure (cfg cl) = false.
Proof.
  unfold NewClient.
  destruct (DiscoverGateway h); [discriminate|].
  destruct (NewPipe h); [discriminate|].
  destruct (route_New h); [discriminate|].
  intros H. injection H as <-. reflexivity.
Qed.

(** Whatever the supplied [Config], the client built by
    [NewClientWithOpts] does not allow insecure TLS. *)
Lemma NewClientWithOpts_TLSAllowInsecure (h : Host) (c : Config) (cl : Client) :
  NewClientWithOpts h c = inr cl -> TLSAllowInsecure (cfg cl) = false.
Proof.
  unfold NewClientWithOpts.
  destruct (NewClient h) as [e|cl0] eqn:Hnew; [discriminate|].
  intros H. injection H as <-.
  apply NewClient_TLSAllowInsecure in Hnew.
  cbn. rewrite apply_TLSAllowInsecure. exact Hnew.
Qed.

(** C8. [NewClientWithOpts] on the configuration that only sets
    [TLSAllowInsecure = true] succeeds, and the client it builds has
    [TLSAllowInsecure = false]: the overlay skips this field, where the
    claim has it carried over. *)
Theorem NewClientWithOpts_ignores_TLSAllowInsecure :
  exists cl,
    NewClientWithOpts Mock.host
      {| GatewayIP := None; InboundProxy := None; TUNAddress := None;
         RoutesToTUN := None; TLSAllowInsecure := true; Logger := None;
         XRayLogType := LogType_None; Debug := false;
         Debug_Options := zeroDebugOptions |} = inr cl /\
    TLSAllowInsecure (cfg cl) = false.
Proof.
  eexists. split; [reflexivity|]. reflexivity.
Qed.

(** ** The metrics wrapper *)

Lemma wrap64_id (z : Z) : minInt64 <= z <= maxInt64 -> wrap64 z = z.
Proof.
  unfold wrap64, minInt64, maxInt64. intros H.
  rewrite Z.mod_small; lia.
Qed.

Lemma wrap64_range (z : Z) : minInt64 <= wrap64 z <= maxInt64.
Proof.
  unfold wrap64, minInt64, maxInt64.
  pose proof (Z.mod_pos_bound (z + 2 ^ 63) (2 ^ 64)). lia.
Qed.

Lemma totalRead_nonneg (calls : list ioCall) :
  Forall (fun c => 0 <= ioCall_count c) calls -> 0 <= totalRead calls.
Proof.
  induction 1 as [|c rest Hc _ IH]; cbn; [lia|].
  destruct c as [[n [e|]] t|[n [e|]] t]; cbn in *; lia.
Qed.

Lemma totalWritten_nonneg (calls : list ioCall) :
  Forall (fun c => 0 <= ioCall_count c) calls -> 0 <= totalWritten calls.
Proof.
  induction 1 as [|c rest Hc _ IH]; cbn; [lia|].
  destruct c as [[n [e|]] t|[n [e|]] t]; cbn in *; lia.
Qed.

Lemma totalRead_app (l1 l2 : list ioCall) :
  totalRead (l1 ++ l2) = totalRead l1 + totalRead l2.
Proof. induction l1 as [|c l1 IH]; cbn; [reflexivity|]. rewrite IH. lia. Qed.

Lemma totalWritten_app (l1 l2 : list ioCall) :
  totalWritten (l1 ++ l2) = totalWritten l1 + totalWritten l2.
Proof. induction l1 as [|c l1 IH]; cbn; [reflexivity|]. rewrite IH. lia. Qed.

(** As long as the totals fit in 64 bits, the counters after a sequence
    of calls are the counters before plus the bytes of the calls that
    returned no error. *)
Lemma session_counters (calls : list ioCall) :
  forall s,
    Forall (fun c => 0 <= ioCall_count c) calls ->
    minInt64 <= nRead s -> nRead s + totalRead calls <= maxInt64 ->
    minInt64 <= nWritten s -> nWritten s + totalWritten calls <= maxInt64 ->
    nRead (session calls s) = nRead s + totalRead calls /\
    nWritten (session calls s) = nWritten s + totalWritten calls.
Proof.
  induction calls as [|c rest IH]; intros s Hall Hr0 Hr Hw0 Hw.
  - cbn. lia.
  - inversion Hall as [|c' rest' Hc Hrest]; subst.
    pose proof (totalRead_nonneg rest Hrest) as Hnr.
    pose proof (totalWritten_nonneg rest Hrest) as Hnw.
    change (session (c :: rest) s) with (session rest (ioStep s c)).
    cbn [totalRead totalWritten] in Hr, Hw |- *.
    specialize (IH (ioStep s c) Hrest).
    assert (Hstep : nRead (ioStep s c) = nRead s + readDelta c /\
                    nWritten (ioStep s c) = nWritten s + writeDelta c).
    { destruct c as [[n [e|]] t|[n [e|]] t];
        cbn [ioStep readerMetrics_Read readerMetrics_Write snd fst nRead nWritten
             readDelta writeDelta ioCall_count] in Hc, Hr, Hw |- *;
        try (split; lia).
      - split; [apply wrap64_id; lia | lia].
      - split; [lia | apply wrap64_id; lia]. }
    destruct Hstep as [Er Ew].
    assert (0 <= readDelta c /\ 0 <= writeDelta c) as [Hdr Hdw].
    { destruct c as [[n [e|]] t|[n [e|]] t];
        cbn [readDelta writeDelta ioCall_count fst] in Hc |- *; lia. }
    rewrite Er, Ew in IH.
    destruct IH as [E1 E2]; lia.
Qed.

Lemma wrap64_fix (z : Z) : wrap64 z = z <-> minInt64 <= z <= maxInt64.
Proof.
  split; intros H; [|apply wrap64_id; exact H].
  rewrite <- H. apply wrap64_range.
Qed.

Lemma ZeroTime_out_of_range : ZeroTime < minInt64.
Proof. reflexivity. Qed.

(** [Load] after [Store], for every time. *)
Lemma atomicTime_Load_Store (t : Time) :
  atomicTime_Load (atomicTime_Store t) =
  if IsZero t then ZeroTime
  else if wrap64 t =? 0 then ZeroTime
  else Instant (wrap64 t).
Proof.
  unfold atomicTime_Store, atomicTime_Load, UnixNano.
  destruct (IsZero t); reflexivity.
Qed.

(** Within the range of [UnixNano], and apart from the epoch itself, a
    stored time is loaded as it was. *)
Lemma atomicTime_Load_Store_id (t : Time) :
  minInt64 <= t <= maxInt64 -> t <> Instant 0 ->
  atomicTime_Load (atomicTime_Store t) = t.
Proof.
  intros Hr H0. pose proof ZeroTime_out_of_range as Hz.
  rewrite atomicTime_Load_Store. unfold IsZero, Instant in *.
  destruct (t =? ZeroTime) eqn:E; [apply Z.eqb_eq in E; lia|].
  rewrite (wrap64_id t Hr).
  destruct (t =? 0) eqn:E'; [apply Z.eqb_eq in E'; contradiction|reflexivity].
Qed.

(** C9, as stated, fails once a counter is at the end of the 64-bit
    range: on a fresh wrapper, after a read that reports [maxInt64]
    bytes, a read that returns [(1, nil)] does not raise the bytes-read
    counter by 1 but takes it to [minInt64], so the counter has
    decreased. And a read at the instant 0 of the Unix clock stores the
    value that stands for no time at all: the statistics give back the
    zero time. *)
Lemma readerMetrics_counters_counterexample :
  let s0 := newReaderMetrics (tunInterface (Some "utun7")) in
  let before := [callRead (maxInt64, None) (Instant 1)] in
  let after := [callRead (1, None) (Instant 2)] in
  let r := readerMetrics_Read (session before s0) (1, None) (Instant 2) in
  fst r = (1, None) /\
  readerMetrics_BytesRead (session before s0) = maxInt64 /\
  readerMetrics_BytesRead (snd r) = minInt64 /\
  readerMetrics_BytesRead (snd r) <> readerMetrics_BytesRead (session before s0) + 1 /\
  ~ (readerMetrics_BytesRead (session before s0)
     <= readerMetrics_BytesRead (session (before ++ after) s0)) /\
  LastReadAt (readerMetrics_Stats (snd (readerMetrics_Read s0 (1, None) (Instant 0))))
  = ZeroTime.
Proof.
  cbv zeta. repeat split; try reflexivity.
  - vm_compute. discriminate.
  - vm_compute. intros H. apply H. reflexivity.
Qed.

(** C9, amended. On the metrics-wrapped tunnel, a [Read] (a [Write])
    that returns [(n, nil)] hands the result through and takes the
    bytes-read (the bytes-written) counter to the old value plus [n] in
    64-bit wrap-around arithmetic, which is an increase by exactly [n]
    whenever the sum fits in an [int64]; it stores the time of the call,
    which the statistics give back as that instant when its nanoseconds
    from the Unix epoch fit in 64 bits and are not 0; the other counter
    and stamp are left alone. A call that returns an error leaves the
    metrics as they were, whatever [n] is. So over the calls of a
    session both counters never decrease, as long as the wrapped stream
    reports no negative count and the totals fit in an [int64]. *)
Theorem readerMetrics_counters (s : readerMetrics) :
  (forall n now,
      let r := readerMetrics_Read s (n, None) now in
      fst r = (n, None) /\
      readerMetrics_BytesRead (snd r) = wrap64 (readerMetrics_BytesRead s + n) /\
      (minInt64 <= nRead s + n <= maxInt64 ->
       readerMetrics_BytesRead (snd r) = readerMetrics_BytesRead s + n) /\
      lastRead (snd r) = atomicTime_Store now /\
      (minInt64 <= now <= maxInt64 -> now <> Instant 0 ->
       LastReadAt (readerMetrics_Stats (snd r)) = now) /\
      readerMetrics_BytesWritten (snd r) = readerMetrics_BytesWritten s /\
      lastWrite (snd r) = lastWrite s) /\
  (forall n now,
      let r := readerMetrics_Write s (n, None) now in
      fst r = (n, None) /\
      readerMetrics_BytesWritten (snd r) = wrap64 (readerMetrics_BytesWritten s + n) /\
      (minInt64 <= nWritten s + n <= maxInt64 ->
       readerMetrics_BytesWritten (snd r) = readerMetrics_BytesWritten s + n) /\
      lastWrite (snd r) = atomicTime_Store now /\
      (minInt64 <= now <= maxInt64 -> now <> Instant 0 ->
       LastWriteAt (readerMetrics_Stats (snd r)) = now) /\
      readerMetrics_BytesRead (snd r) = readerMetrics_BytesRead s /\
      lastRead (snd r) = lastRead s) /\
  (forall n e now,
      readerMetrics_Read s (n, Some e) now = ((n, Some e), s) /\
      readerMetrics_Write s (n, Some e) now = ((n, Some e), s)) /\
  (forall before after,
      Forall (fun c => 0 <= ioCall_count c) (before ++ after) ->
      minInt64 <= nRead s -> nRead s + totalRead (before ++ after) <= maxInt64 ->
      minInt64 <= nWritten s -> nWritten s + totalWritten (before ++ after) <= maxInt64 ->
      readerMetrics_BytesRead (session before s)
        <= readerMetrics_BytesRead (session (before ++ after) s) /\
      readerMetrics_BytesWritten (session before s)
        <= readerMetrics_BytesWritten (session (before ++ after) s)).
Proof.
  unfold readerMetrics_BytesRead, readerMetrics_BytesWritten.
  split; [|split; [|split]].
  - intros n now. cbn. repeat split.
    + intros H. apply wrap64_id. exact H.
    + intros Hr H0. apply atomicTime_Load_Store_id; assumption.
  - intros n now. cbn. repeat split.
    + intros H. apply wrap64_id. exact H.
    + intros Hr H0. apply atomicTime_Load_Store_id; assumption.
  - intros n e now. split; reflexivity.
  - intros before after H Hr0 Hr Hw0 Hw.
    destruct (Forall_app (fun c => 0 <= ioCall_count c) before after) as [Hsplit _].
    destruct (Hsplit H) as [Hb Ha].
    pose proof (totalRead_nonneg _ Ha). pose proof (totalWritten_nonneg _ Ha).
    rewrite totalRead_app in Hr. rewrite totalWritten_app in Hw.
    destruct (session_counters (before ++ after) s H) as [E1 E1']; try lia.
    { rewrite totalRead_app. lia. } { rewrite totalWritten_app. lia. }
    destruct (session_counters before s Hb) as [E2 E2']; try lia.
    rewrite E1, E2, E1', E2', totalRead_app, totalWritten_app. lia.
Qed.

(** The counters of a fresh wrapper after one read of 1500 bytes, one
    write of 40 bytes and one failed read, with the clock of a day in
    2023. *)
Lemma readerMetrics_counters_witness :
  let s0 := newReaderMetrics (tunInterface (Some "utun7")) in
  let t1 := Instant 1700000000000000001 in
  let t2 := Instant 1700000000000000002 in
  let before := [callRead (1500, None) t1] in
  let after := [callWrite (40, None) t2;
                callRead (7, Some (errorString "EOF")) (Instant 1700000000000000003)] in
  readerMetrics_BytesRead (snd (readerMetrics_Read s0 (1500, None) t1)) = 0 + 1500 /\
  LastReadAt (readerMetrics_Stats (snd (readerMetrics_Read s0 (1500, None) t1))) = t1 /\
  readerMetrics_BytesWritten (snd (readerMetrics_Write s0 (40, None) t2)) = 0 + 40 /\
  LastWriteAt (readerMetrics_Stats (snd (readerMetrics_Write s0 (40, None) t2))) = t2 /\
  readerMetrics_BytesRead (session before s0)
    <= readerMetrics_BytesRead (session (before ++ after) s0).
Proof.
  intros s0 t1 t2 before after.
  destruct (readerMetrics_counters s0) as [HR [HW [_ HM]]].
  destruct (HR 1500 t1) as (_ & _ & Hn & _ & Ht & _).
  destruct (HW 40 t2) as (_ & _ & Hn' & _ & Ht' & _).
  split; [|split; [|split; [|split]]].
  - apply Hn. unfold minInt64, maxInt64; cbn; lia.
  - apply Ht; [unfold minInt64, maxInt64, t1, Instant; lia|discriminate].
  - apply Hn'. unfold minInt64, maxInt64; cbn; lia.
  - apply Ht'; [unfold minInt64, maxInt64, t2, Instant; lia|discriminate].
  - destruct (HM before after) as [H _]; [| | | | |exact H].
    + repeat constructor; cbn; lia.
    + unfold minInt64; cbn; lia.
    + unfold maxInt64; cbn; lia.
    + unfold minInt64; cbn; lia.
    + unfold maxInt64; cbn; lia.
Defined.

(** ** The byte accessors of the client *)

Lemma NewClient_tunnel (h : Host) (cl : Client) :
  NewClient h = inr cl -> tunnel cl = None /\ stopTunnel cl = false.
Proof.
  unfold NewClient.
  destruct (DiscoverGateway h); [discriminate|].
  destruct (NewPipe h); [discriminate|].
  destruct (route_New h); [discriminate|].
  intros H. injection H as <-. split; reflexivity.
Qed.

Lemma NewClientWithOpts_tunnel (h : Host) (c : Config) (cl : Client) :
  NewClientWithOpts h c = inr cl -> tunnel cl = None /\ stopTunnel cl = false.
Proof.
  unfold NewClientWithOpts.
  destruct (NewClient h) as [e|cl0] eqn:Hnew; [discriminate|].
  intros H. injection H as <-.
  apply NewClient_tunnel in Hnew. exact Hnew.
Qed.

(** With the nil interface in [tunnel], as it is from construction until
    the first [Connect] reaches [setupTunnel], both accessors return 0. *)
Lemma BytesRead_BytesWritten_nil_tunnel (c : Client) (H : tunnel c = None) :
  BytesRead c = Returns 0 /\ BytesWritten c = Returns 0.
Proof.
  unfold BytesRead, BytesWritten. rewrite H. split; reflexivity.
Qed.

Lemma noDeviceRun_eq :
  Connect (Mock.scripted noDevice) Mock.goodLink Mock.freshWorld = noDeviceRun.
Proof. vm_compute. reflexivity. Qed.

(** C10. A freshly built client returns 0 from [BytesRead] and
    [BytesWritten]. After a [Connect] that fails because the host has no
    TUN device to give, no [Connect] has succeeded and no tunnel has
    been set up, yet both accessors panic: [Connect] has stored the nil
    device pointer returned by [setupTunnel] in the interface field
    before looking at the error, the guard [c.tunnel == nil] no longer
    holds, and the type assertion fails. *)
Theorem BytesRead_BytesWritten_after_failed_setup :
  BytesRead Mock.freshClient = Returns 0 /\
  BytesWritten Mock.freshClient = Returns 0 /\
  exists e w',
    Connect (Mock.scripted noDevice) Mock.goodLink Mock.freshWorld
    = (Returns (Some e), w') /\
    strings.Contains (Error e) "setup TUN device: create tun: no such device" = true /\
    stopTunnel (client w') = false /\
    tunnel (client w') = Some (rawTunnel (tunInterface None)) /\
    BytesRead (client w') = Panics "interface conversion: not *readerMetrics" /\
    BytesWritten (client w') = Panics "interface conversion: not *readerMetrics".
Proof.
  split; [reflexivity|]. split; [reflexivity|].
  rewrite noDeviceRun_eq.
  do 2 eexists. split; [reflexivity|].
  repeat split; reflexivity.
Qed.

(** ** Strings and error messages *)

Lemma append_assoc (a b c : string) : (a ++ b) ++ c = a ++ b ++ c.
Proof. induction a as [|x a IH]; cbn; [reflexivity|]. rewrite IH. reflexivity. Qed.

Lemma HasPrefix_app (sub post : string) : strings.HasPrefix (sub ++ post) sub = true.
Proof.
  induction sub as [|a sub IH]; cbn.
  - destruct post; reflexivity.
  - rewrite Ascii.eqb_refl. exact IH.
Qed.

Lemma HasPrefix_inv (sub : string) :
  forall s, strings.HasPrefix s sub = true -> exists post, s = sub ++ post.
Proof.
  induction sub as [|a sub IH]; intros s H.
  - exists s. reflexivity.
  - destruct s as [|b s]; cbn in H; [discriminate|].
    apply andb_true_iff in H. destruct H as [Hab Hrest].
    apply Ascii.eqb_eq in Hab. subst b.
    destruct (IH s Hrest) as [post ->].
    exists post. reflexivity.
Qed.

Lemma Contains_HasPrefix (s sub : string) :
  strings.HasPrefix s sub = true -> strings.Contains s sub = true.
Proof. intros H. destruct s; cbn [strings.Contains]; rewrite H; reflexivity. Qed.

(** A text contains each of its segments, and nothing else. *)
Lemma Contains_app (pre sub post : string) :
  strings.Contains (pre ++ sub ++ post) sub = true.
Proof.
  induction pre as [|a pre IH].
  - cbn [append]. apply Contains_HasPrefix, HasPrefix_app.
  - cbn [append strings.Contains]. rewrite IH. apply orb_true_r.
Qed.

Lemma Contains_inv (sub : string) :
  forall s, strings.Contains s sub = true -> exists pre post, s = pre ++ sub ++ post.
Proof.
  induction s as [|a s IH]; cbn [strings.Contains]; intros H.
  - rewrite orb_false_r in H. apply HasPrefix_inv in H.
    destruct H as [post ->]. exists "", post. reflexivity.
  - apply orb_true_iff in H. destruct H as [H|H].
    + apply HasPrefix_inv in H. destruct H as [post ->].
      exists "", post. reflexivity.
    + destruct (IH H) as [pre [post ->]].
      exists (String a pre), post. reflexivity.
Qed.

Lemma Contains_refl (s : string) : strings.Contains s s = true.
Proof.
  apply Contains_HasPrefix.
  induction s as [|a s IH]; cbn; [reflexivity|].
  rewrite Ascii.eqb_refl. exact IH.
Qed.

Lemma Contains_trans (s mid sub : string) :
  strings.Contains s mid = true -> strings.Contains mid sub = true ->
  strings.Contains s sub = true.
Proof.
  intros H1 H2.
  apply Contains_inv in H1. destruct H1 as [p1 [q1 ->]].
  apply Contains_inv in H2. destruct H2 as [p2 [q2 ->]].
  replace (p1 ++ (p2 ++ sub ++ q2) ++ q1) with ((p1 ++ p2) ++ sub ++ (q2 ++ q1)).
  - apply Contains_app.
  - rewrite !append_assoc. reflexivity.
Qed.

(** The message of a wrapped error starts with the prefix and ends with
    the message of the cause. *)
Lemma Error_Errorf_w (prefix : string) (e : error) :
  Error (Errorf_w prefix e) = prefix ++ Error e.
Proof. reflexivity. Qed.

(** ** [Connect] on a descriptor that is refused *)

(** A link that the service refuses to create a protocol for. *)
Lemma Connect_protocol_create_fails (env : Env) (link : string) (w : World)
  (p : Proxy) (lg : slog.Logger) (e : error) :
  InboundProxy (cfg (client w)) = Some p ->
  Logger (cfg (client w)) = Some lg ->
  CreateProtocol env (newService (cfg (client w)) p lg) (strings.TrimSpace link) = inl e ->
  Connect env link w =
    (Returns (Some (Errorf_w "create xray core instance: "
                      (Errorf_w "invalid config: protocol create: " e))),
     {| client := set_xInst_xCfg None None (client w);
        events := (events w ++ [EvLog slog.LevelDebug "Connecting to tunnel"])
                    ++ [EvLog slog.LevelError "xray core creation failed"];
        pending := pending w |}).
Proof.
  intros Hp Hl Hc.
  unfold Connect, bind, log, createXrayProxy, getClient, emit, modifyClient, ret.
  cbn. rewrite Hl. cbn. rewrite Hp. cbn. rewrite Hl. cbn. rewrite Hc. cbn.
  rewrite Hl. reflexivity.
Qed.

(** A link for which a protocol is created and then fails to parse. *)
Lemma Connect_parse_fails (env : Env) (link : string) (w : World)
  (p : Proxy) (lg : slog.Logger) (proto : Protocol) (e : error) :
  InboundProxy (cfg (client w)) = Some p ->
  Logger (cfg (client w)) = Some lg ->
  CreateProtocol env (newService (cfg (client w)) p lg) (strings.TrimSpace link) = inr proto ->
  Parse env proto = Some e ->
  Connect env link w =
    (Returns (Some (Errorf_w "create xray core instance: "
                      (Errorf_w "invalid config: parse: " e))),
     {| client := set_xInst_xCfg None None (client w);
        events := (events w ++ [EvLog slog.LevelDebug "Connecting to tunnel"])
                    ++ [EvLog slog.LevelError "xray core creation failed"];
        pending := pending w |}).
Proof.
  intros Hp Hl Hc Hparse.
  unfold Connect, bind, log, createXrayProxy, getClient, emit, modifyClient, ret.
  cbn. rewrite Hl. cbn. rewrite Hp. cbn. rewrite Hl. cbn. rewrite Hc. cbn.
  rewrite Hparse. cbn. rewrite Hl. reflexivity.
Qed.

(** C6. On a client with a logger and an inbound proxy (as in
    [TestConnect_InvalidLink]), when the link service refuses to create a
    protocol for ["invalid_link"], [Connect] returns an error whose message
    contains ["invalid config: protocol create"]; when it creates a
    protocol for ["vless://example.com"] whose parsing fails, [Connect]
    returns an error whose message contains ["invalid config: parse"]. In
    both runs the calls issued are two log lines: no call reaches the
    engine, the TUN device, the routing table or the pipe. *)
Theorem Connect_invalid_link (env : Env) (w : World)
  (p : Proxy) (lg : slog.Logger) (e1 e2 : error) (proto : Protocol)
  (Hproxy : InboundProxy (cfg (client w)) = Some p)
  (Hlogger : Logger (cfg (client w)) = Some lg)
  (Hcreate : CreateProtocol env (newService (cfg (client w)) p lg) "invalid_link" = inl e1)
  (Hcreate' : CreateProtocol env (newService (cfg (client w)) p lg) "vless://example.com"
              = inr proto)
  (Hparse : Parse env proto = Some e2) :
  (exists err w' new,
      Connect env "invalid_link" w = (Returns (Some err), w') /\
      strings.Contains (Error err) "invalid config: protocol create" = true /\
      events w' = (events w ++ new)%list /\ hostCalls new = [] /\
      pending w' = pending w) /\
  (exists err w' new,
      Connect env "vless://example.com" w = (Returns (Some err), w') /\
      strings.Contains (Error err) "invalid config: parse" = true /\
      events w' = (events w ++ new)%list /\ hostCalls new = [] /\
      pending w' = pending w).
Proof.
  split.
  - do 3 eexists. split.
    + apply (Connect_protocol_create_fails env "invalid_link" w p lg e1); assumption.
    + split.
      * rewrite !Error_Errorf_w.
        change ("invalid config: protocol create: " ++ Error e1)
          with ("invalid config: protocol create" ++ ": " ++ Error e1).
        apply Contains_app.
      * split; [cbn [events]; rewrite <- app_assoc; reflexivity|].
        split; reflexivity.
  - do 3 eexists. split.
    + apply (Connect_parse_fails env "vless://example.com" w p lg proto e2); assumption.
    + split.
      * rewrite !Error_Errorf_w.
        change ("invalid config: parse: " ++ Error e2)
          with ("invalid config: parse" ++ ": " ++ Error e2).
        apply Contains_app.
      * split; [cbn [events]; rewrite <- app_assoc; reflexivity|].
        split; reflexivity.
Qed.

(** The two links on a freshly built client, with the scripted link
    service. *)
Lemma Connect_invalid_link_witness :
  (exists err w' new,
      Connect (Mock.scripted Mock.allGood) "invalid_link" Mock.freshWorld
        = (Returns (Some err), w') /\
      strings.Contains (Error err) "invalid config: protocol create" = true /\
      events w' = (events Mock.freshWorld ++ new)%list /\ hostCalls new = [] /\
      pending w' = pending Mock.freshWorld) /\
  (exists err w' new,
      Connect (Mock.scripted Mock.allGood) "vless://example.com" Mock.freshWorld
        = (Returns (Some err), w') /\
      strings.Contains (Error err) "invalid config: parse" = true /\
      events w' = (events Mock.freshWorld ++ new)%list /\ hostCalls new = [] /\
      pending w' = pending Mock.freshWorld).
Proof.
  apply (Connect_invalid_link (Mock.scripted Mock.allGood) Mock.freshWorld
           (defaultInboundProxy Mock.host) defaultLogger
           (errorString "invalid protocol type")
           (errorString "missing port in address")
           {| OrigLink := "vless://example.com" |});
    reflexivity.
Defined.

(** ** Joined errors *)

Lemma Error_joinError_cons (a : error) (rest : list error) :
  Error (joinError (a :: rest)) =
  match rest with
  | [] => Error a
  | _ => Error a ++ String (ascii_of_nat 10) "" ++ Error (joinError rest)
  end.
Proof. destruct rest; reflexivity. Qed.

(** The message of a joined error is the messages of its members, one
    per line. *)
Lemma Error_joinError (errs : list error) :
  Error (joinError errs) = strings.Join (map Error errs) (String (ascii_of_nat 10) "").
Proof.
  induction errs as [|a rest IH]; [reflexivity|].
  rewrite Error_joinError_cons. cbn [map strings.Join].
  destruct rest as [|b rest]; [reflexivity|].
  rewrite IH. reflexivity.
Qed.

Lemma append_empty_r (s : string) : s ++ "" = s.
Proof. induction s as [|a s IH]; cbn; [reflexivity|]. rewrite IH. reflexivity. Qed.

(** The message of a joined error contains the message of each member. *)
Lemma Error_joinError_Contains (l : list error) (x : error) :
  In x l -> strings.Contains (Error (joinError l)) (Error x) = true.
Proof.
  induction l as [|a rest IH]; intros Hin; [destruct Hin|].
  rewrite Error_joinError_cons.
  destruct Hin as [->|Hin].
  - destruct rest as [|b rest]; [apply Contains_refl|].
    apply (Contains_app "" (Error x)).
  - destruct rest as [|b rest]; [destruct Hin|].
    apply Contains_trans with (mid := Error (joinError (b :: rest))).
    + rewrite <- (append_empty_r (Error (joinError (b :: rest)))) at 1.
      rewrite <- append_assoc. apply Contains_app.
    + apply IH. exact Hin.
Qed.

Lemma In_nonNil (errs : list (option error)) (x : error) :
  In (Some x) errs -> In x (errors.nonNil errs).
Proof.
  induction errs as [|[e|] rest IH]; cbn; intros H.
  - destruct H.
  - destruct H as [H|H]; [injection H as ->; left; reflexivity|right; auto].
  - destruct H as [H|H]; [discriminate|auto].
Qed.

(** [errors.Join] keeps every non-nil argument: the result is not nil,
    [errors.Is] finds in it whatever it finds in the argument, and its
    message contains the message of the argument. *)
Lemma Join_keeps (errs : list (option error)) (x : error) :
  In (Some x) errs ->
  exists r, errors.Join errs = Some r /\
            (forall t, errors.Is x t -> errors.Is r t) /\
            (forall sub, strings.Contains (Error x) sub = true ->
                         strings.Contains (Error r) sub = true).
Proof.
  intros Hin. apply In_nonNil in Hin.
  unfold errors.Join.
  destruct (errors.nonNil errs) as [|a l] eqn:E; [destruct Hin|].
  eexists. split; [reflexivity|]. split.
  - intros t Ht. eapply errors.Is_join; eassumption.
  - intros sub Hsub. eapply Contains_trans; [|exact Hsub].
    apply Error_joinError_Contains. exact Hin.
Qed.

Lemma Join_all_nil (errs : list (option error)) :
  (forall x, ~ In (Some x) errs) -> errors.Join errs = None.
Proof.
  intros H. unfold errors.Join.
  assert (E : errors.nonNil errs = []).
  { induction errs as [|[e|] rest IH]; cbn.
    - reflexivity.
    - exfalso. apply (H e). left. reflexivity.
    - apply IH. intros x Hx. apply (H x). right. exact Hx. }
  rewrite E. reflexivity.
Qed.

(** ** The runs of [Connect] *)

(** Every run of [Connect] that returns is one of the runs of
    [ConnectRun]; the configuration is not touched. *)
Lemma Connect_host_calls (env : Env) (link : string) (w w' : World)
  (res : option error) :
  Connect env link w = (Returns res, w') ->
  exists new, events w' = (events w ++ new)%list /\
              ConnectRun env (client w') (hostCalls new) res /\
              cfg (client w') = cfg (client w).
Proof.
  destruct w as [c evs n].
  destruct c as [cf xi xc ip tn pp rt ts st dbg].
  run. cbn.
  repeat (case_step; cbn); intros H; try discriminate.
  all: injection H as <- <-; cbn.
  all: eexists; split; [rewrite <- ?app_assoc; cbn; reflexivity|].
  all: cbn.
  all: same_answers.
  all: split; [econstructor; solve_run_premise|reflexivity].
Qed.

(** A run that returns no error leaves a connected client and one more
    pipe task. *)
Lemma Connect_success_connected (env : Env) (link : string) (w w' : World) :
  Connect env link w = (Returns None, w') ->
  connected env (client w') /\ pending w' = S (pending w) /\
  exists m, tunnel (client w') = Some (metricsTunnel m) /\
            nRead m = 0 /\ nWritten m = 0.
Proof.
  destruct w as [c evs n].
  destruct c as [cf xi xc ip tn pp rt ts st dbg].
  run. cbn.
  repeat (case_step; cbn); intros H; try discriminate.
  all: injection H as <-; cbn.
  all: unfold connected, xSrvAddr; cbn.
  all: repeat split; try congruence.
  all: eexists; repeat split; reflexivity.
Qed.

(** A run that returns an error leaves the cancel function and the
    pipe tasks as they were. *)
Lemma Connect_error_not_connected (env : Env) (link : string) (w w' : World)
  (e : error) :
  Connect env link w = (Returns (Some e), w') ->
  stopTunnel (client w') = stopTunnel (client w) /\ pending w' = pending w.
Proof.
  destruct w as [c evs n].
  destruct c as [cf xi xc ip tn pp rt ts st dbg].
  run. cbn.
  repeat (case_step; cbn); intros H; try discriminate.
  all: injection H as <- <-; cbn.
  all: split; reflexivity.
Qed.

(** ** The order of the routes in [Connect] *)

Lemma routeOrder_prefix (l : list event) :
  forall tun exc before after,
    implb exc tun = true ->
    routeOrder tun exc l = true ->
    l = (before ++ after)%list ->
    (exc || exceptionRouteAdded before = true -> tun || tunnelRoutesAdded before = true) /\
    (pipeStarted before = true -> exc || exceptionRouteAdded before = true).
Proof.
  induction l as [|e l IH]; intros tun exc before after Hinv Hord Hsplit.
  - destruct before; [|discriminate]. cbn. rewrite !orb_false_r.
    split; [|discriminate]. intros ->. destruct tun; [reflexivity|discriminate].
  - destruct before as [|b before].
    + cbn. rewrite !orb_false_r.
      split; [|discriminate]. intros ->. destruct tun; [reflexivity|discriminate].
    + cbn in Hsplit. injection Hsplit as <- ->.
      cbn [routeOrder] in Hord.
      apply andb_true_iff in Hord. destruct Hord as [Hord Hrest].
      apply andb_true_iff in Hord. destruct Hord as [H1 H2].
      destruct (IH _ _ before after H1 Hrest eq_refl) as [IH1 IH2].
      unfold exceptionRouteAdded, tunnelRoutesAdded, pipeStarted in *.
      cbn [existsb]. rewrite !orb_assoc. split; [exact IH1|].
      intros Hp. apply orb_true_iff in Hp. destruct Hp as [Hp|Hp].
      * rewrite Hp in H2. cbn in H2. rewrite H2. reflexivity.
      * rewrite <- orb_assoc. rewrite orb_assoc. apply IH2. exact Hp.
Qed.

(** Whatever the answers of the collaborators, and whether the run
    returns or panics, the calls of [Connect] pass the scan. *)
Lemma Connect_routeOrder (env : Env) (link : string) (w w' : World)
  (out : outcome (option error)) :
  (forall h, tun_New env h <> inr "") ->
  Connect env link w = (out, w') ->
  exists new, events w' = (events w ++ new)%list /\ routeOrder false false new = true.
Proof.
  intros Hdev.
  destruct w as [c evs n].
  destruct c as [cf xi xc ip tn pp rt ts st dbg].
  run. cbn.
  repeat (case_step; cbn); intros H.
  all: injection H as <- <-; cbn.
  all: eexists; split;
    [rewrite <- ?app_assoc; cbn; try reflexivity; symmetry; apply app_nil_r|].
  all: cbn.
  all: try reflexivity.
  all: match goal with
       | Hn : tun_New _ _ = inr ?s |- _ =>
           let E := fresh in
           assert (E : String.eqb s "" = false)
             by (apply String.eqb_neq; intros ->; exact (Hdev _ Hn));
           rewrite ?E; cbn; try reflexivity
       end.
Qed.

Lemma happyRun_eq :
  Connect (Mock.scripted Mock.allGood) Mock.goodLink Mock.freshWorld = happyRun.
Proof. vm_compute. reflexivity. Qed.

(** C1, as stated, fails on the happy path: at the point right after
    [setupTunnel] (the first ten calls of the run) the tunnel routes have
    been added and the exception route has not. *)
Lemma Connect_exception_route_first_counterexample :
  ~ (forall out w' before after,
        Connect (Mock.scripted Mock.allGood) Mock.goodLink Mock.freshWorld = (out, w') ->
        events w' = (events Mock.freshWorld ++ before ++ after)%list ->
        tunnelRoutesAdded before = true -> exceptionRouteAdded before = true).
Proof.
  intros H.
  specialize (H (fst happyRun) (snd happyRun)
                (firstn 10 (events (snd happyRun)))
                (skipn 10 (events (snd happyRun)))).
  assert (Hf : false = true); [|discriminate Hf].
  apply H.
  - rewrite happyRun_eq. reflexivity.
  - reflexivity.
  - reflexivity.
Qed.

(** C1, amended. In every execution of [Connect] (with TUN devices that
    have a name) the tunnel routes are installed first, inside
    [setupTunnel], the exception route after them, and the pipe is
    started after the exception route: there is no point in the call at
    which the exception route has been added while the tunnel routes
    have not, and none at which the pipe has been started while the
    exception route has not been added. *)
Theorem Connect_route_order (env : Env) (link : string) (w w' : World)
  (out : outcome (option error)) (before after : list event)
  (Hdev : forall h, tun_New env h <> inr "")
  (Hrun : Connect env link w = (out, w'))
  (Hsplit : events w' = (events w ++ before ++ after)%list) :
  (exceptionRouteAdded before = true -> tunnelRoutesAdded before = true) /\
  (pipeStarted before = true -> exceptionRouteAdded before = true).
Proof.
  destruct (Connect_routeOrder env link w w' out Hdev Hrun) as [new [Hnew Hord]].
  rewrite Hnew in Hsplit. apply app_inv_head in Hsplit.
  exact (routeOrder_prefix new false false before after eq_refl Hord Hsplit).
Qed.

(** The happy path, cut after the Add of the exception route. *)
Lemma Connect_route_order_witness :
  (exceptionRouteAdded (firstn 16 (events (snd happyRun))) = true ->
   tunnelRoutesAdded (firstn 16 (events (snd happyRun))) = true) /\
  (pipeStarted (firstn 16 (events (snd happyRun))) = true ->
   exceptionRouteAdded (firstn 16 (events (snd happyRun))) = true).
Proof.
  apply (Connect_route_order (Mock.scripted Mock.allGood) Mock.goodLink
           Mock.freshWorld (snd happyRun) (fst happyRun)
           (firstn 16 (events (snd happyRun)))
           (skipn 16 (events (snd happyRun)))).
  - intros h. cbn. discriminate.
  - rewrite happyRun_eq. reflexivity.
  - reflexivity.
Defined.

(** ** Failed runs of [Connect] *)

Lemma hostStep_other (s : HostState) (e : event) :
  isHostCall e = false -> hostStep s e = s.
Proof. destruct e; cbn; intros H; try discriminate; reflexivity. Qed.

(** Only the calls that reach the collaborators change the host. *)
Lemma hostAfter_hostCalls (l : list event) :
  forall s, hostAfter l s = hostAfter (hostCalls l) s.
Proof.
  induction l as [|e l IH]; intros s; [reflexivity|].
  unfold hostAfter, hostCalls in *. cbn [fold_left filter].
  destruct (isHostCall e) eqn:E.
  - cbn [fold_left]. apply IH.
  - rewrite (hostStep_other s e E). apply IH.
Qed.

Lemma isRelease_isHostCall (e : event) : isRelease e = true -> isHostCall e = true.
Proof. destruct e; cbn; intros H; try discriminate; reflexivity. Qed.

Lemma refusedRun_eq :
  Connect (Mock.scripted exceptionRefused) Mock.goodLink Mock.freshWorld = refusedRun.
Proof. vm_compute. reflexivity. Qed.

(** C2, as stated, fails when the Add of the exception route is refused:
    [Connect] returns an error, and the engine it started, the TUN device
    it created and the tunnel routes it installed are still there; among
    its calls there is no [Close]. *)
Lemma Connect_error_cleanup_counterexample :
  exists e w',
    Connect (Mock.scripted exceptionRefused) Mock.goodLink Mock.freshWorld
      = (Returns (Some e), w') /\
    engines (hostAfter (events w') emptyHost) = [ {| Instance_ID := Mock.goodLink |} ] /\
    devices (hostAfter (events w') emptyHost) = ["utun7"] /\
    routeTable (hostAfter (events w') emptyHost)
      = [ tunnelRoute (cfg Mock.freshClient) "utun7" ] /\
    (forall i r, ~ In (EvInstClose i r) (events w')) /\
    (forall rw r, ~ In (EvTunClose rw r) (events w')).
Proof.
  rewrite refusedRun_eq.
  eexists. eexists. split; [reflexivity|].
  split; [reflexivity|]. split; [reflexivity|]. split; [reflexivity|].
  split.
  - intros i r H. cbn in H.
    repeat (destruct H as [H|H]; [discriminate H|]). exact H.
  - intros rw r H. cbn in H.
    repeat (destruct H as [H|H]; [discriminate H|]). exact H.
Qed.

(** C2, amended. When [Connect] returns an error it has closed and rolled
    back nothing: among its calls there is no [Close] of the engine or of
    the TUN device, and no route [Delete] other than the best-effort one
    of the exception route. So either the run stopped before the engine
    was started (descriptor, instance creation, address resolution,
    [Start] itself) and the host is as before, or the engine was started
    and is still there after the call, together with the TUN device if
    one was created. *)
Theorem Connect_error_no_rollback (env : Env) (link : string) (w w' : World)
  (e : error)
  (Hrun : Connect env link w = (Returns (Some e), w')) :
  exists new,
    events w' = (events w ++ new)%list /\
    (forall ev, In ev new -> isRelease ev = true ->
                exists o r, ev = EvRouteDelete o r /\
                            exceptionRoute env (client w') = Some o) /\
    (((forall i, ~ In (EvStart i None) new) /\ forall s, hostAfter new s = s)
     \/
     (exists i, In (EvStart i None) new /\
                forall s, In i (engines (hostAfter new s)) /\
                          forall ifc, In (EvTunNew "" 1500 (inr ifc)) new ->
                                      In ifc (devices (hostAfter new s)))).
Proof.
  destruct (Connect_host_calls env link w w' (Some e) Hrun) as [new [Hnew [Hshape _]]].
  exists new. split; [exact Hnew|].
  assert (Hin : forall ev, In ev new -> isHostCall ev = true -> In ev (hostCalls new)).
  { intros ev H1 H2. apply filter_In. split; assumption. }
  split.
  - intros ev Hev Hrel.
    pose proof (Hin ev Hev (isRelease_isHostCall ev Hrel)) as Hhc.
    inversion Hshape as [e0 Hc|i e0 Hc|i e0 Hc|i ifc addr e0 Ha Hc
                        |i ifc addr e0 Ha Hc|i ifc addr o r e0 Ha Ho Hc| ];
      rewrite <- Hc in Hhc; cbn in Hhc;
      repeat (destruct Hhc as [Hhc|Hhc]; [subst ev; try discriminate Hrel|]);
      try contradiction.
    exists o, r. split; [reflexivity|exact Ho].
  - inversion Hshape as [e0 Hc|i e0 Hc|i e0 Hc|i ifc addr e0 Ha Hc
                        |i ifc addr e0 Ha Hc|i ifc addr o r e0 Ha Ho Hc| ].
    + left. split.
      * intros i Hi. pose proof (Hin _ Hi eq_refl) as Hhc.
        rewrite <- Hc in Hhc. destruct Hhc.
      * intros s. rewrite hostAfter_hostCalls, <- Hc. reflexivity.
    + left. split.
      * intros j Hj. pose proof (Hin _ Hj eq_refl) as Hhc.
        rewrite <- Hc in Hhc. destruct Hhc as [Hhc|[]]. discriminate Hhc.
      * intros s. rewrite hostAfter_hostCalls, <- Hc. reflexivity.
    + right. exists i. split.
      * assert (Hi : In (EvStart i None) (hostCalls new)) by (rewrite <- Hc; left; reflexivity).
        apply filter_In in Hi. exact (proj1 Hi).
      * intros s. rewrite hostAfter_hostCalls, <- Hc. cbn. split; [left; reflexivity|].
        intros ifc Hifc. pose proof (Hin _ Hifc eq_refl) as Hhc.
        rewrite <- Hc in Hhc. cbn in Hhc.
        repeat (destruct Hhc as [Hhc|Hhc]; [discriminate Hhc|]). destruct Hhc.
    + right. exists i. split.
      * assert (Hi : In (EvStart i None) (hostCalls new)) by (rewrite <- Hc; left; reflexivity).
        apply filter_In in Hi. exact (proj1 Hi).
      * intros s. rewrite hostAfter_hostCalls, <- Hc. cbn. split; [left; reflexivity|].
        intros ifc' Hifc. pose proof (Hin _ Hifc eq_refl) as Hhc.
        rewrite <- Hc in Hhc. cbn in Hhc.
        destruct Hhc as [Hhc|[Hhc|[Hhc|[]]]]; try discriminate Hhc.
        injection Hhc as ->. left; reflexivity.
    + right. exists i. split.
      * assert (Hi : In (EvStart i None) (hostCalls new)) by (rewrite <- Hc; left; reflexivity).
        apply filter_In in Hi. exact (proj1 Hi).
      * intros s. rewrite hostAfter_hostCalls, <- Hc. cbn. split; [left; reflexivity|].
        intros ifc' Hifc. pose proof (Hin _ Hifc eq_refl) as Hhc.
        rewrite <- Hc in Hhc. cbn in Hhc.
        destruct Hhc as [Hhc|[Hhc|[Hhc|[Hhc|[]]]]]; try discriminate Hhc.
        injection Hhc as ->. left; reflexivity.
    + right. exists i. split.
      * assert (Hi : In (EvStart i None) (hostCalls new)) by (rewrite <- Hc; left; reflexivity).
        apply filter_In in Hi. exact (proj1 Hi).
      * intros s. rewrite hostAfter_hostCalls, <- Hc.
        destruct r as [er|]; cbn; (split; [left; reflexivity|]);
          intros ifc' Hifc; pose proof (Hin _ Hifc eq_refl) as Hhc;
          rewrite <- Hc in Hhc; cbn in Hhc;
          destruct Hhc as [Hhc|[Hhc|[Hhc|[Hhc|[Hhc|[Hhc|[]]]]]]]; try discriminate Hhc;
          injection Hhc as ->; left; reflexivity.
Qed.

(** The run in which the Add of the exception route is refused. *)
Lemma Connect_error_no_rollback_witness :
  exists new,
    events (snd refusedRun) = (events Mock.freshWorld ++ new)%list /\
    (forall ev, In ev new -> isRelease ev = true ->
                exists o r, ev = EvRouteDelete o r /\
                            exceptionRoute (Mock.scripted exceptionRefused)
                              (client (snd refusedRun)) = Some o) /\
    (((forall i, ~ In (EvStart i None) new) /\ forall s, hostAfter new s = s)
     \/
     (exists i, In (EvStart i None) new /\
                forall s, In i (engines (hostAfter new s)) /\
                          forall ifc, In (EvTunNew "" 1500 (inr ifc)) new ->
                                      In ifc (devices (hostAfter new s)))).
Proof.
  apply (Connect_error_no_rollback (Mock.scripted exceptionRefused) Mock.goodLink
           Mock.freshWorld (snd refusedRun)
           (Errorf_w "add xray server route exception: "
              (errorString "operation not permitted"))).
  rewrite refusedRun_eq. reflexivity.
Defined.

(** ** The runs of [Disconnect] *)

(** [Disconnect] on a connected client: the debug monitors are stopped
    if they run, the pipe is cancelled, the engine and the tunnel are
    closed and the exception route is deleted, whatever each call
    answers; then the clock is read and the [select] takes the earlier of
    the pipe result and the end of the context. *)
Lemma Disconnect_run (env : Env) (ctx : Context) (w : World)
  (H : connected env (client w)) :
  exists dbg i rw o e1 e2 e3 now,
    let pre := (dbg ++ [EvStopTunnel; EvInstClose i e1; EvTunClose rw e2;
                        EvRouteDelete o e3])%list in
    let h := (events w ++ pre ++ [EvNow now])%list in
    let ce := timeoutEnd ctx disconnectTimeout now in
    let td := Z.max now (fst ce) in
    let errs := errors.Join [e1; e2; e3] in
    (dbg = [] \/ dbg = [EvDebugStop]) /\
    xInst (client w) = Some i /\
    exceptionRoute env (client w) = Some o /\
    now = time_Now env (events w ++ pre) /\
    match readySender env (client w) (pending w) h with
    | Some (tp, tunErr) =>
        if (Z.max now tp <? td) || ((Z.max now tp =? td) && select_first env h)
        then disconnectEnds env ctx w h (errors.Join [tunErr; errs])
               (EvStopped (Z.max now tp) tunErr) (Nat.pred (pending w))
        else disconnectEnds env ctx w h (errors.Join [Some (snd ce); errs])
               (EvCtxDone td (snd ce)) (pending w)
    | None =>
        disconnectEnds env ctx w h (errors.Join [Some (snd ce); errs])
          (EvCtxDone td (snd ce)) (pending w)
    end.
Proof.
  destruct w as [c evs n].
  destruct H as (Hs & Hi & Ht & Hip & Hr & Hl).
  destruct c as [cf xi xc ip tn pp rt ts st dbg]. cbn in Hs, Hi, Ht, Hip, Hr, Hl.
  subst st rt.
  destruct xi as [i|]; [|congruence].
  destruct tn as [t|]; [|congruence].
  destruct (Logger cf) as [lg|] eqn:El; [|congruence].
  unfold xSrvAddr in Hip. cbn in Hip.
  unfold disconnectEnds, connected.
  run. unfold readySender.
  calm.
  destruct (MustParseAddr env _) as [a|] eqn:Ea; [|congruence].
  destruct (debug_cancel dbg);
    calm; rewrite ?Ea; calm; rewrite <- ?app_assoc; cbn [app]; name_answers;
    [exists [EvDebugStop]|exists []];
    exists i,
      (match t with rawTunnel rw => rw | metricsTunnel m => ReadWriteCloser m end),
      {| Gateway := GatewayIP cf; IfName := ""; Routes := [a] |},
      e1, e2, e3, now;
    calm; rewrite <- ?app_assoc; cbn [app];
    (split; [auto|]); (split; [reflexivity|]); (split; [reflexivity|]);
    (split; [exact Heqnow|]);
    clear Heqe1 Heqe2 Heqe3 Heqnow;
    (match goal with
     | |- match ?x with _ => _ end => destruct x as [[tp tunErr]|]
     end);
    [match goal with |- if ?b then _ else _ => destruct b end| |
     match goal with |- if ?b then _ else _ => destruct b end|];
    calm;
    (match goal with
     | |- context [match errors.Join ?l with _ => _ end] => destruct (errors.Join l)
     end);
    calm; rewrite ?El; calm;
    do 3 eexists; (split; [reflexivity|]); calm;
    (split; [rewrite <- ?app_assoc; reflexivity|]);
    (split; [reflexivity|]);
    repeat split; congruence.
Qed.

(** A client that was never connected: [Disconnect] returns at once. *)
Lemma Disconnect_not_connected (env : Env) (ctx : Context) (w : World) :
  stopTunnel (client w) = false -> Disconnect env ctx w = (Returns None, w).
Proof.
  intros H. unfold Disconnect, bind, getClient, ret. rewrite H. reflexivity.
Qed.

(** The guard of [Disconnect] reads [stopTunnel], and no run of
    [Disconnect] on a connected client clears it: the client is left
    connected. *)
Lemma Disconnect_leaves_connected (env : Env) (ctx : Context) (w : World) :
  connected env (client w) ->
  exists res w', Disconnect env ctx w = (Returns res, w') /\ connected env (client w').
Proof.
  intros H.
  destruct (Disconnect_run env ctx w H)
    as (dbg & i & rw & o & e1 & e2 & e3 & now & _ & _ & _ & _ & Hend).
  cbv zeta in Hend.
  destruct (readySender env (client w) (pending w) _) as [[tp tunErr]|];
    [destruct (_ || _)|];
    destruct Hend as (lvl & msg & w' & Hrun & _ & _ & Hc);
    eauto.
Qed.

Lemma Join_inner_keeps (x : option error) (errs : list (option error)) (e : error) :
  In (Some e) errs ->
  exists r, errors.Join [x; errors.Join errs] = Some r /\ errors.Is r e /\
            strings.Contains (Error r) (Error e) = true.
Proof.
  intros Hin.
  destruct (Join_keeps errs e Hin) as [r0 [E0 [HIs0 HC0]]].
  rewrite E0.
  destruct (Join_keeps [x; Some r0] r0) as [r [E [HIs HC]]].
  { right. left. reflexivity. }
  exists r. split; [exact E|]. split.
  - apply HIs, HIs0. constructor.
  - apply HC, HC0, Contains_refl.
Qed.

Lemma Join_head_keeps (e : error) (rest : option error) :
  exists r, errors.Join [Some e; rest] = Some r /\ errors.Is r e /\
            strings.Contains (Error r) (Error e) = true.
Proof.
  destruct (Join_keeps [Some e; rest] e) as [r [E [HIs HC]]].
  { left. reflexivity. }
  exists r. split; [exact E|]. split.
  - apply HIs. constructor.
  - apply HC, Contains_refl.
Qed.

(** C4. On a connected client [Disconnect] calls [engine.Close],
    [tun.Close] and [RouteTable.Delete] of the exception route, each once
    and in this order, whatever the earlier ones answer; every error one
    of them returns, and the pipe error when one is received on
    [tunnelStopped], is in the error [Disconnect] returns: [errors.Is]
    finds it and the message contains its message. *)
Theorem Disconnect_joins_all_errors (env : Env) (ctx : Context) (w : World)
  (H : connected env (client w)) :
  exists res w' dbg i rw o e1 e2 e3 now sel level msg,
    Disconnect env ctx w = (Returns res, w') /\
    events w' = (events w ++ dbg ++
                   [EvStopTunnel; EvInstClose i e1; EvTunClose rw e2;
                    EvRouteDelete o e3; EvNow now; sel; EvLog level msg])%list /\
    (dbg = [] \/ dbg = [EvDebugStop]) /\
    xInst (client w) = Some i /\
    exceptionRoute env (client w) = Some o /\
    forall e,
      e1 = Some e \/ e2 = Some e \/ e3 = Some e \/
      (exists t, sel = EvStopped t (Some e)) ->
      exists r, res = Some r /\ errors.Is r e /\
                strings.Contains (Error r) (Error e) = true.
Proof.
  destruct (Disconnect_run env ctx w H)
    as (dbg & i & rw & o & e1 & e2 & e3 & now & Hdbg & Hi & Ho & _ & Hend).
  cbv zeta in Hend.
  assert (Hthree : forall x e, e1 = Some e \/ e2 = Some e \/ e3 = Some e ->
            exists r, errors.Join [x; errors.Join [e1; e2; e3]] = Some r /\
                      errors.Is r e /\
                      strings.Contains (Error r) (Error e) = true).
  { intros x e He. apply Join_inner_keeps.
    destruct He as [ -> | [ -> | -> ] ]; cbn; auto. }
  destruct (readySender env (client w) (pending w) _) as [[tp tunErr]|];
    [destruct (_ || _)|];
    destruct Hend as (lvl & msg & w' & Hrun & Hev & _ & _);
    eexists _, w', dbg, i, rw, o, e1, e2, e3, now, _, lvl, msg;
    (split; [exact Hrun|]);
    (split; [rewrite Hev, <- !app_assoc; reflexivity|]);
    (split; [exact Hdbg|]); (split; [exact Hi|]); (split; [exact Ho|]);
    intros e [He|[He|[He|[t He]]]]; try discriminate He;
    try (apply Hthree; auto; fail).
  injection He as _ ->.
  apply Join_head_keeps.
Qed.

(** The connected client of the happy path, with every closing call
    failing. *)
Lemma Disconnect_joins_all_errors_witness :
  connected (Mock.scripted allFail) (client (snd happyRun)) /\
  exists res w' dbg i rw o e1 e2 e3 now sel level msg,
    Disconnect (Mock.scripted allFail) Background (snd happyRun) = (Returns res, w') /\
    events w' = (events (snd happyRun) ++ dbg ++
                   [EvStopTunnel; EvInstClose i e1; EvTunClose rw e2;
                    EvRouteDelete o e3; EvNow now; sel; EvLog level msg])%list /\
    (dbg = [] \/ dbg = [EvDebugStop]) /\
    xInst (client (snd happyRun)) = Some i /\
    exceptionRoute (Mock.scripted allFail) (client (snd happyRun)) = Some o /\
    forall e,
      e1 = Some e \/ e2 = Some e \/ e3 = Some e \/
      (exists t, sel = EvStopped t (Some e)) ->
      exists r, res = Some r /\ errors.Is r e /\
                strings.Contains (Error r) (Error e) = true.
Proof.
  split.
  - unfold connected. cbn. repeat split; discriminate.
  - apply (Disconnect_joins_all_errors (Mock.scripted allFail) Background (snd happyRun)).
    unfold connected. cbn. repeat split; discriminate.
Defined.

(** Scenario S6 of the tests, run: the three messages are in the
    message of the returned error. *)
Example Disconnect_all_fail_run :
  exists r w',
    Disconnect (Mock.scripted allFail) Background (snd happyRun) = (Returns (Some r), w') /\
    strings.Contains (Error r) "instance close err" = true /\
    strings.Contains (Error r) "tun close err" = true /\
    strings.Contains (Error r) "stop err" = true /\
    pending w' = 0%nat.
Proof.
  eexists. eexists. split; [vm_compute; reflexivity|].
  repeat split; vm_compute; reflexivity.
Qed.

(** ** The deadline of [Disconnect] *)

(** A context that nobody cancels ends at its deadline, with
    [DeadlineExceeded]; without a deadline it never ends. *)
Lemma Done_neverCanceled (ctx : Context) :
  neverCanceled ctx = true ->
  Done ctx = match Deadline ctx with
             | Some d => Some (d, DeadlineExceeded)
             | None => None
             end.
Proof.
  induction ctx as [|p IH d|p IH [t|]]; cbn; intros H.
  - reflexivity.
  - rewrite (IH H). destruct (Deadline p) as [dp|]; cbn; [|reflexivity].
    destruct (dp <=? d) eqn:E.
    + apply Z.leb_le in E. rewrite Z.min_l by exact E. reflexivity.
    + apply Z.leb_gt in E. rewrite Z.min_r by lia. reflexivity.
  - discriminate.
  - exact (IH H).
Qed.

(** C5. [Disconnect] waits for the pipe on the context
    [WithTimeout(ctx, disconnectTimeout)], made once the three closing
    calls have returned: with [disconnectTimeout] = 30s, its deadline is
    the minimum of the caller's deadline and 30s from then (30s from then
    when the caller has none), and unless the caller cancels, this is
    when it ends, with [DeadlineExceeded]. When the context ends before
    a pipe result is ready on [tunnelStopped], [Disconnect] returns
    [errors.Join] of the context error and the joined engine, tun and
    route errors at that moment, and the pipe task still owes its
    result: it is not waited for. *)
Theorem Disconnect_deadline (env : Env) (ctx : Context) (w : World)
  (H : connected env (client w)) :
  exists dbg i rw o e1 e2 e3 now,
    let pre := (dbg ++ [EvStopTunnel; EvInstClose i e1; EvTunClose rw e2;
                        EvRouteDelete o e3])%list in
    let h := (events w ++ pre ++ [EvNow now])%list in
    let ctx' := WithTimeout ctx disconnectTimeout now in
    let effective := match Deadline ctx with
                     | Some d => Z.min d (now + disconnectTimeout)
                     | None => now + disconnectTimeout
                     end in
    disconnectTimeout = 30 * Second /\
    now = time_Now env (events w ++ pre) /\
    Deadline ctx' = Some effective /\
    (neverCanceled ctx = true -> Done ctx' = Some (effective, DeadlineExceeded)) /\
    forall td cerr,
      Done ctx' = Some (td, cerr) ->
      match readySender env (client w) (pending w) h with
      | Some (tp, _) => Z.max now td < Z.max now tp
      | None => True
      end ->
      exists r,
        errors.Join [Some cerr; errors.Join [e1; e2; e3]] = Some r /\
        errors.Is r cerr /\
        (forall e, e1 = Some e \/ e2 = Some e \/ e3 = Some e -> errors.Is r e) /\
        disconnectEnds env ctx w h (Some r) (EvCtxDone (Z.max now td) cerr) (pending w).
Proof.
  destruct (Disconnect_run env ctx w H)
    as (dbg & i & rw & o & e1 & e2 & e3 & now & _ & _ & _ & Hnow & Hend).
  exists dbg, i, rw, o, e1, e2, e3, now.
  cbv zeta in Hend |- *.
  split; [reflexivity|]. split; [exact Hnow|].
  split; [cbn; destruct (Deadline ctx); reflexivity|].
  split.
  { intros Hnc.
    change (neverCanceled (WithTimeout ctx disconnectTimeout now) = true) in Hnc.
    rewrite (Done_neverCanceled _ Hnc). cbn.
    destruct (Deadline ctx); reflexivity. }
  intros td cerr HDone Hfirst.
  change (Some (timeoutEnd ctx disconnectTimeout now) = Some (td, cerr)) in HDone.
  injection HDone as HDone. rewrite HDone in Hend. cbn [fst snd] in Hend.
  destruct (Join_head_keeps cerr (errors.Join [e1; e2; e3])) as [r [Er [HIs _]]].
  exists r. split; [exact Er|]. split; [exact HIs|]. split.
  { intros e He.
    destruct (Join_inner_keeps (Some cerr) [e1; e2; e3] e) as [r' [Er' [HIs' _]]].
    - destruct He as [ -> | [ -> | -> ] ]; cbn; auto.
    - rewrite Er in Er'. injection Er' as <-. exact HIs'. }
  rewrite <- Er.
  destruct (readySender env (client w) (pending w) _) as [[tp tunErr]|];
    [|exact Hend].
  assert (E : (Z.max now tp <? Z.max now td)
              || ((Z.max now tp =? Z.max now td) && select_first env
                    (events w ++ (dbg ++ [EvStopTunnel; EvInstClose i e1;
                                          EvTunClose rw e2; EvRouteDelete o e3])
                       ++ [EvNow now])%list) = false).
  { apply orb_false_iff. split.
    - apply Z.ltb_ge. lia.
    - apply andb_false_iff. left. apply Z.eqb_neq. lia. }
  rewrite E in Hend. exact Hend.
Qed.

(** The connected client of the happy path, a pipe that never signals
    and a caller that allows 10ms. *)
Lemma Disconnect_deadline_witness :
  connected (Mock.scripted pipeStuck) (client (snd happyRun)) /\
  exists dbg i rw o e1 e2 e3 now,
    let w := snd happyRun in
    let env := Mock.scripted pipeStuck in
    let ctx := WithDeadline Background (1000 * Second + 10 * Millisecond) in
    let pre := (dbg ++ [EvStopTunnel; EvInstClose i e1; EvTunClose rw e2;
                        EvRouteDelete o e3])%list in
    let h := (events w ++ pre ++ [EvNow now])%list in
    let ctx' := WithTimeout ctx disconnectTimeout now in
    let effective := match Deadline ctx with
                     | Some d => Z.min d (now + disconnectTimeout)
                     | None => now + disconnectTimeout
                     end in
    disconnectTimeout = 30 * Second /\
    now = time_Now env (events w ++ pre) /\
    Deadline ctx' = Some effective /\
    (neverCanceled ctx = true -> Done ctx' = Some (effective, DeadlineExceeded)) /\
    forall td cerr,
      Done ctx' = Some (td, cerr) ->
      match readySender env (client w) (pending w) h with
      | Some (tp, _) => Z.max now td < Z.max now tp
      | None => True
      end ->
      exists r,
        errors.Join [Some cerr; errors.Join [e1; e2; e3]] = Some r /\
        errors.Is r cerr /\
        (forall e, e1 = Some e \/ e2 = Some e \/ e3 = Some e -> errors.Is r e) /\
        disconnectEnds env ctx w h (Some r) (EvCtxDone (Z.max now td) cerr) (pending w).
Proof.
  split.
  - unfold connected. cbn. repeat split; discriminate.
  - apply (Disconnect_deadline (Mock.scripted pipeStuck)
             (WithDeadline Background (1000 * Second + 10 * Millisecond))
             (snd happyRun)).
    unfold connected. cbn. repeat split; discriminate.
Defined.

(** Scenario S5 of the tests, run: the pipe never signals and the caller
    allows 10ms; [Disconnect] returns at the caller's deadline with
    [DeadlineExceeded], after one call each of the three closing
    operations, and the pipe task is left pending. *)
Example Disconnect_deadline_run :
  exists r w' new,
    Disconnect (Mock.scripted pipeStuck)
      (WithDeadline Background (1000 * Second + 10 * Millisecond)) (snd happyRun)
      = (Returns (Some r), w') /\
    errors.Is r DeadlineExceeded /\
    events w' = (events (snd happyRun) ++ new)%list /\
    hostCalls new =
      [EvStopTunnel;
       EvInstClose {| Instance_ID := Mock.goodLink |} None;
       EvTunClose (tunInterface (Some "utun7")) None;
       EvRouteDelete {| Gateway := Some [192; 168; 1; 1]; IfName := "";
                        Routes := [hostAddr Mock.serverIP] |} None] /\
    In (EvCtxDone (1000 * Second + 10 * Millisecond) DeadlineExceeded) new /\
    pending w' = 1%nat.
Proof.
  eexists. eexists.
  exists (skipn (length (events (snd happyRun)))
            (events (snd (Disconnect (Mock.scripted pipeStuck)
               (WithDeadline Background (1000 * Second + 10 * Millisecond))
               (snd happyRun))))).
  split; [vm_compute; reflexivity|].
  split; [eapply errors.Is_join; [left; reflexivity|constructor]|].
  split; [vm_compute; reflexivity|].
  split; [vm_compute; reflexivity|].
  split; [vm_compute; tauto|].
  reflexivity.
Qed.

(** ** Repeated [Disconnect] *)

Lemma firstDisconnect_eq :
  Disconnect (Mock.scripted Mock.allGood) Background (snd happyRun) = firstDisconnect.
Proof. vm_compute. reflexivity. Qed.

Lemma secondDisconnect_eq :
  Disconnect (Mock.scripted Mock.allGood) Background (snd firstDisconnect)
  = secondDisconnect.
Proof. vm_compute. reflexivity. Qed.

(** C3. After a successful [Connect] and a first [Disconnect] that
    returns success, a second [Disconnect] does not return at once: the
    guard reads [stopTunnel], which the first call left set, so the second
    call cancels, closes the engine and the TUN and deletes the exception
    route again, then waits on [tunnelStopped], where no pipe task is left
    to send, until the 30s timeout, and returns [DeadlineExceeded]. *)
Theorem Disconnect_twice_repeats_teardown :
  exists w1 w2 w3 r new,
    Connect (Mock.scripted Mock.allGood) Mock.goodLink Mock.freshWorld
      = (Returns None, w1) /\
    Disconnect (Mock.scripted Mock.allGood) Background w1 = (Returns None, w2) /\
    stopTunnel (client w2) = true /\
    Disconnect (Mock.scripted Mock.allGood) Background w2 = (Returns (Some r), w3) /\
    errors.Is r DeadlineExceeded /\
    events w3 = (events w2 ++ new)%list /\
    hostCalls new =
      [EvStopTunnel;
       EvInstClose {| Instance_ID := Mock.goodLink |} None;
       EvTunClose (tunInterface (Some "utun7")) None;
       EvRouteDelete {| Gateway := Some [192; 168; 1; 1]; IfName := "";
                        Routes := [hostAddr Mock.serverIP] |} None] /\
    In (EvCtxDone (1000 * Second + disconnectTimeout) DeadlineExceeded) new.
Proof.
  exists (snd happyRun), (snd firstDisconnect), (snd secondDisconnect).
  eexists.
  exists (skipn (length (events (snd firstDisconnect))) (events (snd secondDisconnect))).
  split; [rewrite happyRun_eq; reflexivity|].
  split; [rewrite firstDisconnect_eq; reflexivity|].
  split; [reflexivity|].
  split; [rewrite secondDisconnect_eq; reflexivity|].
  split; [eapply errors.Is_join; [left; reflexivity|constructor]|].
  split; [reflexivity|].
  split; [reflexivity|].
  vm_compute. tauto.
Qed.

(* ===================================================================== *)
(** * Further properties of the code *)
(* ===================================================================== *)

(** ** Log levels, configuration overlay and construction *)

(** X1. For a handler built from a minimum level, [xRayLogLevel] is
    decided by three thresholds: Debug up to the debug level, Info up to
    the info level, Error up to the error level (warn included), Unknown
    above; it never yields Warning. *)
Theorem xRayLogLevel_thresholds (minLevel : slog.Level) :
  let s := xRayLogLevel (slog.levelHandler minLevel) in
  s <> Severity_Warning /\
  (s = Severity_Debug <-> minLevel <= slog.LevelDebug) /\
  (s = Severity_Info <-> slog.LevelDebug < minLevel <= slog.LevelInfo) /\
  (s = Severity_Error <-> slog.LevelInfo < minLevel <= slog.LevelError) /\
  (s = Severity_Unknown <-> slog.LevelError < minLevel).
Proof.
  cbv zeta. rewrite xRayLogLevel_levelHandler.
  unfold slog.LevelDebug, slog.LevelInfo, slog.LevelError.
  destruct (minLevel <=? -4) eqn:Hd;
    [apply Z.leb_le in Hd|apply Z.leb_gt in Hd;
     destruct (minLevel <=? 0) eqn:Hi;
       [apply Z.leb_le in Hi|apply Z.leb_gt in Hi;
        destruct (minLevel <=? 8) eqn:He;
          [apply Z.leb_le in He|apply Z.leb_gt in He]]];
    repeat split; intros; try discriminate; try lia; try reflexivity.
Qed.

(** X2. Overlaying the zero [Config] changes nothing, and overlaying the
    same [Config] twice is the same as overlaying it once. *)
Theorem apply_zero_and_twice (c new : Config) :
  apply c zeroConfig = c /\ apply (apply c new) new = apply c new.
Proof.
  split; [reflexivity|].
  unfold apply.
  destruct (GatewayIP new), (InboundProxy new), (TUNAddress new), (Logger new),
    (RoutesToTUN new), (isLogType_None (XRayLogType new)), (Debug new),
    (isZeroDebugOptions (Debug_Options new)); reflexivity.
Qed.

(** X3. The overlay never clears a field: a pointer, slice or log type
    that is set stays set, and [Debug] stays on, whatever is overlaid. *)
Theorem apply_never_clears (c new : Config) :
  (GatewayIP c <> None -> GatewayIP (apply c new) <> None) /\
  (InboundProxy c <> None -> InboundProxy (apply c new) <> None) /\
  (TUNAddress c <> None -> TUNAddress (apply c new) <> None) /\
  (Logger c <> None -> Logger (apply c new) <> None) /\
  (RoutesToTUN c <> None -> RoutesToTUN (apply c new) <> None) /\
  (XRayLogType c <> LogType_None -> XRayLogType (apply c new) <> LogType_None) /\
  (Debug c = true -> Debug (apply c new) = true).
Proof.
  destruct (apply_overlay c new) as (H1 & H2 & H3 & H4 & H5 & H6 & H7 & _).
  rewrite H1, H2, H3, H4, H5, H6, H7.
  repeat split.
  - destruct (GatewayIP new); [discriminate|auto].
  - destruct (InboundProxy new); [discriminate|auto].
  - destruct (TUNAddress new); [discriminate|auto].
  - destruct (Logger new); [discriminate|auto].
  - destruct (RoutesToTUN new); [discriminate|auto].
  - destruct (XRayLogType new); cbn; auto; discriminate.
  - intros ->. apply orb_true_r.
Qed.

Lemma apply_never_clears_witness :
  GatewayIP (apply (cfg Mock.freshClient) zeroConfig) <> None /\
  Debug (apply (set_Debug true zeroConfig) zeroConfig) = true.
Proof.
  split.
  - apply (apply_never_clears (cfg Mock.freshClient) zeroConfig). cbn. discriminate.
  - apply (apply_never_clears (set_Debug true zeroConfig) zeroConfig). reflexivity.
Defined.

(** X4. [normalized] yields options with a directory and four positive
    durations, is idempotent, and leaves such options as they are. *)
Theorem normalized_valid (o : DebugOptions) :
  validOptions (normalized o) /\
  normalized (normalized o) = normalized o /\
  (validOptions o -> normalized o = o).
Proof.
  assert (Hv : validOptions (normalized o)).
  { unfold validOptions, normalized, Second. cbn.
    destruct (String.eqb_spec (OutputDir o) "") as [E|E];
      destruct (ResourceInterval o <=? 0) eqn:E1;
      destruct (GatewayInterval o <=? 0) eqn:E2;
      destruct (ProfileInterval o <=? 0) eqn:E3;
      destruct (CPUProfileDuration o <=? 0) eqn:E4;
      rewrite ?Z.leb_gt in *;
      repeat split; try lia; try discriminate; try exact E. }
  assert (Hid : forall p, validOptions p -> normalized p = p).
  { intros p (H0 & H1 & H2 & H3 & H4).
    destruct p as [d r g n v pi cd cc]. cbn in *.
    unfold normalized. cbn.
    apply String.eqb_neq in H0. rewrite H0.
    apply Z.leb_gt in H1, H2, H3, H4. rewrite H1, H2, H3, H4. reflexivity. }
  split; [exact Hv|]. split; [apply Hid; exact Hv|apply Hid].
Qed.

Lemma normalized_valid_witness : normalized defaultDebugOptions = defaultDebugOptions.
Proof.
  apply (normalized_valid defaultDebugOptions).
  unfold validOptions, defaultDebugOptions, Second. cbn.
  repeat split; try lia. discriminate.
Defined.

Lemma NewClient_inv (h : Host) :
  match NewClient h with
  | inl e =>
      (exists c, DiscoverGateway h = inl c /\ e = Errorf_w "discover gateway: " c) \/
      (exists c, NewPipe h = Some c /\ e = Errorf_w "tun2socks new pipe: " c) \/
      (exists c, route_New h = Some c /\ e = Errorf_w "route new: " c)
  | inr cl =>
      exists g, DiscoverGateway h = inr g /\ NewPipe h = None /\ route_New h = None /\
      cfg cl = {| GatewayIP := Some g;
                  InboundProxy := Some (defaultInboundProxy h);
                  TUNAddress := Some defaultTUNAddress;
                  RoutesToTUN := Some DefaultRoutesToTUN;
                  TLSAllowInsecure := false;
                  Logger := Some defaultLogger;
                  XRayLogType := LogType_None;
                  Debug := false;
                  Debug_Options := defaultDebugOptions |} /\
      xInst cl = None /\ xCfg cl = None /\ xSrvIP cl = None /\ tunnel cl = None /\
      client_pipe cl = Some socksPipe /\ routes cl = true /\
      tunnelStopped cl = true /\ stopTunnel cl = false /\
      debug cl = {| debug_enabled := false; debug_cancel := false |}
  end.
Proof.
  unfold NewClient.
  destruct (DiscoverGateway h) as [c|g]; [left; eauto|].
  destruct (NewPipe h) as [c|]; [right; left; eauto|].
  destruct (route_New h) as [c|]; [right; right; eauto|].
  exists g. repeat split; reflexivity.
Qed.

(** X5. The constructors fail exactly when the host refuses the gateway
    discovery, the pipe or the route table, with the cause wrapped under
    the name of the step; the supplied [Config] cannot make
    [NewClientWithOpts] fail. *)
Theorem constructors_fail (h : Host) (c : Config) :
  (forall e, NewClientWithOpts h c = inl e <-> NewClient h = inl e) /\
  (forall e, NewClient h = inl e ->
     exists cause prefix,
       e = Errorf_w prefix cause /\ errors.Is e cause /\
       ((DiscoverGateway h = inl cause /\ prefix = "discover gateway: ") \/
        (NewPipe h = Some cause /\ prefix = "tun2socks new pipe: ") \/
        (route_New h = Some cause /\ prefix = "route new: "))) /\
  ((exists cl, NewClient h = inr cl) <->
   (exists g, DiscoverGateway h = inr g) /\ NewPipe h = None /\ route_New h = None).
Proof.
  split; [|split].
  - intros e. unfold NewClientWithOpts.
    destruct (NewClient h); split; intros H; congruence.
  - intros e He. pose proof (NewClient_inv h) as H. rewrite He in H.
    destruct H as [[x [H ->]]|[[x [H ->]]|[x [H ->]]]];
      eexists x, _; (split; [reflexivity|]);
      (split; [apply errors.Is_wrap; constructor|]); auto.
  - pose proof (NewClient_inv h) as H. split.
    + intros [cl Hcl]. rewrite Hcl in H.
      destruct H as (g & H1 & H2 & H3 & _). eauto.
    + intros [[g Hg] [Hp Hr]]. unfold NewClient. rewrite Hg, Hp, Hr. eauto.
Qed.

Lemma NewClientWithOpts_cfg (h : Host) (c : Config) (cl : Client) :
  NewClientWithOpts h c = inr cl ->
  exists cl0,
    NewClient h = inr cl0 /\
    cl = rewrapPipe (syncDebugState (set_cfg (apply (cfg cl0) c) cl0)).
Proof.
  unfold NewClientWithOpts.
  destruct (NewClient h) as [e|cl0]; [discriminate|].
  intros H. injection H as <-. eauto.
Qed.

(** X6. Whatever [Config] is supplied, the client [NewClientWithOpts]
    builds has a logger, an inbound proxy, a TUN address, a gateway, a
    route table and a pipe, debug options with a directory and positive
    durations, no tunnel and no cancel function; its accessors do not
    panic. *)
Theorem NewClientWithOpts_well_formed (h : Host) (c : Config) (cl : Client)
  (H : NewClientWithOpts h c = inr cl) :
  wellFormed cl /\
  validOptions (Debug_Options (cfg cl)) /\
  debug_enabled (debug cl) = Debug (cfg cl) /\
  debug_cancel (debug cl) = false /\
  tunnel cl = None /\ stopTunnel cl = false /\ xInst cl = None /\
  (exists ip, Client_TUNAddress cl = Returns ip) /\
  (exists p, Client_InboundProxy cl = Returns p) /\
  Client_GatewayIP cl <> None.
Proof.
  destruct (NewClientWithOpts_cfg h c cl H) as [cl0 [H0 ->]].
  pose proof (NewClient_inv h) as Hinv. rewrite H0 in Hinv.
  destruct Hinv as (g & _ & _ & _ & Hcfg & Hi & _ & _ & Ht & Hp & Hr & Hts & Hst & Hd).
  destruct (apply_never_clears (cfg cl0) c) as (N1 & N2 & N3 & N4 & _).
  rewrite Hcfg in N1, N2, N3, N4. cbn in N1, N2, N3, N4.
  specialize (N1 ltac:(discriminate)). specialize (N2 ltac:(discriminate)).
  specialize (N3 ltac:(discriminate)). specialize (N4 ltac:(discriminate)).
  rewrite <- Hcfg in N1, N2, N3, N4.
  unfold wellFormed, Client_TUNAddress, Client_InboundProxy, Client_GatewayIP,
    currentGatewayIP.
  unfold rewrapPipe, syncDebugState. cbn.
  rewrite Hp, Hr, Hts, Hst, Hi, Ht, Hd. cbn.
  split; [repeat split; try assumption|].
  { unfold wrapPipeWithDebug. destruct (negb _); discriminate. }
  split; [apply normalized_valid|].
  repeat split; try assumption.
  - destruct (TUNAddress (apply (cfg cl0) c)); [eauto|congruence].
  - destruct (InboundProxy (apply (cfg cl0) c)); [eauto|congruence].
Qed.

(** A client built with an empty configuration. *)
Lemma NewClientWithOpts_well_formed_witness :
  NewClientWithOpts Mock.host zeroConfig = inr Mock.freshClient /\
  wellFormed Mock.freshClient.
Proof.
  split; [reflexivity|].
  apply (NewClientWithOpts_well_formed Mock.host zeroConfig Mock.freshClient).
  reflexivity.
Defined.

(** X7. The debug options of the client are the defaults when the
    supplied ones are all zero, and otherwise the supplied ones as a
    whole, normalized: the switches that are on by default (netlink,
    verbose pipe, CPU profiles) are then off unless supplied, while
    unset durations and directory get their defaults back. [Debug]
    itself is the supplied flag. *)
Theorem NewClientWithOpts_debug_options (h : Host) (c : Config) (cl : Client)
  (H : NewClientWithOpts h c = inr cl) :
  Debug (cfg cl) = Debug c /\
  debug_enabled (debug cl) = Debug c /\
  Debug_Options (cfg cl) =
    (if isZeroDebugOptions (Debug_Options c) then defaultDebugOptions
     else normalized (Debug_Options c)) /\
  (isZeroDebugOptions (Debug_Options c) = false ->
   EnableNetlink (Debug_Options (cfg cl)) = EnableNetlink (Debug_Options c) /\
   VerbosePipe (Debug_Options (cfg cl)) = VerbosePipe (Debug_Options c) /\
   CollectCPUProfile (Debug_Options (cfg cl)) = CollectCPUProfile (Debug_Options c)).
Proof.
  destruct (NewClientWithOpts_cfg h c cl H) as [cl0 [H0 ->]].
  pose proof (NewClient_inv h) as Hinv. rewrite H0 in Hinv.
  destruct Hinv as (g & _ & _ & _ & Hcfg & _).
  destruct (apply_overlay (cfg cl0) c) as (_ & _ & _ & _ & _ & _ & H7 & H8).
  rewrite Hcfg in H7, H8. cbn in H7, H8. rewrite orb_false_r in H7.
  rewrite <- Hcfg in H7, H8.
  unfold rewrapPipe, syncDebugState. cbn.
  rewrite H7, H8.
  split; [reflexivity|]. split; [reflexivity|]. split.
  - destruct (isZeroDebugOptions (Debug_Options c)); [|reflexivity].
    apply normalized_valid.
    unfold validOptions, defaultDebugOptions, Second. cbn.
    repeat split; try lia. discriminate.
  - intros ->. cbn. repeat split; reflexivity.
Qed.

(** Only the output directory is supplied: the three switches are off. *)
Lemma NewClientWithOpts_debug_options_witness :
  exists cl,
    NewClientWithOpts Mock.host
      (set_Debug_Options
         {| OutputDir := "dumps"; ResourceInterval := 0; GatewayInterval := 0;
            EnableNetlink := false; VerbosePipe := false; ProfileInterval := 0;
            CPUProfileDuration := 0; CollectCPUProfile := false |}
         (set_Debug true zeroConfig)) = inr cl /\
    Debug_Options (cfg cl) =
      {| OutputDir := "dumps"; ResourceInterval := 5 * Second;
         GatewayInterval := 3 * Second;
         EnableNetlink := false; VerbosePipe := false;
         ProfileInterval := 30 * Second;
         CPUProfileDuration := 30 * Second; CollectCPUProfile := false |}.
Proof.
  eexists. split; [reflexivity|].
  match goal with
  | |- Debug_Options (cfg ?cl) = _ =>
      destruct (NewClientWithOpts_debug_options Mock.host
                  (set_Debug_Options
                     {| OutputDir := "dumps"; ResourceInterval := 0;
                        GatewayInterval := 0; EnableNetlink := false;
                        VerbosePipe := false; ProfileInterval := 0;
                        CPUProfileDuration := 0; CollectCPUProfile := false |}
                     (set_Debug true zeroConfig)) cl eq_refl) as (_ & _ & E & _)
  end.
  rewrite E. reflexivity.
Defined.

(** X8. The pipe of the client is wrapped for debugging exactly when
    [Debug] is supplied and the resulting options ask for a verbose
    pipe; it is wrapped once, around the plain pipe, with the supplied
    logger (the default one when none is supplied). *)
Theorem NewClientWithOpts_pipe (h : Host) (c : Config) (cl : Client)
  (H : NewClientWithOpts h c = inr cl) :
  client_pipe cl =
    if Debug c && VerbosePipe (Debug_Options (cfg cl))
    then Some (instrumentedPipe (Some socksPipe)
                 match Logger c with Some l => l | None => defaultLogger end)
    else Some socksPipe.
Proof.
  destruct (NewClientWithOpts_cfg h c cl H) as [cl0 [H0 ->]].
  pose proof (NewClient_inv h) as Hinv. rewrite H0 in Hinv.
  destruct Hinv as (g & _ & _ & _ & Hcfg & _ & _ & _ & _ & Hp & _).
  destruct (apply_overlay (cfg cl0) c) as (_ & _ & _ & H4 & _ & _ & H7 & _).
  rewrite Hcfg in H4, H7. cbn in H4, H7. rewrite orb_false_r in H7.
  rewrite <- Hcfg in H4, H7.
  unfold rewrapPipe, syncDebugState. cbn.
  rewrite H4, H7, Hp. unfold wrapPipeWithDebug.
  destruct (Debug c && _); cbn; [|reflexivity].
  destruct (Logger c); reflexivity.
Qed.

(** [Debug] alone: the default options ask for a verbose pipe. *)
Lemma NewClientWithOpts_pipe_witness :
  exists cl,
    NewClientWithOpts Mock.host (set_Debug true zeroConfig) = inr cl /\
    client_pipe cl = Some (instrumentedPipe (Some socksPipe) defaultLogger).
Proof.
  eexists. split; [reflexivity|].
  match goal with
  | |- client_pipe ?cl = _ =>
      rewrite (NewClientWithOpts_pipe Mock.host (set_Debug true zeroConfig) cl eq_refl)
  end.
  reflexivity.
Defined.

(** ** The metrics wrapper, over whole sessions *)

Lemma wrap64_add (a b : Z) : wrap64 (wrap64 a + b) = wrap64 (a + b).
Proof.
  unfold wrap64.
  replace ((a + 2 ^ 63) mod 2 ^ 64 - 2 ^ 63 + b + 2 ^ 63)
    with ((a + 2 ^ 63) mod 2 ^ 64 + b) by lia.
  rewrite Zplus_mod_idemp_l.
  replace (a + 2 ^ 63 + b) with (a + b + 2 ^ 63) by lia.
  reflexivity.
Qed.

Lemma session_cons (c : ioCall) (rest : list ioCall) (s : readerMetrics) :
  session (c :: rest) s = session rest (ioStep s c).
Proof. reflexivity. Qed.

(** X9. After any session, whatever the order of reads and writes and
    however many calls failed, the bytes-read counter is the start value
    plus the bytes of the reads that returned no error, wrapped to 64
    bits, and likewise the bytes-written counter. *)
Theorem session_counters_wrap (calls : list ioCall) (s : readerMetrics)
  (Hr : minInt64 <= nRead s <= maxInt64)
  (Hw : minInt64 <= nWritten s <= maxInt64) :
  readerMetrics_BytesRead (session calls s) = wrap64 (nRead s + totalRead calls) /\
  readerMetrics_BytesWritten (session calls s) = wrap64 (nWritten s + totalWritten calls).
Proof.
  unfold readerMetrics_BytesRead, readerMetrics_BytesWritten.
  revert s Hr Hw.
  induction calls as [|c rest IH]; intros s Hr Hw.
  - cbn. rewrite !Z.add_0_r, !wrap64_id by assumption. split; reflexivity.
  - rewrite session_cons.
    assert (Hstep : nRead (ioStep s c) = wrap64 (nRead s + readDelta c) /\
                    nWritten (ioStep s c) = wrap64 (nWritten s + writeDelta c)).
    { destruct c as [[n [e|]] t|[n [e|]] t];
        cbn [ioStep readerMetrics_Read readerMetrics_Write snd fst nRead nWritten
             readDelta writeDelta];
        rewrite ?Z.add_0_r, ?(wrap64_id (nRead s)), ?(wrap64_id (nWritten s))
          by assumption;
        split; reflexivity. }
    destruct Hstep as [Er Ew].
    destruct (IH (ioStep s c)) as [E1 E2].
    + rewrite Er. apply wrap64_range.
    + rewrite Ew. apply wrap64_range.
    + rewrite E1, E2, Er, Ew, !wrap64_add.
      cbn [totalRead totalWritten]. rewrite !Z.add_assoc. split; reflexivity.
Qed.

(** Two reads that together pass the 64-bit range. *)
Lemma session_counters_wrap_witness :
  readerMetrics_BytesRead
    (session [callRead (maxInt64, None) (Instant 1);
              callWrite (7, None) (Instant 2);
              callRead (1, None) (Instant 3)]
       (newReaderMetrics (tunInterface (Some "utun7"))))
  = wrap64 (0 + (maxInt64 + (0 + (1 + 0)))).
Proof.
  apply (session_counters_wrap
           [callRead (maxInt64, None) (Instant 1);
            callWrite (7, None) (Instant 2);
            callRead (1, None) (Instant 3)]
           (newReaderMetrics (tunInterface (Some "utun7"))));
    unfold minInt64, maxInt64; cbn; lia.
Defined.

(** X10. After any session the last-read stamp is that of the last read
    that returned no error, and the last-write stamp that of the last
    such write; without one the stamp is as before. Failed calls and
    calls of the other kind do not touch it. *)
Theorem session_last_activity (calls : list ioCall) (s : readerMetrics) :
  lastRead (session calls s) =
    match lastReadTime calls with
    | Some t => atomicTime_Store t
    | None => lastRead s
    end /\
  lastWrite (session calls s) =
    match lastWriteTime calls with
    | Some t => atomicTime_Store t
    | None => lastWrite s
    end.
Proof.
  revert s. induction calls as [|c rest IH]; intros s; [split; reflexivity|].
  rewrite session_cons. destruct (IH (ioStep s c)) as [E1 E2].
  rewrite E1, E2. cbn [lastReadTime lastWriteTime].
  destruct (lastReadTime rest), (lastWriteTime rest);
    destruct c as [[n [e|]] now|[n [e|]] now]; split; reflexivity.
Qed.

(** X11. A time that is stored and loaded comes back as the same instant
    exactly when it is the zero time, or an instant whose nanoseconds
    from the Unix epoch fit in 64 bits (the years 1678 to 2262) other
    than the epoch itself. The epoch comes back as the zero time, and
    any other instant outside the range as the instant of its wrapped
    count, or as the zero time when the count wraps to 0. What is stored
    always fits in 64 bits. *)
Theorem atomicTime_round_trip (t : Time) :
  (atomicTime_Load (atomicTime_Store t) = t <->
   t = ZeroTime \/ (minInt64 <= t <= maxInt64 /\ t <> Instant 0)) /\
  (t <> ZeroTime ->
   atomicTime_Load (atomicTime_Store t)
   = if wrap64 t =? 0 then ZeroTime else Instant (wrap64 t)) /\
  minInt64 <= atomicTime_Store t <= maxInt64 /\
  atomicTime_Load (atomicTime_Store (Instant 0)) = ZeroTime /\
  atomicTime_Load (atomicTime_Store ZeroTime) = ZeroTime.
Proof.
  pose proof ZeroTime_out_of_range as Hz.
  pose proof (wrap64_range t) as Hr.
  rewrite atomicTime_Load_Store.
  unfold IsZero, Instant.
  destruct (t =? ZeroTime) eqn:E0.
  - apply Z.eqb_eq in E0. subst t.
    split; [tauto|]. split; [congruence|].
    split; [|split; reflexivity].
    unfold atomicTime_Store, IsZero. rewrite Z.eqb_refl.
    unfold minInt64, maxInt64. lia.
  - apply Z.eqb_neq in E0.
    split; [|split; [reflexivity|split; [|split; reflexivity]]].
    + destruct (wrap64 t =? 0) eqn:Ew.
      * apply Z.eqb_eq in Ew. split.
        -- intros H. congruence.
        -- intros [H|[H1 H2]]; [congruence|].
           apply wrap64_fix in H1. congruence.
      * apply Z.eqb_neq in Ew. split.
        -- intros H. right. split; [apply wrap64_fix; exact H|congruence].
        -- intros [H|[H1 H2]]; [congruence|apply wrap64_fix; exact H1].
    + unfold atomicTime_Store, IsZero, UnixNano.
      destruct (t =? ZeroTime); [unfold minInt64, maxInt64; lia|exact Hr].
Qed.

(** ** More on the runs of [Connect] *)

(** X13. On a client whose configuration and collaborators are all
    there, as the constructors build it, [Connect] panics in one place
    only: in [xrayToGatewayRoute], when [route.MustParseAddr] refuses the
    text of the resolved server address. By then the engine has been
    started and the TUN device set up with its routes, and nothing of it
    is closed. In every other case [Connect] returns, whatever the
    collaborators answer; so it never panics when every address the
    resolver returns is accepted. The configuration is left as it
    was. *)
Theorem Connect_panics_only_on_address (env : Env) (link : string) (w : World)
  (H : wellFormed (client w)) :
  exists out w' new,
    Connect env link w = (out, w') /\
    events w' = (events w ++ new)%list /\
    cfg (client w') = cfg (client w) /\
    wellFormed (client w') /\
    (forall why, out = Panics why ->
     xSrvAddr env (client w') = None /\
     (forall ev, In ev new -> isRelease ev = false) /\
     exists i ifc addr,
       hostCalls new = [EvStart i None; EvTunNew "" 1500 (inr ifc);
                        EvTunUp ifc addr (IPNet_IP addr) None;
                        EvRouteAdd (tunnelRoute (cfg (client w)) ifc) None]) /\
    ((forall name a, ResolveIPAddr env name = inr a ->
                     MustParseAddr env (IPAddr_String env (Some a) ++ "/32") <> None) ->
     exists res, out = Returns res).
Proof.
  destruct w as [c evs n].
  destruct H as (Hl & Hp & Ht & Hg & Hr & Hpp & Hts).
  destruct c as [cf xi xc ip tn pp rt ts st dbg].
  destruct cf as [gw ib ta rtt tls lgr lt dg dop].
  cbn in Hl, Hp, Ht, Hg, Hr, Hpp, Hts.
  subst rt ts.
  destruct lgr as [lg|]; [|congruence].
  destruct ib as [px|]; [|congruence].
  destruct ta as [ta|]; [|congruence].
  destruct pp as [p|]; [|congruence].
  run. cbn.
  repeat (case_step; cbn).
  all: try (exfalso; congruence).
  all: same_answers.
  all: do 3 eexists; split; [reflexivity|]; cbn.
  all: split; [rewrite <- ?app_assoc; cbn; try reflexivity; symmetry; apply app_nil_r|].
  all: split; [reflexivity|].
  all: split; [unfold wellFormed; cbn; repeat split; congruence|].
  all: split;
    [ intros why Hwhy;
      first
        [ discriminate Hwhy
        | split; [unfold xSrvAddr; cbn; assumption|];
          split;
          [ intros ev Hin; cbn in Hin;
            repeat (destruct Hin as [Hin|Hin]; [subst ev; reflexivity|]);
            destruct Hin
          | do 3 eexists; reflexivity ] ]
    | intros Hparse;
      first [ eexists; reflexivity
            | exfalso; eapply Hparse; eassumption ] ].
Qed.

(** A resolver that answers with an empty address: the engine and the
    tunnel are up when [Connect] panics. *)
Lemma emptyAddressRun_eq :
  Connect emptyAddress Mock.goodLink Mock.freshWorld = emptyAddressRun.
Proof. vm_compute. reflexivity. Qed.

Lemma Connect_panics_only_on_address_witness :
  exists why,
    fst emptyAddressRun = Panics why /\
    xSrvAddr emptyAddress (client (snd emptyAddressRun)) = None /\
    exists new,
      events (snd emptyAddressRun) = (events Mock.freshWorld ++ new)%list /\
      hostCalls new
      = [EvStart {| Instance_ID := Mock.goodLink |} None;
         EvTunNew "" 1500 (inr "utun7");
         EvTunUp "utun7" defaultTUNAddress (IPNet_IP defaultTUNAddress) None;
         EvRouteAdd (tunnelRoute (cfg Mock.freshClient) "utun7") None].
Proof.
  destruct (Connect_panics_only_on_address emptyAddress Mock.goodLink Mock.freshWorld)
    as (out & w' & new & Hrun & Hev & _ & _ & Hpanic & _).
  - unfold wellFormed. cbn. repeat split; discriminate.
  - rewrite emptyAddressRun_eq in Hrun.
    assert (Eo : out = fst emptyAddressRun) by (rewrite Hrun; reflexivity).
    assert (Ew : w' = snd emptyAddressRun) by (rewrite Hrun; reflexivity).
    subst out w'.
    exists "MustParseAddr: invalid address". split; [reflexivity|].
    destruct (Hpanic "MustParseAddr: invalid address" eq_refl)
      as (Hx & _ & i & ifc & addr & Hcalls).
    split; [exact Hx|].
    exists new. split; [exact Hev|].
    cbn in Hev. apply (f_equal hostCalls) in Hev.
    rewrite <- Hev. reflexivity.
Defined.

Lemma existsb_hostCalls (f : event -> bool) (l : list event) :
  (forall e, f e = true -> isHostCall e = true) ->
  existsb f (hostCalls l) = existsb f l.
Proof.
  intros Hf. induction l as [|e l IH]; [reflexivity|].
  unfold hostCalls in *. cbn [filter existsb].
  destruct (isHostCall e) eqn:E; cbn [existsb]; rewrite IH; [reflexivity|].
  destruct (f e) eqn:Ef; [|reflexivity].
  rewrite (Hf e Ef) in E. discriminate.
Qed.

(** X14. Every run of [Connect] that returns is one of seven: it stops
    at the first call that fails (descriptor and engine creation, engine
    start, TUN creation, TUN up, tunnel routes, exception route) with the
    error wrapped under the name of that step, or goes through to the
    start of the pipe and returns nil; a failed best-effort delete of
    the exception route stops nothing. The pipe is started exactly in
    the runs that return nil. *)
Theorem Connect_run_shapes (env : Env) (link : string) (w w' : World)
  (res : option error)
  (H : Connect env link w = (Returns res, w')) :
  exists new,
    events w' = (events w ++ new)%list /\
    ConnectRun env (client w') (hostCalls new) res /\
    (res = None <-> pipeStarted new = true).
Proof.
  destruct (Connect_host_calls env link w w' res H) as [new [Hnew [Hshape _]]].
  exists new. split; [exact Hnew|]. split; [exact Hshape|].
  unfold pipeStarted. rewrite <- existsb_hostCalls.
  - inversion Hshape; cbn; split; intros; try discriminate; reflexivity.
  - intros e He. destruct e; try discriminate He; reflexivity.
Qed.

Lemma Connect_run_shapes_witness :
  exists new,
    events (snd refusedRun) = (events Mock.freshWorld ++ new)%list /\
    ConnectRun (Mock.scripted exceptionRefused) (client (snd refusedRun)) (hostCalls new)
      (Some (Errorf_w "add xray server route exception: "
               (errorString "operation not permitted"))) /\
    (Some (Errorf_w "add xray server route exception: "
             (errorString "operation not permitted")) = None
     <-> pipeStarted new = true).
Proof.
  apply (Connect_run_shapes (Mock.scripted exceptionRefused) Mock.goodLink
           Mock.freshWorld (snd refusedRun)).
  rewrite refusedRun_eq. reflexivity.
Defined.

(** X15. After a [Connect] that returns nil the client is connected, one
    more pipe task is running, the tunnel is a fresh metrics wrapper
    around the new device, so that [BytesRead] and [BytesWritten] return
    0 (also on a client that was connected before), and the debug
    monitors run if debugging is enabled. *)
Theorem Connect_success_state (env : Env) (link : string) (w w' : World)
  (H : Connect env link w = (Returns None, w')) :
  connected env (client w') /\
  pending w' = S (pending w) /\
  (exists ifc,
      tunnel (client w')
      = Some (metricsTunnel (newReaderMetrics (tunInterface (Some ifc))))) /\
  BytesRead (client w') = Returns 0 /\
  BytesWritten (client w') = Returns 0 /\
  snapshotStats (client w') = zeroStats /\
  debug_cancel (debug (client w')) =
    debug_enabled (debug (client w)) || debug_cancel (debug (client w)).
Proof.
  destruct w as [c evs n].
  destruct c as [cf xi xc ip tn pp rt ts st dbg].
  revert H. run. cbn.
  repeat (case_step; cbn); intros H; try discriminate.
  all: injection H as <-; cbn.
  all: unfold connected, xSrvAddr, BytesRead, BytesWritten, snapshotStats; cbn.
  all: repeat split; try congruence; eauto.
  all: destruct (debug_enabled dbg), (debug_cancel dbg); cbn in *; congruence.
Qed.

Lemma Connect_success_state_witness :
  connected (Mock.scripted Mock.allGood) (client (snd happyRun)) /\
  BytesRead (client (snd happyRun)) = Returns 0.
Proof.
  destruct (Connect_success_state (Mock.scripted Mock.allGood) Mock.goodLink
              Mock.freshWorld (snd happyRun)) as (Hc & _ & _ & Hb & _).
  - rewrite happyRun_eq. reflexivity.
  - split; assumption.
Defined.

(** X16. After a [Connect] that fails in the TUN setup (device creation,
    bringing it up, or the tunnel routes) the tunnel field holds the nil
    device pointer returned by [setupTunnel], which is not the nil
    interface: [BytesRead] and [BytesWritten] then panic on their type
    assertion, while the statistics read by the resource monitor, whose
    assertion is the checked one, are the zero ones. *)
Theorem Connect_failed_tunnel_setup (env : Env) (link : string) (w w' : World)
  (cause : error)
  (H : Connect env link w
       = (Returns (Some (Errorf_w "setup TUN device: " cause)), w')) :
  tunnel (client w') = Some (rawTunnel (tunInterface None)) /\
  BytesRead (client w') = Panics "interface conversion: not *readerMetrics" /\
  BytesWritten (client w') = Panics "interface conversion: not *readerMetrics" /\
  snapshotStats (client w') = zeroStats /\
  stopTunnel (client w') = stopTunnel (client w).
Proof.
  destruct w as [c evs n].
  destruct c as [cf xi xc ip tn pp rt ts st dbg].
  revert H. run. cbn.
  repeat (case_step; cbn); intros H; try discriminate.
  all: unfold Errorf_w in H; cbn in H.
  all: injection H as _ _ <-; cbn; repeat split; reflexivity.
Qed.

(** A host that has no TUN device to give. *)
Lemma Connect_failed_tunnel_setup_witness :
  BytesRead (client (snd noDeviceRun))
  = Panics "interface conversion: not *readerMetrics".
Proof.
  refine (proj1 (proj2 (Connect_failed_tunnel_setup (Mock.scripted noDevice)
                          Mock.goodLink Mock.freshWorld (snd noDeviceRun)
                          (Errorf_w "create tun: " (errorString "no such device")) _))).
  rewrite noDeviceRun_eq. reflexivity.
Defined.

Lemma Connect_creation_failure_state (env : Env) (link : string) (w w' : World)
  (cause : error) :
  Connect env link w
    = (Returns (Some (Errorf_w "create xray core instance: " cause)), w') ->
  (exists e prefix,
      cause = Errorf_w prefix e /\
      In prefix ["invalid config: protocol create: "; "invalid config: parse: ";
                 "make instance: "; "xray address not resolvable: "]) /\
  w' = {| client := set_xInst_xCfg None None (client w);
          events := (events w ++ [EvLog slog.LevelDebug "Connecting to tunnel";
                                  EvLog slog.LevelError "xray core creation failed"])%list;
          pending := pending w |}.
Proof.
  destruct w as [c evs n].
  destruct c as [cf xi xc ip tn pp rt ts st dbg].
  run. cbn.
  repeat (case_step; cbn); intros H; try discriminate.
  all: injection H as _ <- <-.
  all: split; [do 2 eexists; split; [reflexivity|cbn; tauto]|].
  all: rewrite <- ?app_assoc; reflexivity.
Qed.

Lemma invalidRun_eq :
  Connect (Mock.scripted Mock.allGood) "invalid_link" Mock.freshWorld = invalidRun.
Proof. vm_compute. reflexivity. Qed.

Lemma reconnectRun_eq :
  Connect (Mock.scripted Mock.allGood) "invalid_link" (snd happyRun) = reconnectRun.
Proof. vm_compute. reflexivity. Qed.

(** X17. When [Connect] fails before the engine is started, in any of
    the four steps of [createXrayProxy] (protocol creation, parsing,
    instance creation, address resolution), it issues two log lines and
    no other call, and it has overwritten the engine and its
    configuration with nil; tunnel, cancel function and pipe tasks are
    as before. *)
Theorem Connect_creation_failure (env : Env) (link : string) (w w' : World)
  (cause : error)
  (H : Connect env link w
       = (Returns (Some (Errorf_w "create xray core instance: " cause)), w')) :
  (exists e prefix,
      cause = Errorf_w prefix e /\
      In prefix ["invalid config: protocol create: "; "invalid config: parse: ";
                 "make instance: "; "xray address not resolvable: "]) /\
  events w' = (events w ++ [EvLog slog.LevelDebug "Connecting to tunnel";
                            EvLog slog.LevelError "xray core creation failed"])%list /\
  xInst (client w') = None /\ xCfg (client w') = None /\
  tunnel (client w') = tunnel (client w) /\
  stopTunnel (client w') = stopTunnel (client w) /\
  pending w' = pending w.
Proof.
  destruct (Connect_creation_failure_state env link w w' cause H) as [Hc ->].
  split; [exact Hc|]. repeat split; reflexivity.
Qed.

Lemma Connect_creation_failure_witness :
  xInst (client (snd invalidRun)) = None /\
  pending (snd invalidRun) = pending Mock.freshWorld.
Proof.
  destruct (Connect_creation_failure (Mock.scripted Mock.allGood) "invalid_link"
              Mock.freshWorld (snd invalidRun)
              (Errorf_w "invalid config: protocol create: "
                 (errorString "invalid protocol type")))
    as (_ & _ & Hi & _ & _ & _ & Hp).
  - rewrite invalidRun_eq. reflexivity.
  - split; assumption.
Defined.

Lemma Disconnect_nil_engine (env : Env) (ctx : Context) (w : World) :
  stopTunnel (client w) = true -> xInst (client w) = None ->
  exists w' new,
    Disconnect env ctx w = (Panics "nil pointer dereference: xInst", w') /\
    events w' = (events w ++ new)%list /\
    hostCalls new = [EvStopTunnel].
Proof.
  destruct w as [c evs n].
  destruct c as [cf xi xc ip tn pp rt ts st dbg]. cbn.
  intros -> ->.
  run. cbn. destruct (debug_cancel dbg); cbn;
    do 2 eexists; (split; [reflexivity|]); cbn;
    (split; [rewrite <- ?app_assoc; reflexivity|reflexivity]).
Qed.

(** X18. A [Connect] that fails in [createXrayProxy] on a client that is
    connected leaves the cancel function set and the engine nil: the
    next [Disconnect] cancels the pipe and then panics on the nil
    engine, before closing the tunnel or deleting the exception route. *)
Theorem Disconnect_after_failed_reconnect (env env' : Env) (link : string)
  (ctx : Context) (w w1 : World) (cause : error)
  (Hs : stopTunnel (client w) = true)
  (H : Connect env link w
       = (Returns (Some (Errorf_w "create xray core instance: " cause)), w1)) :
  exists w2 new,
    Disconnect env' ctx w1 = (Panics "nil pointer dereference: xInst", w2) /\
    events w2 = (events w1 ++ new)%list /\
    hostCalls new = [EvStopTunnel].
Proof.
  destruct (Connect_creation_failure_state env link w w1 cause H) as [_ ->].
  apply Disconnect_nil_engine; cbn.
  - destruct (client w); exact Hs.
  - destruct (client w); reflexivity.
Qed.

Lemma Disconnect_after_failed_reconnect_witness :
  exists w2 new,
    Disconnect (Mock.scripted Mock.allGood) Background (snd reconnectRun)
    = (Panics "nil pointer dereference: xInst", w2) /\
    events w2 = (events (snd reconnectRun) ++ new)%list /\
    hostCalls new = [EvStopTunnel].
Proof.
  apply (Disconnect_after_failed_reconnect (Mock.scripted Mock.allGood)
           (Mock.scripted Mock.allGood) "invalid_link" Background
           (snd happyRun) (snd reconnectRun)
           (Errorf_w "invalid config: protocol create: "
              (errorString "invalid protocol type"))).
  - reflexivity.
  - rewrite reconnectRun_eq. reflexivity.
Defined.

(** ** More on the runs of [Disconnect] *)

(** X19. [Disconnect] changes nothing of the client but the debug state:
    configuration, engine, server address, tunnel and cancel function
    are as before, whether it returns or panics; so the byte counters
    read after a disconnect are the last ones of the session, and the
    pipe tasks do not grow. *)
Theorem Disconnect_keeps_client (env : Env) (ctx : Context) (w w' : World)
  (out : outcome (option error))
  (H : Disconnect env ctx w = (out, w')) :
  cfg (client w') = cfg (client w) /\
  xInst (client w') = xInst (client w) /\
  xSrvIP (client w') = xSrvIP (client w) /\
  tunnel (client w') = tunnel (client w) /\
  stopTunnel (client w') = stopTunnel (client w) /\
  BytesRead (client w') = BytesRead (client w) /\
  BytesWritten (client w') = BytesWritten (client w) /\
  (pending w' <= pending w)%nat.
Proof.
  destruct w as [c evs n].
  destruct c as [cf xi xc ip tn pp rt ts st dbg].
  revert H. run. unfold readySender. cbn.
  repeat (case_step; cbn); intros H.
  all: injection H as _ <-; cbn.
  all: unfold BytesRead, BytesWritten; cbn.
  all: repeat split; try reflexivity; try lia.
Qed.

Lemma Disconnect_keeps_client_witness :
  tunnel (client (snd firstDisconnect)) = tunnel (client (snd happyRun)) /\
  stopTunnel (client (snd firstDisconnect)) = stopTunnel (client (snd happyRun)).
Proof.
  destruct (Disconnect_keeps_client (Mock.scripted Mock.allGood) Background
              (snd happyRun) (snd firstDisconnect) (fst firstDisconnect))
    as (_ & _ & _ & Ht & Hs & _).
  - rewrite firstDisconnect_eq. reflexivity.
  - split; assumption.
Defined.

(** X20. On a connected client with no pipe task left to send on
    [tunnelStopped] (as after an earlier [Disconnect] that received the
    pipe result), [Disconnect] never returns success: it waits until its
    context ends, which without a cancellation by the caller is the
    earlier of the caller's deadline and 30s after the closing calls,
    and returns an error that holds the context error. *)
Theorem Disconnect_without_pipe_task (env : Env) (ctx : Context) (w : World)
  (H : connected env (client w)) (Hp : pending w = 0%nat) :
  exists r w' now,
    let ce := timeoutEnd ctx disconnectTimeout now in
    Disconnect env ctx w = (Returns (Some r), w') /\
    errors.Is r (snd ce) /\
    In (EvCtxDone (Z.max now (fst ce)) (snd ce)) (events w') /\
    (neverCanceled ctx = true ->
     ce = (match Deadline ctx with
           | Some d => Z.min d (now + disconnectTimeout)
           | None => now + disconnectTimeout
           end, DeadlineExceeded)) /\
    pending w' = 0%nat.
Proof.
  destruct (Disconnect_run env ctx w H)
    as (dbg & i & rw & o & e1 & e2 & e3 & now & _ & _ & _ & _ & Hend).
  cbv zeta in Hend. rewrite Hp in Hend.
  assert (Hs : forall h, readySender env (client w) 0 h = None).
  { intros h. unfold readySender. destruct (tunnelStopped (client w)); reflexivity. }
  rewrite Hs in Hend.
  destruct Hend as (lvl & msg & w' & Hrun & Hev & Hpend & _).
  destruct (Join_head_keeps (snd (timeoutEnd ctx disconnectTimeout now))
              (errors.Join [e1; e2; e3])) as [r [Er [HIs _]]].
  exists r, w', now. cbv zeta.
  split; [rewrite <- Er; exact Hrun|]. split; [exact HIs|]. split.
  { rewrite Hev. apply in_or_app. right. left. reflexivity. }
  split; [|exact Hpend].
  intros Hnc.
  assert (E : Done (WithTimeout ctx disconnectTimeout now)
              = Some (timeoutEnd ctx disconnectTimeout now)) by reflexivity.
  rewrite (Done_neverCanceled (WithTimeout ctx disconnectTimeout now) Hnc) in E.
  unfold WithTimeout in E. cbn [Deadline] in E.
  destruct (Deadline ctx); injection E as <-; reflexivity.
Qed.

(** The client of the happy path after its first [Disconnect]. *)
Lemma Disconnect_without_pipe_task_witness :
  connected (Mock.scripted allFail) (client (snd firstDisconnect)) /\
  exists r w' now,
    let ce := timeoutEnd Background disconnectTimeout now in
    Disconnect (Mock.scripted allFail) Background (snd firstDisconnect)
    = (Returns (Some r), w') /\
    errors.Is r (snd ce) /\
    In (EvCtxDone (Z.max now (fst ce)) (snd ce)) (events w') /\
    (neverCanceled Background = true ->
     ce = (match Deadline Background with
           | Some d => Z.min d (now + disconnectTimeout)
           | None => now + disconnectTimeout
           end, DeadlineExceeded)) /\
    pending w' = 0%nat.
Proof.
  split.
  - unfold connected. cbn. repeat split; discriminate.
  - apply (Disconnect_without_pipe_task (Mock.scripted allFail) Background
             (snd firstDisconnect)).
    + unfold connected. cbn. repeat split; discriminate.
    + reflexivity.
Defined.

Lemma Join_nil_iff (a e1 e2 e3 : option error) :
  errors.Join [a; errors.Join [e1; e2; e3]] = None <->
  a = None /\ e1 = None /\ e2 = None /\ e3 = None.
Proof.
  destruct a, e1, e2, e3; cbn; split; intros H; try discriminate;
    try (destruct H as (? & ? & ? & ?); discriminate); auto.
Qed.

(** X21. [Disconnect] on a connected client returns success exactly when
    the three closing calls return nil and a nil pipe result is received
    on [tunnelStopped] before the context ends; any pipe error, the
    cancellation error included, makes it return an error. On success
    one pipe task less is pending. *)
Theorem Disconnect_success_iff (env : Env) (ctx : Context) (w : World)
  (H : connected env (client w)) :
  exists res w' dbg i rw o e1 e2 e3 now sel level msg,
    Disconnect env ctx w = (Returns res, w') /\
    events w' = (events w ++ dbg ++
                   [EvStopTunnel; EvInstClose i e1; EvTunClose rw e2;
                    EvRouteDelete o e3; EvNow now; sel; EvLog level msg])%list /\
    (res = None <->
     e1 = None /\ e2 = None /\ e3 = None /\ exists t, sel = EvStopped t None) /\
    (res = None -> pending w' = Nat.pred (pending w)).
Proof.
  destruct (Disconnect_run env ctx w H)
    as (dbg & i & rw & o & e1 & e2 & e3 & now & _ & _ & _ & _ & Hend).
  cbv zeta in Hend.
  destruct (readySender env (client w) (pending w) _) as [[tp tunErr]|];
    [destruct (_ || _)|];
    destruct Hend as (lvl & msg & w' & Hrun & Hev & Hpend & _);
    eexists _, w', dbg, i, rw, o, e1, e2, e3, now, _, lvl, msg;
    (split; [exact Hrun|]);
    (split; [rewrite Hev, <- !app_assoc; reflexivity|]);
    rewrite Join_nil_iff; (split; [|intros; try exact Hpend]).
  - split.
    + intros (-> & -> & -> & ->). repeat split; eauto.
    + intros (-> & -> & -> & t & Ht). injection Ht as _ <-. auto.
  - split.
    + intros (Hc & _). discriminate Hc.
    + intros (_ & _ & _ & t & Ht). discriminate Ht.
  - destruct H0 as (Hc & _). discriminate Hc.
  - split.
    + intros (Hc & _). discriminate Hc.
    + intros (_ & _ & _ & t & Ht). discriminate Ht.
  - destruct H0 as (Hc & _). discriminate Hc.
Qed.

Lemma Disconnect_success_iff_witness :
  connected (Mock.scripted allFail) (client (snd happyRun)) /\
  exists res w' dbg i rw o e1 e2 e3 now sel level msg,
    Disconnect (Mock.scripted allFail) Background (snd happyRun)
    = (Returns res, w') /\
    events w' = (events (snd happyRun) ++ dbg ++
                   [EvStopTunnel; EvInstClose i e1; EvTunClose rw e2;
                    EvRouteDelete o e3; EvNow now; sel; EvLog level msg])%list /\
    (res = None <->
     e1 = None /\ e2 = None /\ e3 = None /\ exists t, sel = EvStopped t None) /\
    (res = None -> pending w' = Nat.pred (pending (snd happyRun))).
Proof.
  split.
  - unfold connected. cbn. repeat split; discriminate.
  - apply (Disconnect_success_iff _ Background (snd happyRun)).
    unfold connected. cbn. repeat split; discriminate.
Defined.

(** X22. Once the guard of [Disconnect] is passed, the debug monitors
    are stopped, if they run, before the pipe is cancelled and anything
    is closed, and they are left stopped whether [Disconnect] returns or
    panics; nothing in the rest of the call starts or stops them
    again. *)
Theorem Disconnect_stops_monitors_first (env : Env) (ctx : Context)
  (w w' : World) (out : outcome (option error))
  (Hs : stopTunnel (client w) = true)
  (H : Disconnect env ctx w = (out, w')) :
  debug_cancel (debug (client w')) = false /\
  exists rest,
    events w' = (events w
                 ++ (if debug_cancel (debug (client w)) then [EvDebugStop] else [])
                 ++ EvStopTunnel :: rest)%list /\
    ~ In EvDebugStop rest /\ ~ In EvDebugStart rest.
Proof.
  destruct w as [c evs n].
  destruct c as [cf xi xc ip tn pp rt ts st dbg]. cbn in Hs. subst st.
  revert H. run. unfold readySender. cbn.
  destruct (debug_cancel dbg) eqn:Ed; cbn.
  all: repeat (case_step; cbn); intros H.
  all: injection H as _ <-; cbn.
  all: (split; [try reflexivity; try exact Ed|]).
  all: eexists; split; [rewrite <- ?app_assoc; cbn; reflexivity|].
  all: cbn; split; intros Hin;
    repeat (destruct Hin as [Hin|Hin]; [discriminate Hin|]); exact Hin.
Qed.

Lemma Disconnect_stops_monitors_first_witness :
  debug_cancel
    (debug (client (snd (Disconnect (Mock.scripted Mock.allGood) Background
                           monitoredWorld)))) = false.
Proof.
  refine (proj1 (Disconnect_stops_monitors_first (Mock.scripted Mock.allGood)
                   Background monitoredWorld
                   (snd (Disconnect (Mock.scripted Mock.allGood) Background
                           monitoredWorld))
                   (fst (Disconnect (Mock.scripted Mock.allGood) Background
                           monitoredWorld)) _ _)).
  - reflexivity.
  - apply surjective_pairing.
Defined.

(** X23. Starting the debug monitors twice is starting them once, and
    stopping them twice is stopping them once; with debugging enabled
    and no monitor running, a start followed by a stop leaves the client
    as it was; with debugging disabled a start does nothing. *)
Theorem debugging_start_stop (w : World) :
  (startDebugging ;;; startDebugging) w = startDebugging w /\
  (stopDebugging ;;; stopDebugging) w = stopDebugging w /\
  (debug_enabled (debug (client w)) = true ->
   debug_cancel (debug (client w)) = false ->
   (startDebugging ;;; stopDebugging) w
   = (Returns tt, {| client := client w;
                     events := (events w ++ [EvDebugStart; EvDebugStop])%list;
                     pending := pending w |})) /\
  (debug_enabled (debug (client w)) = false ->
   startDebugging w = (Returns tt, w)).
Proof.
  destruct w as [c evs n].
  destruct c as [cf xi xc ip tn pp rt ts st [en ca]].
  unfold startDebugging, stopDebugging, bind, getClient, modifyClient, emit, ret.
  cbn. repeat split.
  - destruct en, ca; reflexivity.
  - destruct ca; reflexivity.
  - intros -> ->. cbn. rewrite <- app_assoc. reflexivity.
  - intros ->. reflexivity.
Qed.

(** ** The gateway monitor *)

Lemma xSrvAddr_set_gateway (env : Env) (g : IP) (c : Client) :
  xSrvAddr env (set_gateway g c) = xSrvAddr env c.
Proof. reflexivity. Qed.

Lemma updateGatewayIP_state (env : Env) (nx : error -> bool) (newIP : IP)
  (a : Addr) (w : World) :
  xSrvAddr env (client w) = Some a ->
  routes (client w) = true ->
  Logger (cfg (client w)) <> None ->
  exists d r w' new,
    updateGatewayIP env nx newIP w = (Returns tt, w') /\
    events w' = (events w ++ new)%list /\
    hostCalls new =
      [EvRouteDelete {| Gateway := GatewayIP (cfg (client w)); IfName := "";
                        Routes := [a] |} d;
       EvRouteAdd {| Gateway := Some newIP; IfName := "";
                     Routes := [a] |} r] /\
    client w' = set_gateway newIP (client w) /\
    pending w' = pending w.
Proof.
  destruct w as [c evs n].
  destruct c as [cf xi xc sip tn pp rt ts st dbg].
  destruct cf as [gw ib ta rtt tls lgr lt dg dop].
  unfold xSrvAddr. cbn.
  intros Ha -> Hl. destruct lgr as [lg|]; [|congruence].
  run_gw. unfold set_gateway. cbn. rewrite !Ha. cbn.
  repeat (case_step; cbn).
  all: try (exfalso; congruence).
  all: same_answers.
  all: do 4 eexists; split; [reflexivity|]; cbn.
  all: split; [rewrite <- ?app_assoc; cbn; reflexivity|].
  all: cbn; repeat split; reflexivity.
Qed.

Lemma IP_Equal_refl (ip : IP) : IP_Equal ip ip = true.
Proof.
  unfold IP_Equal. rewrite Nat.eqb_refl. unfold IP_eqb.
  destruct (list_eq_dec Z.eq_dec ip ip); congruence.
Qed.

Lemma validateGateway_state (env : Env) (nx : error -> bool)
  (d : error + IP) (a : Addr) (w : World) :
  xSrvAddr env (client w) = Some a ->
  routes (client w) = true ->
  Logger (cfg (client w)) <> None ->
  exists w' new,
    validateGateway env nx d w = (Returns tt, w') /\
    events w' = (events w ++ new)%list /\
    pending w' = pending w /\
    match d with
    | inl _ => client w' = client w /\ hostCalls new = []
    | inr g =>
        match GatewayIP (cfg (client w)) with
        | Some cur =>
            if IP_Equal g cur then client w' = client w /\ new = []
            else client w' = set_gateway g (client w) /\ length (hostCalls new) = 2%nat
        | None => client w' = set_gateway g (client w) /\ length (hostCalls new) = 2%nat
        end
    end.
Proof.
  intros Hip Hr Hl.
  destruct d as [e|g].
  - destruct w as [c evs n]. cbn in *.
    unfold validateGateway, log, bind, getClient, emit, panic. cbn.
    destruct (Logger (cfg c)); [|congruence].
    do 2 eexists. split; [reflexivity|]. cbn. repeat split; reflexivity.
  - unfold validateGateway, bind, getClient, currentGatewayIP.
    assert (Hupd : exists w' new,
               (log slog.LevelInfo "debug.gateway.changed" ;;; updateGatewayIP env nx g) w
               = (Returns tt, w') /\
               events w' = (events w ++ new)%list /\ pending w' = pending w /\
               client w' = set_gateway g (client w) /\
               length (hostCalls new) = 2%nat).
    { unfold bind at 1. unfold log, bind at 1, getClient, emit.
      destruct (Logger (cfg (client w))) eqn:El; [|congruence].
      destruct (updateGatewayIP_state env nx g a
                  {| client := client w;
                     events := events w ++ [EvLog slog.LevelInfo "debug.gateway.changed"];
                     pending := pending w |})
        as (dd & aa & w' & new & Hrun & Hev & Hhc & Hcl & Hpe); cbn; try assumption.
      { rewrite El. discriminate. }
      exists w', (EvLog slog.LevelInfo "debug.gateway.changed" :: new).
      split; [exact Hrun|]. cbn in Hev, Hcl, Hpe.
      split; [rewrite Hev, <- app_assoc; reflexivity|].
      split; [exact Hpe|]. split; [exact Hcl|].
      cbn. change (filter isHostCall new) with (hostCalls new). rewrite Hhc. reflexivity. }
    destruct (GatewayIP (cfg (client w))) as [cur|] eqn:Eg.
    + destruct (IP_Equal g cur) eqn:Eq.
      * exists w, []. unfold ret. rewrite app_nil_r. repeat split; reflexivity.
      * destruct Hupd as (w' & new & H1 & H2 & H3 & H4 & H5).
        exists w', new. repeat split; assumption.
    + destruct Hupd as (w' & new & H1 & H2 & H3 & H4 & H5).
      exists w', new. repeat split; assumption.
Qed.

Lemma connected_set_gateway (env : Env) (g : IP) (c : Client) :
  connected env c -> connected env (set_gateway g c).
Proof.
  unfold connected, xSrvAddr, set_gateway. destruct c; cbn. tauto.
Qed.

(** X24. [updateGatewayIP] on a client with a server address that
    parses, a route table and a logger: the exception route is deleted
    through the
    gateway held before the call and added through the new one, in this
    order and whatever the two calls answer; afterwards [GatewayIP]
    returns the new address, the exception route of the client goes
    through it, and a connected client is still connected. *)
Theorem updateGatewayIP_swaps_gateway (env : Env) (nx : error -> bool)
  (newIP : IP) (a : Addr) (w : World)
  (Hip : xSrvAddr env (client w) = Some a)
  (Hr : routes (client w) = true)
  (Hl : Logger (cfg (client w)) <> None) :
  exists d r w' new,
    updateGatewayIP env nx newIP w = (Returns tt, w') /\
    events w' = (events w ++ new)%list /\
    hostCalls new =
      [EvRouteDelete {| Gateway := GatewayIP (cfg (client w)); IfName := "";
                        Routes := [a] |} d;
       EvRouteAdd {| Gateway := Some newIP; IfName := "";
                     Routes := [a] |} r] /\
    Client_GatewayIP (client w') = Some newIP /\
    exceptionRoute env (client w')
      = Some {| Gateway := Some newIP; IfName := ""; Routes := [a] |} /\
    (connected env (client w) -> connected env (client w')).
Proof.
  destruct (updateGatewayIP_state env nx newIP a w Hip Hr Hl)
    as (d & r & w' & new & Hrun & Hev & Hhc & Hcl & _).
  exists d, r, w', new.
  split; [exact Hrun|]. split; [exact Hev|]. split; [exact Hhc|].
  rewrite Hcl. split; [reflexivity|]. split.
  - unfold exceptionRoute. rewrite xSrvAddr_set_gateway, Hip. reflexivity.
  - apply connected_set_gateway.
Qed.

(** X25. [validateGateway] touches neither the client nor the route
    table when the discovery fails (one warning is logged) and does
    nothing at all when the discovered gateway equals the configured
    one. *)
Theorem validateGateway_quiet (env : Env) (nx : error -> bool) (w : World)
  (Hl : Logger (cfg (client w)) <> None) :
  (forall e,
     validateGateway env nx (inl e) w
     = (Returns tt, {| client := client w;
                       events := (events w
                                  ++ [EvLog slog.LevelWarn "debug.gateway.discover_failed"])%list;
                       pending := pending w |})) /\
  (forall g cur,
     Client_GatewayIP (client w) = Some cur -> IP_Equal g cur = true ->
     validateGateway env nx (inr g) w = (Returns tt, w)).
Proof.
  split.
  - intros e. unfold validateGateway, log, bind, getClient, emit.
    destruct (Logger (cfg (client w))); [reflexivity|congruence].
  - intros g cur Hc He. unfold validateGateway, bind, getClient.
    unfold Client_GatewayIP in Hc. rewrite Hc, He. reflexivity.
Qed.

(** X26. On a client with a server address that parses, a route table
    and a logger, the loop of [gatewayMonitor], run over any sequence of
    ticks (each with the answer of the gateway discovery), returns, leaves
    the pipe tasks alone, and ends with the configured gateway equal to
    the last gateway discovered; when every discovery failed the client
    is unchanged. *)
Theorem gatewayMonitor_tracks_last (env : Env) (nx : error -> bool)
  (ticks : list (error + IP)) (a : Addr) (w : World)
  (Hip : xSrvAddr env (client w) = Some a)
  (Hr : routes (client w) = true)
  (Hl : Logger (cfg (client w)) <> None) :
  exists w',
    gatewayMonitor env nx ticks w = (Returns tt, w') /\
    pending w' = pending w /\
    match lastDiscovered ticks with
    | Some g =>
        exists cur, Client_GatewayIP (client w') = Some cur /\ IP_Equal g cur = true
    | None => client w' = client w
    end.
Proof.
  revert w Hip Hr Hl.
  induction ticks as [|d rest IH]; intros w Hip Hr Hl.
  - exists w. repeat split; reflexivity.
  - destruct (validateGateway_state env nx d a w Hip Hr Hl)
      as (w1 & new & Hrun & _ & Hp1 & Hd).
    assert (Hinv : xSrvAddr env (client w1) = Some a /\ routes (client w1) = true /\
                   Logger (cfg (client w1)) <> None /\
                   match d with
                   | inl _ => client w1 = client w
                   | inr g => exists cur, Client_GatewayIP (client w1) = Some cur /\
                                          IP_Equal g cur = true
                   end).
    { destruct d as [e|g].
      - destruct Hd as [-> _]. auto.
      - unfold Client_GatewayIP, currentGatewayIP.
        destruct (GatewayIP (cfg (client w))) as [cur|] eqn:Eg;
          [destruct (IP_Equal g cur) eqn:Eq|];
          destruct Hd as [-> _]; repeat split; auto.
        + eauto.
        + exists g. split; [reflexivity|apply IP_Equal_refl].
        + exists g. split; [reflexivity|apply IP_Equal_refl]. }
    destruct Hinv as (Hip1 & Hr1 & Hl1 & Hg1).
    destruct (IH w1 Hip1 Hr1 Hl1) as (w' & Hrun' & Hp' & Hlast).
    exists w'. cbn [gatewayMonitor lastDiscovered].
    split; [unfold bind; rewrite Hrun; exact Hrun'|].
    split; [congruence|].
    destruct (lastDiscovered rest) as [g'|]; [exact Hlast|].
    rewrite Hlast. destruct d as [e|g]; exact Hg1.
Qed.

(** X27. After the gateway monitor has replaced the gateway of a
    connected client, [Disconnect] deletes the exception route through
    the new gateway, the one [updateGatewayIP] installed, and issues no
    other route deletion. *)
Theorem Disconnect_after_gateway_change (env : Env) (nx : error -> bool)
  (newIP : IP) (a : Addr) (ctx : Context) (w : World)
  (Hc : connected env (client w))
  (Hip : xSrvAddr env (client w) = Some a) :
  exists w1 res w2 e3 before after,
    updateGatewayIP env nx newIP w = (Returns tt, w1) /\
    Disconnect env ctx w1 = (Returns res, w2) /\
    events w2 = (events w1 ++ before
                 ++ EvRouteDelete {| Gateway := Some newIP; IfName := "";
                                     Routes := [a] |} e3 :: after)%list /\
    (forall o r, ~ In (EvRouteDelete o r) before) /\
    (forall o r, ~ In (EvRouteDelete o r) after).
Proof.
  destruct Hc as (Hs & Hi & Ht & Hx & Hr & Hl).
  destruct (updateGatewayIP_state env nx newIP a w Hip Hr Hl)
    as (d & ra & w1 & new & Hrun & _ & _ & Hcl & _).
  assert (Hc1 : connected env (client w1)).
  { rewrite Hcl. apply connected_set_gateway. repeat split; assumption. }
  destruct (Disconnect_run env ctx w1 Hc1)
    as (dbg & i & rw & o & e1 & e2 & e3 & now & Hdbg & _ & Ho & _ & Hend).
  assert (Eo : o = {| Gateway := Some newIP; IfName := ""; Routes := [a] |}).
  { rewrite Hcl in Ho. unfold exceptionRoute in Ho.
    rewrite xSrvAddr_set_gateway, Hip in Ho. injection Ho as <-. reflexivity. }
  subst o. cbv zeta in Hend.
  destruct (readySender env (client w1) (pending w1) _) as [[tp tunErr]|];
    [destruct (_ || _)|];
    destruct Hend as (lvl & msg & w2 & Hrun2 & Hev & _ & _);
    eexists w1, _, w2, e3,
      (dbg ++ [EvStopTunnel; EvInstClose i e1; EvTunClose rw e2])%list, _;
    (split; [exact Hrun|]); (split; [exact Hrun2|]);
    (split; [rewrite Hev, <- !app_assoc; cbn; reflexivity|]);
    (split; intros o r Hin;
     [apply in_app_or in Hin; destruct Hin as [Hin|Hin];
      [destruct Hdbg as [-> | ->]; cbn in Hin;
       repeat (destruct Hin as [Hin|Hin]; [discriminate Hin|]); exact Hin
      |cbn in Hin; repeat (destruct Hin as [Hin|Hin]; [discriminate Hin|]); exact Hin]
     |cbn in Hin; repeat (destruct Hin as [Hin|Hin]; [discriminate Hin|]); exact Hin]).
Qed.

Lemma updateGatewayIP_swaps_gateway_witness :
  exists d r w' new,
    updateGatewayIP (Mock.scripted allFail) neverNotExist [10; 0; 0; 1]
      (snd happyRun) = (Returns tt, w') /\
    events w' = (events (snd happyRun) ++ new)%list /\
    hostCalls new =
      [EvRouteDelete {| Gateway := GatewayIP (cfg (client (snd happyRun)));
                        IfName := ""; Routes := [hostAddr Mock.serverIP] |} d;
       EvRouteAdd {| Gateway := Some [10; 0; 0; 1]; IfName := "";
                     Routes := [hostAddr Mock.serverIP] |} r] /\
    Client_GatewayIP (client w') = Some [10; 0; 0; 1] /\
    exceptionRoute (Mock.scripted allFail) (client w')
      = Some {| Gateway := Some [10; 0; 0; 1]; IfName := "";
                Routes := [hostAddr Mock.serverIP] |} /\
    (connected (Mock.scripted allFail) (client (snd happyRun)) -> connected (Mock.scripted allFail) (client w')).
Proof.
  apply (updateGatewayIP_swaps_gateway (Mock.scripted allFail) neverNotExist
           [10; 0; 0; 1] (hostAddr Mock.serverIP) (snd happyRun)).
  - reflexivity.
  - reflexivity.
  - cbn. discriminate.
Defined.

Lemma validateGateway_quiet_witness :
  validateGateway (Mock.scripted Mock.allGood) neverNotExist
    (inr [192; 168; 1; 1]) (snd happyRun) = (Returns tt, snd happyRun).
Proof.
  refine (proj2 (validateGateway_quiet (Mock.scripted Mock.allGood)
                   neverNotExist (snd happyRun) _)
            [192; 168; 1; 1] [192; 168; 1; 1] _ _).
  - cbn. discriminate.
  - reflexivity.
  - reflexivity.
Defined.

Lemma gatewayMonitor_tracks_last_witness :
  exists w',
    gatewayMonitor (Mock.scripted Mock.allGood) neverNotExist
      [inr [10; 0; 0; 1]; inl (errorString "no route"); inr [10; 0; 0; 254];
       inl (errorString "no route")]
      (snd happyRun) = (Returns tt, w') /\
    pending w' = pending (snd happyRun) /\
    exists cur, Client_GatewayIP (client w') = Some cur /\
                IP_Equal [10; 0; 0; 254] cur = true.
Proof.
  apply (gatewayMonitor_tracks_last (Mock.scripted Mock.allGood) neverNotExist
           [inr [10; 0; 0; 1]; inl (errorString "no route"); inr [10; 0; 0; 254];
            inl (errorString "no route")]
           (hostAddr Mock.serverIP) (snd happyRun)).
  - reflexivity.
  - reflexivity.
  - cbn. discriminate.
Defined.

Lemma Disconnect_after_gateway_change_witness :
  connected (Mock.scripted Mock.allGood) (client (snd happyRun)) /\
  exists w1 res w2 e3 before after,
    updateGatewayIP (Mock.scripted Mock.allGood) neverNotExist [10; 0; 0; 1]
      (snd happyRun) = (Returns tt, w1) /\
    Disconnect (Mock.scripted Mock.allGood) Background w1 = (Returns res, w2) /\
    events w2 = (events w1 ++ before
                 ++ EvRouteDelete {| Gateway := Some [10; 0; 0; 1]; IfName := "";
                                     Routes := [hostAddr Mock.serverIP] |} e3
                    :: after)%list /\
    (forall o r, ~ In (EvRouteDelete o r) before) /\
    (forall o r, ~ In (EvRouteDelete o r) after).
Proof.
  split.
  - unfold connected. cbn. repeat split; discriminate.
  - apply (Disconnect_after_gateway_change (Mock.scripted Mock.allGood)
             neverNotExist [10; 0; 0; 1] (hostAddr Mock.serverIP) Background
             (snd happyRun)).
    + unfold connected. cbn. repeat split; discriminate.
    + reflexivity.
Defined.
